(** * Payment gateway microservice: adapters and dispatcher

    A shallow embedding of [microservice/schema.py],
    [microservice/gateways/cardconnect.py], [microservice/gateways/payload.py]
    and of [microservice/main.py]: the validation of the header, the log
    record and its shipment, and the two endpoints.

    Python values are a small inductive type, a [dict] with string keys is an
    association list in insertion order, and a method body is a computation in
    a state-and-exception monad: the state holds the local variables of the
    method, the exception is the Python exception in flight.  Everything the
    code reaches outside the repository (the HTTP client, the vendor SDK,
    the socket of the log collector, [json.loads], [repr], the environment)
    is collected in one record, [World], and every call that leaves the
    process is written to a trace. *)

From Stdlib Require Import String Ascii List ZArith QArith Bool Lia
  DecimalString.
Import ListNotations.
Local Open Scope string_scope.
Local Open Scope Z_scope.
Set Warnings "-register-all".

(** ** Python values *)

Module Py.

Inductive pyval : Type :=
| PNone
| PBool (b : bool)
| PInt (z : Z)
| PFloat (q : Q)
| PStr (s : string)
| PList (l : list pyval)
| PDict (d : list (string * pyval)).

Definition dict := list (string * pyval).

(** [bool(v)]: the truth test of [if v] and of [v and ...]. *)
Definition truthy (v : pyval) : bool :=
  match v with
  | PNone => false
  | PBool b => b
  | PInt z => negb (z =? 0)
  | PFloat q => negb (Qnum q =? 0)
  | PStr s => negb (s =? "")%string
  | PList l => match l with [] => false | _ => true end
  | PDict d => match d with [] => false | _ => true end
  end.

(** [v == s] for a string literal [s]. *)
Definition eq_str (v : pyval) (s : string) : bool :=
  match v with
  | PStr t => (t =? s)%string
  | _ => false
  end.

(** [v == n] for an integer literal [n]; [True == 1] and [2.0 == 2] hold. *)
Definition eq_int (v : pyval) (n : Z) : bool :=
  match v with
  | PInt z => z =? n
  | PBool b => (if b then 1 else 0) =? n
  | PFloat q => Qeq_bool q (inject_Z n)
  | _ => false
  end.

Definition of_option (o : option string) : pyval :=
  match o with
  | Some s => PStr s
  | None => PNone
  end.

Definition type_name (v : pyval) : string :=
  match v with
  | PNone => "NoneType"
  | PBool _ => "bool"
  | PInt _ => "int"
  | PFloat _ => "float"
  | PStr _ => "str"
  | PList _ => "list"
  | PDict _ => "dict"
  end.

(** *** Dictionaries *)

Fixpoint lookup (k : string) (d : dict) : option pyval :=
  match d with
  | [] => None
  | (k', v) :: d' => if (k' =? k)%string then Some v else lookup k d'
  end.

Definition has_key (k : string) (d : dict) : bool :=
  match lookup k d with
  | Some _ => true
  | None => false
  end.

(** [d.get(k, None)] *)
Definition dict_get (d : dict) (k : string) : pyval :=
  match lookup k d with
  | Some v => v
  | None => PNone
  end.

(** [d[k] = v]: an existing key keeps its place, a new one goes last. *)
Fixpoint dict_set (k : string) (v : pyval) (d : dict) : dict :=
  match d with
  | [] => [(k, v)]
  | (k', v') :: d' =>
      if (k' =? k)%string then (k, v) :: d' else (k', v') :: dict_set k v d'
  end.

(** [del d[k]] for a key that is there. *)
Fixpoint dict_del (k : string) (d : dict) : dict :=
  match d with
  | [] => []
  | (k', v') :: d' =>
      if (k' =? k)%string then d' else (k', v') :: dict_del k d'
  end.


(** [set(d) >= set(required)] *)
Definition keys_superset (d : dict) (required : list string) : bool :=
  forallb (fun k => has_key k d) required.

(** *** Strings *)

(** [s[:n]] *)
Fixpoint take (n : nat) (s : string) : string :=
  match n, s with
  | O, _ => EmptyString
  | S _, EmptyString => EmptyString
  | S n', String c s' => String c (take n' s')
  end.

(** [s[n:]] *)
Fixpoint drop (n : nat) (s : string) : string :=
  match n, s with
  | O, _ => s
  | S _, EmptyString => EmptyString
  | S n', String _ s' => drop n' s'
  end.

(** [sub in s] for two strings. *)
Definition is_substring (sub s : string) : bool :=
  match String.index 0 sub s with
  | Some _ => true
  | None => false
  end.

(** *** Exceptions

    A value of [exn] is an instance of [Exception]: its class name, the names
    of the classes it inherits from (below [Exception]), what [str(e)] gives,
    its instance attributes ([e.__dict__]) and the attributes its class
    gives it.  The one class whose attributes the adapters read without a
    guard, the SDK's [TransactionDeclined], carries them typed, as the SDK
    builds it: the declined transaction's [status_code] and
    [status_message], and the class attribute [http_code]. *)

Inductive exn_kind : Type :=
| Plain
| Declined (status_code status_message : pyval) (http_code : Z).

Record exn : Type := mk_exn {
  exn_class : string;
  exn_bases : list string;
  exn_str : string;
  exn_dict : dict;
  exn_class_attrs : dict;
  exn_kind_of : exn_kind
}.

(** [isinstance(e, cls)] by class name. *)
Definition isinstance (e : exn) (cls : string) : bool :=
  (cls =? "Exception")%string
  || (exn_class e =? cls)%string
  || existsb (String.eqb cls) (exn_bases e).

Definition is_TransactionDeclined (e : exn) : bool :=
  match exn_kind_of e with
  | Declined _ _ _ => true
  | Plain => false
  end.

Definition builtin (cls : string) (bases : list string) (msg : string) : exn :=
  mk_exn cls bases msg [] [] Plain.

Definition KeyError (k : string) : exn :=
  builtin "KeyError" ["LookupError"] ("'" ++ k ++ "'").
Definition TypeError (msg : string) : exn := builtin "TypeError" [] msg.
Definition AttributeError (msg : string) : exn := builtin "AttributeError" [] msg.
Definition ValueError (msg : string) : exn := builtin "ValueError" [] msg.

Inductive res (A : Type) : Type :=
| Val (a : A)
| Exn (e : exn).
Arguments Val {A} a.
Arguments Exn {A} e.

(** [v.get(k, None)]: only a [dict] has the method. *)
Definition get (v : pyval) (k : string) : res pyval :=
  match v with
  | PDict d => Val (dict_get d k)
  | _ => Exn (AttributeError
                ("'" ++ type_name v ++ "' object has no attribute 'get'"))
  end.

(** [v[k]] for a string key [k]. *)
Definition getitem (v : pyval) (k : string) : res pyval :=
  match v with
  | PDict d =>
      match lookup k d with
      | Some x => Val x
      | None => Exn (KeyError k)
      end
  | PStr _ => Exn (TypeError "string indices must be integers")
  | PList _ => Exn (TypeError "list indices must be integers or slices, not str")
  | _ => Exn (TypeError ("'" ++ type_name v ++ "' object is not subscriptable"))
  end.

(** [k in v] for a string key [k]. *)
Definition contains (k : string) (v : pyval) : res bool :=
  match v with
  | PDict d => Val (has_key k d)
  | PList l => Val (existsb (fun x => eq_str x k) l)
  | PStr s => Val (is_substring k s)
  | _ => Exn (TypeError
                ("argument of type '" ++ type_name v ++ "' is not iterable"))
  end.

(** [v[:n]] on an optional string: [None] is not subscriptable. *)
Definition slice_to (n : nat) (v : option string) : res string :=
  match v with
  | Some s => Val (take n s)
  | None => Exn (TypeError "'NoneType' object is not subscriptable")
  end.

(** [v[n:]] on an optional string. *)
Definition slice_from (n : nat) (v : option string) : res string :=
  match v with
  | Some s => Val (drop n s)
  | None => Exn (TypeError "'NoneType' object is not subscriptable")
  end.

(** [e.a] on an exception: the instance attribute, else the attribute of
    the class, else an [AttributeError]. *)
Definition attribute (e : exn) (a : string) : res pyval :=
  match lookup a (exn_dict e) with
  | Some v => Val v
  | None =>
      match lookup a (exn_class_attrs e) with
      | Some v => Val v
      | None =>
          Exn (AttributeError
                 ("'" ++ exn_class e ++ "' object has no attribute '" ++ a ++ "'"))
      end
  end.

End Py.
Export Py.

(** ** The monad of a method body

    A computation reads and writes the method's local variables [L], appends
    to the trace of outgoing calls, and ends with a value or with an exception
    in flight.  An exception keeps the state reached when it was raised, which
    is what an [except] or [finally] block then sees. *)

Module Exec.

Section Monad.
Context {E L : Type}.

Definition M (A : Type) : Type := L * list E -> res A * (L * list E).

Definition ret {A} (a : A) : M A := fun s => (Val a, s).

Definition bind {A B} (c : M A) (k : A -> M B) : M B :=
  fun s =>
    match c s with
    | (Val a, s') => k a s'
    | (Exn e, s') => (Exn e, s')
    end.

Definition raise {A} (e : exn) : M A := fun s => (Exn e, s).

Definition lift {A} (r : res A) : M A := fun s => (r, s).

Definition read : M L := fun s => (Val (fst s), s).

Definition modify (f : L -> L) : M unit :=
  fun s => (Val tt, (f (fst s), snd s)).

(** An outgoing call: it is written to the trace, then it returns or
    raises as the outside world decides. *)
Definition call {A} (ev : E) (r : res A) : M A :=
  fun s => (r, (fst s, (snd s ++ [ev])%list)).

(** [try: body  except Exception as e: handler e] *)
Definition try_except {A} (body : M A) (handler : exn -> M A) : M A :=
  fun s =>
    match body s with
    | (Val a, s') => (Val a, s')
    | (Exn e, s') => handler e s'
    end.

(** [try: body  finally: fin]: [fin] runs either way; what [body] raised
    stays in flight unless [fin] raises itself. *)
Definition try_finally {A} (body : M A) (fin : M unit) : M A :=
  fun s =>
    match body s with
    | (r, s') =>
        match fin s' with
        | (Val _, s'') => (r, s'')
        | (Exn e, s'') => (Exn e, s'')
        end
    end.
End Monad.

Arguments M : clear implicits.

Declare Scope exec_scope.
Delimit Scope exec_scope with exec.
Notation "x <- c ;; k" := (bind c (fun x => k))
  (at level 61, c at next level, right associativity) : exec_scope.
Notation "c ;; k" := (bind c (fun _ => k))
  (at level 61, right associativity) : exec_scope.

End Exec.
Export Exec.

(** ** The outside world *)

Module world.

(** What [requests] hands back: [response.status_code], [response.text]. *)
Record Response : Type := mk_response {
  status_code : Z;
  text : string
}.

(** [bool(response)] is [response.ok]: no 4xx and no 5xx status. *)
Definition response_ok (r : Response) : bool :=
  negb ((400 <=? status_code r) && (status_code r <? 600)).

(** [requests.post(url, json=..., auth=HTTPBasicAuth(usr, pwd))] and
    [requests.get(url, auth=...)]. *)
Inductive http_call : Type :=
| Post (url : string) (json : pyval) (auth : pyval * pyval)
| Get (url : string) (auth : pyval * pyval).

(** The calls of the Payload SDK the adapter makes. *)
Inductive sdk_call : Type :=
| Payment_create (amount payment_method processing_id description : pyval)
| Payment_get (id : string)
| Transaction_get (id : string)
| Transaction_update (target : dict) (status description : pyval)
| Refund_create (amount ledger description : pyval).

(** The log collector as the socket of [send_log_message] sees it: whether
    the connection attempt number [n] succeeds, and what sending, shutting
    down and closing give.  The creation of the socket is taken to
    succeed. *)
Record Socket : Type := mk_socket {
  connect : nat -> res unit;
  send : dict -> res unit;
  shutdown : res unit;
  close : res unit
}.

Inductive log_event : Type :=
| Connect (attempt : nat)
| Send (message : dict)
| Shutdown
| Close.

Inductive event : Type :=
| Http (c : http_call)
| Sdk (api_key : pyval) (c : sdk_call)
| Adapter (gateway method : string)
| Log (l : log_event).

(** An object the SDK hands back is known by the attributes it holds;
    what reading an attribute it does not hold gives ([None], or an
    [AttributeError]) is decided by the SDK's classes, outside this
    repository: [missing_attribute]. *)
Record World : Type := mk_world {
  requests : http_call -> res Response;
  payload_sdk : pyval -> sdk_call -> res dict;
  missing_attribute : dict -> string -> res pyval;
  json_loads : string -> res pyval;
  repr : pyval -> string;
  CARDCONNECT_HOSTNAME : string;
  logger : Socket
}.

(** [o.a] on an object of the SDK. *)
Definition sdk_getattr (W : World) (o : dict) (a : string) : res pyval :=
  match lookup a o with
  | Some v => Val v
  | None => missing_attribute W o a
  end.

(** [str(v)], and what an f-string puts for [{v}]. *)
Definition str (W : World) (v : pyval) : string :=
  match v with
  | PStr s => s
  | _ => repr W v
  end.

Definition run {L A} (c : M event L A) (l0 : L) : res A * list event :=
  let '(r, (_, tr)) := c (l0, []) in (r, tr).

End world.
Export world.

(** ** schema.py *)

Module schema.

Inductive GatewayType : Type := Payload | CardConnect.

Definition GatewayType_value (g : GatewayType) : Z :=
  match g with
  | Payload => 1
  | CardConnect => 2
  end.

Definition GatewayType_name (g : GatewayType) : string :=
  match g with
  | Payload => "Payload"
  | CardConnect => "CardConnect"
  end.

Definition GatewayType_items : list GatewayType := [Payload; CardConnect].

(** [GatewayType(z)] *)
Definition GatewayType_of (W : World) (z : Z) : res GatewayType :=
  if z =? 1 then Val Payload
  else if z =? 2 then Val CardConnect
  else Exn (ValueError (repr W (PInt z) ++ " is not a valid GatewayType")).

(** [GatewayCredentials.<g>.value] *)
Definition GatewayCredentials (g : GatewayType) : list string :=
  match g with
  | Payload => ["apiKey"; "processingId"]
  | CardConnect => ["username"; "password"; "merchantId"]
  end.

(** The [Payment] model.  The fields it shares with [Refund] are prefixed
    with [p_] here and [r_] there; the three card fields have the default
    [None] ([Query(None, ...)]) and are options like the [Optional] ones. *)
Record Payment : Type := mk_payment {
  p_gatewayTypeId : Z;
  p_gatewayTypeName : string;
  p_merchantAccountId : Z;
  p_credentials : dict;
  account : option string;
  expDate : option string;
  p_amount : Q;
  p_userId : Z;
  cvv2 : option string;
  p_currencyType : Z;
  name : option string;
  street : option string;
  city : option string;
  state : option string;
  zip : option string;
  country : option string;
  p_comment : option string;
  userName : option string
}.

(** The [Refund] model. *)
Record Refund : Type := mk_refund {
  r_gatewayTypeId : Z;
  r_gatewayTypeName : string;
  r_merchantAccountId : Z;
  r_credentials : dict;
  paymentTransactionId : string;
  r_userId : Z;
  r_comment : option string;
  r_amount : option Q;
  maskedCardNumber : option string;
  r_currencyType : option Z
}.

Inductive CurrencyCode : Type := USD | CAD | GBP | EUR.

Definition CurrencyCode_name (c : CurrencyCode) : string :=
  match c with
  | USD => "USD"
  | CAD => "CAD"
  | GBP => "GBP"
  | EUR => "EUR"
  end.

Definition CurrencyCode_lookup (z : Z) : option CurrencyCode :=
  if z =? 840 then Some USD
  else if z =? 124 then Some CAD
  else if z =? 826 then Some GBP
  else if z =? 978 then Some EUR
  else None.

(** [CurrencyCode(z)]: a value outside the enumeration is a [ValueError]. *)
Definition CurrencyCode_of (W : World) (z : Z) : res CurrencyCode :=
  match CurrencyCode_lookup z with
  | Some c => Val c
  | None => Exn (ValueError (repr W (PInt z) ++ " is not a valid CurrencyCode"))
  end.

(** [GatewayResponses.__members__] with each member's value. *)
Definition GatewayResponses : list (string * Z) :=
  [ ("Approved", 200); ("BadRequest", 400); ("Unauthorized", 401);
    ("Forbidden", 403); ("NotFound", 404); ("Conflict", 409);
    ("InvalidAttributes", 422); ("TooManyRequests", 429);
    ("InternalServerError", 500); ("ServiceUnavailable", 503) ].

Fixpoint GatewayResponses_member (n : string) (ms : list (string * Z))
  : option Z :=
  match ms with
  | [] => None
  | (m, v) :: ms' =>
      if (m =? n)%string then Some v else GatewayResponses_member n ms'
  end.

End schema.
Export schema.

(** ** gateways/cardconnect.py *)

Module cardconnect.

Local Open Scope exec_scope.

Definition CARDCONNECT_UAT_TEST_HOSTNAME : string := "fts-uat.cardconnect.com".
Definition CARDCONNECT_PROD_HOSTNAME : string := "fts.cardconnect.com".

Module CardConnectResponseStatusType.
Definition Approved : string := "A".
Definition Retry : string := "B".
Definition Declined : string := "C".
End CardConnectResponseStatusType.

Module CardConnectVoidableStatusType.
Definition Voidable : string := "Y".
Definition NotVoidable : string := "N".
End CardConnectVoidableStatusType.

Module CardConnectRefundableStatusType.
Definition Refundable : string := "Y".
Definition NotRefundable : string := "N".
End CardConnectRefundableStatusType.

Module CardConnectVoidRespAuthCodeType.
Definition Successful : string := "REVERS".
Definition Unsuccessful : string := "NULL".
End CardConnectVoidRespAuthCodeType.

Record CardConnectProcessor : Type := mk_processor {
  usr : pyval;
  pwd : pyval;
  merchantId : pyval;
  authEndPoint : string;
  inquireEndpointBaseUrl : string;
  voidEndpoint : string;
  refundEndpoint : string
}.

(** [CardConnectProcessor.__init__] *)
Definition init (credentials : dict) (cardconnect_hostname : string)
  : res CardConnectProcessor :=
  match getitem (PDict credentials) "username" with
  | Exn e => Exn e
  | Val u =>
  match getitem (PDict credentials) "password" with
  | Exn e => Exn e
  | Val p =>
  match getitem (PDict credentials) "merchantId" with
  | Exn e => Exn e
  | Val m =>
      let cc_hostname :=
        if truthy (PStr cardconnect_hostname) then cardconnect_hostname
        else CARDCONNECT_PROD_HOSTNAME in
      Val (mk_processor u p m
             ("https://" ++ cc_hostname ++ "/cardconnect/rest/auth")
             ("https://" ++ cc_hostname ++ "/cardconnect/rest/inquire")
             ("https://" ++ cc_hostname ++ "/cardconnect/rest/void")
             ("https://" ++ cc_hostname ++ "/cardconnect/rest/refund"))
  end end end.

Definition auth (self : CardConnectProcessor) : pyval * pyval :=
  (usr self, pwd self).

(** [append_json_or_string_to_array]: both [except] clauses append the
    error text and then the raw string. *)
Definition append_json_or_string_to_array
    (W : World) (json_or_string : string) (array : list pyval) : list pyval :=
  match json_loads W json_or_string with
  | Val string_converted_to_json => (array ++ [string_converted_to_json])%list
  | Exn json_err =>
      if isinstance json_err "JSONDecodeError" then
        (array ++ [PStr ("error decoding string into json: " ++ exn_str json_err);
                   PStr json_or_string])%list
      else
        (array ++ [PStr ("error converting string into json: " ++ exn_str json_err);
                   PStr json_or_string])%list
  end.

(** The local variables of [process_payment] and of [process_refund]:
    [transaction_id] is [payment_transaction_id] or [refund_transaction_id],
    [success] is [payment_success] or [refund_success], [response] is
    [response] or [payment_status_response], [result] is [processing_result]
    or [refund_result]. *)
Record locals : Type := mk_locals {
  transaction_id : pyval;
  http_status_code : Z;
  success : bool;
  message : pyval;
  gateway_response_data : list pyval;
  response : option Response;
  void_resp : option Response;
  refund_response : option Response;
  result : pyval
}.

Definition initial : locals :=
  mk_locals PNone 200 false PNone [] None None None PNone.

Definition set_transaction_id (v : pyval) (l : locals) : locals :=
  mk_locals v (http_status_code l) (success l) (message l)
    (gateway_response_data l) (response l) (void_resp l) (refund_response l)
    (result l).
Definition set_http_status_code (z : Z) (l : locals) : locals :=
  mk_locals (transaction_id l) z (success l) (message l)
    (gateway_response_data l) (response l) (void_resp l) (refund_response l)
    (result l).
Definition set_success (b : bool) (l : locals) : locals :=
  mk_locals (transaction_id l) (http_status_code l) b (message l)
    (gateway_response_data l) (response l) (void_resp l) (refund_response l)
    (result l).
Definition set_message (m : pyval) (l : locals) : locals :=
  mk_locals (transaction_id l) (http_status_code l) (success l) m
    (gateway_response_data l) (response l) (void_resp l) (refund_response l)
    (result l).
Definition set_gateway_response_data (d : list pyval) (l : locals) : locals :=
  mk_locals (transaction_id l) (http_status_code l) (success l) (message l)
    d (response l) (void_resp l) (refund_response l) (result l).
Definition set_response (r : option Response) (l : locals) : locals :=
  mk_locals (transaction_id l) (http_status_code l) (success l) (message l)
    (gateway_response_data l) r (void_resp l) (refund_response l) (result l).
Definition set_void_resp (r : option Response) (l : locals) : locals :=
  mk_locals (transaction_id l) (http_status_code l) (success l) (message l)
    (gateway_response_data l) (response l) r (refund_response l) (result l).
Definition set_refund_response (r : option Response) (l : locals) : locals :=
  mk_locals (transaction_id l) (http_status_code l) (success l) (message l)
    (gateway_response_data l) (response l) (void_resp l) r (result l).
Definition set_result (v : pyval) (l : locals) : locals :=
  mk_locals (transaction_id l) (http_status_code l) (success l) (message l)
    (gateway_response_data l) (response l) (void_resp l) (refund_response l) v.

Definition Body := M event locals.

(** [gateway_response_data.append(v)] *)
Definition append_data (v : pyval) : Body unit :=
  modify (fun l => set_gateway_response_data (gateway_response_data l ++ [v])%list l).

(** [gateway_response_data = append_json_or_string_to_array(text, gateway_response_data)] *)
Definition append_text (W : World) (t : string) : Body unit :=
  modify (fun l =>
    set_gateway_response_data
      (append_json_or_string_to_array W t (gateway_response_data l)) l).

(** [message += suffix]: [None] has no [+=]. *)
Definition message_add (suffix : string) : Body unit :=
  l <- read ;;
  match message l with
  | PStr m => modify (set_message (PStr (m ++ suffix)))
  | v => raise (TypeError ("unsupported operand type(s) for +=: '"
                           ++ type_name v ++ "' and 'str'"))
  end.

(** The test [j.get(k, None) and j[k] == v]. *)
Definition field_is (j : pyval) (k v : string) : Body bool :=
  g <- lift (get j k) ;;
  if truthy g then
    x <- lift (getitem j k) ;;
    ret (eq_str x v)
  else ret false.

(** The start of each [except Exception as e] block: the exception text is
    appended, then the response text if [resp and resp.text]. *)
Definition log_exception (W : World) (label : string)
    (resp : locals -> option Response) (e : exn) : Body unit :=
  append_data (PStr (label ++ exn_str e)) ;;
  l <- read ;;
  match resp l with
  | Some r =>
      if response_ok r && truthy (PStr (text r)) then append_text W (text r)
      else ret tt
  | None => ret tt
  end.

(** *** process_payment *)

(** Lines 122-145: the request body sent to the auth endpoint. *)
Definition auth_data (W : World) (self : CardConnectProcessor)
    (payment : Payment) : res dict :=
  match CurrencyCode_of W (p_currencyType payment) with
  | Exn e => Exn e
  | Val currency =>
      let data :=
        [ ("merchid", merchantId self);
          ("account", of_option (account payment));
          ("expiry", of_option (expDate payment));
          ("amount", PFloat (p_amount payment));
          ("capture", PStr "Y");
          ("cvv2", of_option (cvv2 payment));
          ("currency", PStr (CurrencyCode_name currency));
          ("name", of_option (name payment));
          ("ecomind", PStr "E") ] in
      let data :=
        if truthy (of_option (zip payment))
           && negb (eq_str (of_option (zip payment)) "")
        then dict_set "postal" (of_option (zip payment)) data else data in
      let data :=
        if truthy (of_option (name payment))
           && negb (eq_str (of_option (name payment)) "")
        then dict_set "name" (of_option (name payment)) data else data in
      let description :=
        if truthy (of_option (p_comment payment))
        then of_option (p_comment payment) else PStr "" in
      Val (dict_set "userfields"
             (PList [PDict [("Description", description)]]) data)
  end.

Definition payment_try (W : World) (self : CardConnectProcessor)
    (payment : Payment) : Body unit :=
  let auth_url := authEndPoint self in
  data <- lift (auth_data W self payment) ;;
  resp <- call (Http (Post auth_url (PDict data) (auth self)))
               (requests W (Post auth_url (PDict data) (auth self))) ;;
  modify (set_response (Some resp)) ;;
  let response_status_code := status_code resp in
  if response_status_code =? 200 then
    response_as_json <- lift (json_loads W (text resp)) ;;
    append_data response_as_json ;;
    approved <- field_is response_as_json "respstat"
                  CardConnectResponseStatusType.Approved ;;
    (if approved then
       modify (set_success true) ;;
       modify (set_message (PStr "Success."))
     else
       modify (set_success false) ;;
       modify (set_http_status_code 400) ;;
       retry <- field_is response_as_json "respstat"
                  CardConnectResponseStatusType.Retry ;;
       (if retry then modify (set_message (PStr "Please retry the request."))
        else modify (set_message (PStr "Authorization failed."))) ;;
       resptext <- lift (get response_as_json "resptext") ;;
       if truthy resptext then
         t <- lift (getitem response_as_json "resptext") ;;
         message_add (" " ++ str W t ++ ".")
       else ret tt) ;;
    retref <- lift (get response_as_json "retref") ;;
    if truthy retref then
      r <- lift (getitem response_as_json "retref") ;;
      modify (set_transaction_id r)
    else ret tt
  else if response_status_code =? 401 then
    append_text W (text resp) ;;
    modify (set_success false) ;;
    modify (set_http_status_code response_status_code) ;;
    modify (set_message (PStr "There was an authorization error with your request."))
  else
    append_text W (text resp) ;;
    modify (set_success false) ;;
    modify (set_http_status_code response_status_code) ;;
    modify (set_message (PStr "There was a network error with your request.")).

Definition payment_except (W : World) (e : exn) : Body unit :=
  log_exception W "process_payment exception: " response e ;;
  modify (set_http_status_code 500) ;;
  modify (set_message (PStr "There was an internal service error with your request.")).

Definition processing_result (payment : Payment) (l : locals) : pyval :=
  let payload_processing_status := http_status_code l in
  PDict [ ("success", PBool (success l));
          ("paymentTransactionId", transaction_id l);
          ("statusCode", PInt payload_processing_status);
          ("gatewayHttpStatusCode", PInt (http_status_code l));
          ("responseMessage", message l);
          ("merchantAccountId", PInt (p_merchantAccountId payment));
          ("gatewayResponseData", PList (gateway_response_data l)) ].

Definition payment_body (W : World) (self : CardConnectProcessor)
    (payment : Payment) : Body pyval :=
  try_finally
    (try_except (payment_try W self payment) (payment_except W))
    (l <- read ;; modify (set_result (processing_result payment l))) ;;
  l <- read ;;
  ret (result l).

Definition process_payment (W : World) (self : CardConnectProcessor)
    (payment : Payment) : res pyval * list event :=
  run (payment_body W self payment) initial.

(** *** process_refund *)

Definition opt_float (o : option Q) : pyval :=
  match o with
  | Some q => PFloat q
  | None => PNone
  end.

(** Lines 246-320: the void call and the reading of its answer. *)
Definition void_try (W : World) (self : CardConnectProcessor)
    (refund : Refund) : Body unit :=
  let void_url := voidEndpoint self in
  let data := PDict [ ("retref", PStr (paymentTransactionId refund));
                      ("merchid", merchantId self) ] in
  resp <- call (Http (Post void_url data (auth self)))
               (requests W (Post void_url data (auth self))) ;;
  modify (set_void_resp (Some resp)) ;;
  let void_resp_status_code := status_code resp in
  if void_resp_status_code =? 200 then
    void_resp_json <- lift (json_loads W (text resp)) ;;
    append_data void_resp_json ;;
    a1 <- field_is void_resp_json "respstat"
            CardConnectResponseStatusType.Approved ;;
    c1 <- (if a1 then field_is void_resp_json "authcode"
                        CardConnectVoidRespAuthCodeType.Successful
           else ret false) ;;
    (if c1 then
       modify (set_success true) ;;
       modify (set_message (PStr "Successfully voided transaction."))
     else
       a2 <- field_is void_resp_json "respstat"
               CardConnectResponseStatusType.Approved ;;
       c2 <- (if a2 then field_is void_resp_json "authcode"
                           CardConnectVoidRespAuthCodeType.Unsuccessful
              else ret false) ;;
       if c2 then
         modify (set_message (PStr "Void transaction was unsuccessful.")) ;;
         error_resp_txt <- lift (getitem void_resp_json "resptext") ;;
         message_add (" " ++ str W error_resp_txt) ;;
         modify (set_http_status_code 400)
       else
         authcode <- lift (get void_resp_json "authcode") ;;
         c3 <- (if negb (truthy authcode)
                then field_is void_resp_json "respstat"
                       CardConnectResponseStatusType.Approved
                else ret false) ;;
         if c3 then
           modify (set_success true) ;;
           modify (set_message (PStr "success"))
         else
           retry <- field_is void_resp_json "respstat"
                      CardConnectResponseStatusType.Retry ;;
           (* line 303 is a bare string: in the other case [message] keeps
              the value it had *)
           (if retry
            then modify (set_message (PStr "Unable to complete void transaction."))
            else ret tt) ;;
           error_resp_txt <- lift (getitem void_resp_json "resptext") ;;
           message_add (" " ++ str W error_resp_txt) ;;
           modify (set_http_status_code 409)) ;;
    retref <- lift (getitem void_resp_json "retref") ;;
    modify (set_transaction_id retref)
  else if void_resp_status_code =? 401 then
    append_text W (text resp) ;;
    modify (set_http_status_code void_resp_status_code) ;;
    modify (set_message
      (PStr "There was an authorization error while processing a void request."))
  else
    append_text W (text resp) ;;
    modify (set_http_status_code void_resp_status_code) ;;
    modify (set_transaction_id (PStr (paymentTransactionId refund))) ;;
    modify (set_message (PStr "Unable to complete void transaction.")).

Definition void_except (W : World) (refund : Refund) (e : exn) : Body unit :=
  log_exception W "process_refund void exception: " void_resp e ;;
  modify (set_message
    (PStr "An unknown error occurred while processing void transaction.")) ;;
  modify (set_http_status_code 500) ;;
  modify (set_transaction_id (PStr (paymentTransactionId refund))).

(** Lines 336-391: the refund call and the reading of its answer. *)
Definition refund_try (W : World) (self : CardConnectProcessor)
    (refund : Refund) : Body unit :=
  let refund_url := refundEndpoint self in
  let data := PDict [ ("retref", PStr (paymentTransactionId refund));
                      ("merchid", merchantId self);
                      ("amount", opt_float (r_amount refund)) ] in
  resp <- call (Http (Post refund_url data (auth self)))
               (requests W (Post refund_url data (auth self))) ;;
  modify (set_refund_response (Some resp)) ;;
  let refund_response_status_code := status_code resp in
  if refund_response_status_code =? 200 then
    refund_resp_json <- lift (json_loads W (text resp)) ;;
    append_data refund_resp_json ;;
    approved <- field_is refund_resp_json "respstat"
                  CardConnectResponseStatusType.Approved ;;
    (if approved then
       modify (set_success true) ;;
       modify (set_message (PStr "Successful refund transaction."))
     else
       modify (set_http_status_code 400) ;;
       retry <- field_is refund_resp_json "respstat"
                  CardConnectResponseStatusType.Retry ;;
       (if retry then modify (set_message (PStr "Please retry the request."))
        else modify (set_message (PStr "Refund failed."))) ;;
       error_resp_txt <- lift (getitem refund_resp_json "resptext") ;;
       message_add (" " ++ str W error_resp_txt)) ;;
    retref <- lift (get refund_resp_json "retref") ;;
    if truthy retref then
      r <- lift (getitem refund_resp_json "retref") ;;
      modify (set_transaction_id r)
    else ret tt
  else if refund_response_status_code =? 401 then
    append_text W (text resp) ;;
    modify (set_http_status_code refund_response_status_code) ;;
    modify (set_message
      (PStr "There was an authorization error while processing the refund request."))
  else
    append_text W (text resp) ;;
    modify (set_http_status_code refund_response_status_code) ;;
    modify (set_transaction_id (PStr (paymentTransactionId refund))) ;;
    modify (set_message (PStr "Unable to complete refund transaction")).

Definition refund_except (W : World) (refund : Refund) (e : exn) : Body unit :=
  log_exception W "process_refund refund exception: " refund_response e ;;
  modify (set_message
    (PStr "An unknown error occurred while processing refund transaction.")) ;;
  modify (set_http_status_code 500) ;;
  modify (set_transaction_id (PStr (paymentTransactionId refund))).

(** Lines 255-332: the void call with its own [try] and [except]. *)
Definition void_branch (W : World) (self : CardConnectProcessor)
    (refund : Refund) : Body unit :=
  try_except (void_try W self refund) (void_except W refund).

(** Lines 346-402: the refund call with its own [try] and [except]. *)
Definition refund_branch (W : World) (self : CardConnectProcessor)
    (refund : Refund) : Body unit :=
  try_except (refund_try W self refund) (refund_except W refund).

Definition inquire_url (W : World) (self : CardConnectProcessor)
    (refund : Refund) : string :=
  inquireEndpointBaseUrl self
  ++ ("/" ++ paymentTransactionId refund ++ "/" ++ str W (merchantId self)).

(** Lines 230-426: the inquiry and the decision taken from its answer. *)
Definition inquire_try (W : World) (self : CardConnectProcessor)
    (refund : Refund) : Body unit :=
  let url := inquire_url W self refund in
  resp <- call (Http (Get url (auth self))) (requests W (Get url (auth self))) ;;
  modify (set_response (Some resp)) ;;
  let payment_status_response_code := status_code resp in
  if payment_status_response_code =? 200 then
    payment_status_response_json <- lift (json_loads W (text resp)) ;;
    append_data payment_status_response_json ;;
    approved <- field_is payment_status_response_json "respstat"
                  CardConnectResponseStatusType.Approved ;;
    if approved then
      voidable <- field_is payment_status_response_json "voidable"
                    CardConnectVoidableStatusType.Voidable ;;
      if voidable then void_branch W self refund
      else
        refundable <- field_is payment_status_response_json "refundable"
                        CardConnectRefundableStatusType.Refundable ;;
        if refundable then refund_branch W self refund
        else
          modify (set_message (PStr "The refund cannot be processed at this time.")) ;;
          modify (set_http_status_code 409) ;;
          modify (set_transaction_id (PStr (paymentTransactionId refund)))
    else
      modify (set_message
        (PStr "The payment requested was not authorized or does not exist.")) ;;
      modify (set_http_status_code 409) ;;
      modify (set_transaction_id (PStr (paymentTransactionId refund)))
  else if payment_status_response_code =? 401 then
    append_text W (text resp) ;;
    modify (set_http_status_code payment_status_response_code) ;;
    modify (set_message
      (PStr "There was an authorization error while accessing your previous payment status."))
  else
    append_text W (text resp) ;;
    modify (set_message
      (PStr "Unable to complete request for payment status. Please contact BlueVolt support.")) ;;
    modify (set_http_status_code payment_status_response_code) ;;
    modify (set_transaction_id (PStr (paymentTransactionId refund))).

Definition inquire_except (W : World) (refund : Refund) (e : exn) : Body unit :=
  log_exception W "process_refund inquiry exception: " response e ;;
  modify (set_message
    (PStr "An unknown error occurred while retrieving your payment status. The refund was unsuccessful.")) ;;
  modify (set_http_status_code 500) ;;
  modify (set_transaction_id (PStr (paymentTransactionId refund))).

Definition refund_result (refund : Refund) (l : locals) : pyval :=
  let payload_processing_status := http_status_code l in
  PDict [ ("success", PBool (success l));
          ("refundTransactionId", transaction_id l);
          ("statusCode", PInt payload_processing_status);
          ("gatewayHttpStatusCode", PInt (http_status_code l));
          ("responseMessage", message l);
          ("merchantAccountId", PInt (r_merchantAccountId refund));
          ("gatewayResponseData", PList (gateway_response_data l)) ].

Definition refund_body (W : World) (self : CardConnectProcessor)
    (refund : Refund) : Body pyval :=
  try_finally
    (try_except (inquire_try W self refund) (inquire_except W refund))
    (l <- read ;; modify (set_result (refund_result refund l))) ;;
  l <- read ;;
  ret (result l).

Definition process_refund (W : World) (self : CardConnectProcessor)
    (refund : Refund) : res pyval * list event :=
  run (refund_body W self refund) initial.

End cardconnect.

(** ** gateways/payload.py *)

Module payload.

Local Open Scope exec_scope.

Record PayloadProcessor : Type := mk_processor {
  api_key : pyval;
  processing_id : pyval
}.

(** [PayloadProcessor.__init__] *)
Definition init (credentials : dict) : res PayloadProcessor :=
  match getitem (PDict credentials) "apiKey" with
  | Exn e => Exn e
  | Val k =>
  match getitem (PDict credentials) "processingId" with
  | Exn e => Exn e
  | Val p => Val (mk_processor k p)
  end end.

(** The local variables of [process_payment] and of [process_refund];
    [refund_object] is unbound until one of the two branches assigns it. *)
Record locals : Type := mk_locals {
  transaction_id : pyval;
  payload_processing_status : pyval;
  http_status_code : Z;
  success : bool;
  message : pyval;
  already_voided_message : pyval;
  refund_object : option dict;
  result : pyval
}.

Definition initial : locals :=
  mk_locals PNone PNone 200 false PNone PNone None PNone.

Definition set_transaction_id (v : pyval) (l : locals) : locals :=
  mk_locals v (payload_processing_status l) (http_status_code l) (success l)
    (message l) (already_voided_message l) (refund_object l) (result l).
Definition set_payload_processing_status (v : pyval) (l : locals) : locals :=
  mk_locals (transaction_id l) v (http_status_code l) (success l)
    (message l) (already_voided_message l) (refund_object l) (result l).
Definition set_http_status_code (z : Z) (l : locals) : locals :=
  mk_locals (transaction_id l) (payload_processing_status l) z (success l)
    (message l) (already_voided_message l) (refund_object l) (result l).
Definition set_success (b : bool) (l : locals) : locals :=
  mk_locals (transaction_id l) (payload_processing_status l)
    (http_status_code l) b (message l) (already_voided_message l)
    (refund_object l) (result l).
Definition set_message (m : pyval) (l : locals) : locals :=
  mk_locals (transaction_id l) (payload_processing_status l)
    (http_status_code l) (success l) m (already_voided_message l)
    (refund_object l) (result l).
Definition set_already_voided_message (m : pyval) (l : locals) : locals :=
  mk_locals (transaction_id l) (payload_processing_status l)
    (http_status_code l) (success l) (message l) m (refund_object l) (result l).
Definition set_refund_object (o : option dict) (l : locals) : locals :=
  mk_locals (transaction_id l) (payload_processing_status l)
    (http_status_code l) (success l) (message l) (already_voided_message l)
    o (result l).
Definition set_result (v : pyval) (l : locals) : locals :=
  mk_locals (transaction_id l) (payload_processing_status l)
    (http_status_code l) (success l) (message l) (already_voided_message l)
    (refund_object l) v.

Definition Body := M event locals.

(** One call of the SDK, made under [pl.api_key = self.api_key]. *)
Definition sdk (W : World) (self : PayloadProcessor) (c : sdk_call)
  : Body dict :=
  call (Sdk (api_key self) c) (payload_sdk W (api_key self) c).

(** The classes of the third [except] clause. *)
Definition sdk_errors : list string :=
  [ "InvalidAttributes"; "InternalServerError"; "Unauthorized"; "NotFound";
    "TooManyRequests"; "ServiceUnavailable"; "BadRequest"; "Forbidden" ].

(** *** process_payment *)

(** [pl.Card(...)] builds the payment method locally, nothing is sent. *)
Definition Card (account_holder card_number expiry card_code : pyval) : pyval :=
  PDict [ ("account_holder", account_holder);
          ("card_number", card_number);
          ("expiry", expiry);
          ("card_code", card_code) ].

Definition payment_try (W : World) (self : PayloadProcessor)
    (payment : Payment) : Body unit :=
  month <- lift (slice_to 2 (expDate payment)) ;;
  year <- lift (slice_from 2 (expDate payment)) ;;
  let expiration_date := month ++ "/" ++ year in
  let payment_method :=
    Card (of_option (name payment)) (of_option (account payment))
         (PStr expiration_date) (of_option (cvv2 payment)) in
  description <- lift (slice_to 128 (p_comment payment)) ;;
  payment_response <-
    sdk W self (Payment_create (PFloat (p_amount payment)) payment_method
                  (processing_id self) (PStr description)) ;;
  modify (set_success true) ;;
  status_code <- lift (sdk_getattr W payment_response "status_code") ;;
  modify (set_payload_processing_status status_code) ;;
  status_message <- lift (sdk_getattr W payment_response "status_message") ;;
  modify (set_message status_message) ;;
  id <- lift (sdk_getattr W payment_response "id") ;;
  modify (set_transaction_id id).

(** Lines 85-100: the message of a recognised SDK error. *)
Definition card_number_message (error : exn) : Body unit :=
  try_except
    (error_response <- lift (attribute error "response") ;;
     c1 <- lift (contains "details" error_response) ;;
     details <- (if c1 then lift (getitem error_response "details")
                 else ret PNone) ;;
     c2 <- (if c1 then lift (contains "payment_method" details)
            else ret false) ;;
     payment_method <- (if c2 then lift (getitem details "payment_method")
                        else ret PNone) ;;
     c3 <- (if c2 then lift (contains "card" payment_method)
            else ret false) ;;
     card <- (if c3 then lift (getitem payment_method "card")
              else ret PNone) ;;
     c4 <- (if c3 then lift (contains "card_number" card) else ret false) ;;
     if c4 then
       card_number <- lift (getitem card "card_number") ;;
       modify (set_message card_number)
     else
       response <- lift (attribute error "response") ;;
       modify (set_message response))
    (fun _ => modify (set_message (PDict (exn_dict error)))).

(** The [except] clauses of [process_payment], tried in their order. *)
Definition payment_except (error : exn) : Body unit :=
  if isinstance error "ValueError" then
    modify (set_http_status_code 400) ;;
    modify (set_message (PStr (exn_str error)))
  else
    match exn_kind_of error with
    | Declined status_code status_message http_code =>
        modify (set_payload_processing_status status_code) ;;
        modify (set_http_status_code http_code) ;;
        modify (set_message status_message)
    | Plain =>
        if existsb (isinstance error) sdk_errors then
          let error_type := exn_class error in
          match GatewayResponses_member error_type GatewayResponses with
          | Some value =>
              modify (set_http_status_code value) ;;
              card_number_message error
          | None =>
              modify (set_message (PStr "Unrecognized Payload error response")) ;;
              modify (set_http_status_code 400)
          end
        else
          modify (set_message (PStr "Unknown Payload response type")) ;;
          modify (set_http_status_code 422)
    end.

Definition processing_result (payment : Payment) (l : locals) : pyval :=
  PDict [ ("success", PBool (success l));
          ("paymentTransactionId", transaction_id l);
          ("statusCode", payload_processing_status l);
          ("gatewayHttpStatusCode", PInt (http_status_code l));
          ("responseMessage", message l);
          ("merchantAccountId", PInt (p_merchantAccountId payment));
          ("gatewayResponseData", PNone) ].

Definition payment_body (W : World) (self : PayloadProcessor)
    (payment : Payment) : Body pyval :=
  try_finally
    (try_except (payment_try W self payment) payment_except)
    (l <- read ;; modify (set_result (processing_result payment l))) ;;
  l <- read ;;
  ret (result l).

Definition process_payment (W : World) (self : PayloadProcessor)
    (payment : Payment) : res pyval * list event :=
  run (payment_body W self payment) initial.

(** *** process_refund *)

Definition read_refund_object : Body dict :=
  l <- read ;;
  match refund_object l with
  | Some o => ret o
  | None =>
      raise (builtin "UnboundLocalError" ["NameError"]
               "local variable 'refund_object' referenced before assignment")
  end.

Definition refund_try (W : World) (self : PayloadProcessor)
    (refund : Refund) : Body unit :=
  payment_object <- sdk W self (Payment_get (paymentTransactionId refund)) ;;
  status <- lift (sdk_getattr W payment_object "status") ;;
  (if eq_str status "voided" then
     modify (set_already_voided_message
       (PStr "Payment transaction has already been voided.  No further action has been taken."))
   else
     funding_status <- lift (sdk_getattr W payment_object "funding_status") ;;
     if eq_str funding_status "pending" then
       o <- sdk W self (Transaction_get (paymentTransactionId refund)) ;;
       modify (set_refund_object (Some o)) ;;
       description <- lift (slice_to 128 (r_comment refund)) ;;
       (* [update] refreshes the object in place with the answer *)
       o' <- sdk W self (Transaction_update o (PStr "voided") (PStr description)) ;;
       modify (set_refund_object (Some o'))
     else if eq_str funding_status "batched" then
       amount <- lift (sdk_getattr W payment_object "amount") ;;
       description <- lift (slice_to 128 (r_comment refund)) ;;
       o <- sdk W self
              (Refund_create amount
                 (PList [PDict [("assoc_transaction_id",
                                 PStr (paymentTransactionId refund))]])
                 (PStr description)) ;;
       modify (set_refund_object (Some o))
     else
       raise (ValueError
                ("Unknown funding status '" ++ str W funding_status
                 ++ "' encountered during refund process.  Payment was not refunded."))) ;;
  modify (set_success true) ;;
  l <- read ;;
  if truthy (already_voided_message l) then
    status <- lift (sdk_getattr W payment_object "status") ;;
    modify (set_payload_processing_status status) ;;
    modify (set_message (already_voided_message l))
  else
    o <- read_refund_object ;;
    status <- lift (sdk_getattr W o "status") ;;
    modify (set_payload_processing_status status) ;;
    status_message <- lift (sdk_getattr W o "status_message") ;;
    modify (set_message status_message) ;;
    id <- lift (sdk_getattr W o "id") ;;
    modify (set_transaction_id id).

(** The [except] clauses of [process_refund], tried in their order. *)
Definition refund_except (error : exn) : Body unit :=
  if isinstance error "ValueError" then
    modify (set_http_status_code 400) ;;
    modify (set_message (PStr (exn_str error)))
  else if existsb (isinstance error) sdk_errors then
    let error_type := exn_class error in
    match GatewayResponses_member error_type GatewayResponses with
    | Some value =>
        modify (set_http_status_code value) ;;
        try_except
          (response <- lift (attribute error "response") ;;
           modify (set_message response))
          (fun _ => modify (set_message (PDict (exn_dict error))))
    | None =>
        modify (set_message (PStr "Unrecognized Payload error response")) ;;
        modify (set_http_status_code 400)
    end
  else
    modify (set_message (PStr "Unknown Payload response type")) ;;
    modify (set_http_status_code 422).

Definition refund_result (refund : Refund) (l : locals) : pyval :=
  PDict [ ("success", PBool (success l));
          ("refundTransactionId", transaction_id l);
          ("statusCode", payload_processing_status l);
          ("gatewayHttpStatusCode", PInt (http_status_code l));
          ("responseMessage", message l);
          ("merchantAccountId", PInt (r_merchantAccountId refund));
          ("gatewayResponseData", PNone) ].

Definition refund_body (W : World) (self : PayloadProcessor)
    (refund : Refund) : Body pyval :=
  try_finally
    (try_except (refund_try W self refund) refund_except)
    (l <- read ;; modify (set_result (refund_result refund l))) ;;
  l <- read ;;
  ret (result l).

Definition process_refund (W : World) (self : PayloadProcessor)
    (refund : Refund) : res pyval * list event :=
  run (refund_body W self refund) initial.

End payload.


(** ** main.py: the copy of the request kept for the log, and
    [send_log_message] *)

Module logging.

(** [payment.dict()] *)
Definition payment_dict (payment : Payment) : dict :=
  [ ("gatewayTypeId", PInt (p_gatewayTypeId payment));
    ("gatewayTypeName", PStr (p_gatewayTypeName payment));
    ("merchantAccountId", PInt (p_merchantAccountId payment));
    ("credentials", PDict (p_credentials payment));
    ("account", of_option (account payment));
    ("expDate", of_option (expDate payment));
    ("amount", PFloat (p_amount payment));
    ("userId", PInt (p_userId payment));
    ("cvv2", of_option (cvv2 payment));
    ("currencyType", PInt (p_currencyType payment));
    ("name", of_option (name payment));
    ("street", of_option (street payment));
    ("city", of_option (city payment));
    ("state", of_option (state payment));
    ("zip", of_option (zip payment));
    ("country", of_option (country payment));
    ("comment", of_option (p_comment payment));
    ("userName", of_option (userName payment)) ].

(** [refund.dict()] *)
Definition refund_dict (refund : Refund) : dict :=
  [ ("gatewayTypeId", PInt (r_gatewayTypeId refund));
    ("gatewayTypeName", PStr (r_gatewayTypeName refund));
    ("merchantAccountId", PInt (r_merchantAccountId refund));
    ("credentials", PDict (r_credentials refund));
    ("paymentTransactionId", PStr (paymentTransactionId refund));
    ("userId", PInt (r_userId refund));
    ("comment", of_option (r_comment refund));
    ("amount", cardconnect.opt_float (r_amount refund));
    ("maskedCardNumber", of_option (maskedCardNumber refund));
    ("currencyType",
     match r_currencyType refund with Some z => PInt z | None => PNone end) ].

(** [''.join('x' for c in s)] *)
Fixpoint crosses (s : string) : string :=
  match s with
  | EmptyString => EmptyString
  | String _ s' => String "x" (crosses s')
  end.

(** [s[0:-n]] for a positive [n]: all but the last [n] characters. *)
Definition until_last (n : nat) (s : string) : string :=
  take (String.length s - n) s.

(** [s[-n:]] for a positive [n]: the last [n] characters, or all of [s]. *)
Definition last_chars (n : nat) (s : string) : string :=
  drop (String.length s - n) s.

(** Lines 157-158: the card number with all but its last four characters
    crossed out. *)
Definition masked_card_number (account : string) : string :=
  (crosses (until_last 4 account) ++ last_chars 4 account)%string.

(** Lines 151-160 of [submit_sale]: the copy of the request for the log.
    A request without a card number has [None] under [account], and [None]
    has no slice. *)
Definition sale_request_body (payment : Payment) : res dict :=
  let request_body_as_json := payment_dict payment in
  let request_body_as_json := dict_del "credentials" request_body_as_json in
  let request_body_as_json := dict_del "cvv2" request_body_as_json in
  match account payment with
  | None => Exn (TypeError "'NoneType' object is not subscriptable")
  | Some number =>
      let request_body_as_json :=
        dict_set "maskedCardNumber" (PStr (masked_card_number number))
          request_body_as_json in
      Val (dict_del "account" request_body_as_json)
  end.

(** Lines 269-271 of [submit_credit]. *)
Definition credit_request_body (refund : Refund) : dict :=
  dict_del "credentials" (refund_dict refund).

(** [d[k] = v] where [d] was read from the message. *)
Definition setitem (d : pyval) (k : string) (v : pyval) : res pyval :=
  match d with
  | PDict x => Val (PDict (dict_set k v x))
  | PList _ => Exn (TypeError "list indices must be integers or slices, not str")
  | _ => Exn (TypeError ("'" ++ type_name d
                         ++ "' object does not support item assignment"))
  end.

(** [message['data'][key] = v] *)
Definition set_data (message : dict) (key : string) (v : pyval) : res dict :=
  match getitem (PDict message) "data" with
  | Exn e => Exn e
  | Val data =>
      match setitem data key v with
      | Exn e => Exn e
      | Val data' => Val (dict_set "data" data' message)
      end
  end.

(** [for item in tx_metadata: message[item] = tx_metadata[item]] *)
Fixpoint copy_metadata (items : dict) (tx_metadata : dict) (message : dict)
  : dict :=
  match items with
  | [] => message
  | (item, _) :: items' =>
      copy_metadata items' tx_metadata
        (dict_set item (dict_get tx_metadata item) message)
  end.

(** [for key in request_data: message['data'][key] = request_data[key]] *)
Fixpoint copy_request_data (items : dict) (request_data : dict)
    (message : dict) : res dict :=
  match items with
  | [] => Val message
  | (key, _) :: items' =>
      match set_data message key (dict_get request_data key) with
      | Exn e => Exn e
      | Val message' => copy_request_data items' request_data message'
      end
  end.

(** Lines 77-83 of [send_log_message]: the log record, for a header that is
    a JSON object (or the empty dict of a rejected header). *)
Definition log_message (tx_metadata request_data : dict)
    (uri req_type level : string) (response_code : pyval) : res dict :=
  let message :=
    [ ("service", PStr "payment_gateway"); ("level", PStr level);
      ("data", PDict [ ("requestUri", PStr uri);
                       ("requestType", PStr req_type) ]) ] in
  let message := copy_metadata tx_metadata tx_metadata message in
  match copy_request_data request_data request_data message with
  | Exn e => Exn e
  | Val message => set_data message "http_response_code" response_code
  end.

Definition prepend (ev : log_event)
    (o : option (res bool * list log_event))
  : option (res bool * list log_event) :=
  match o with
  | Some (r, evs) => Some (r, ev :: evs)
  | None => None
  end.

(** Lines 91-97: [while not connected and retry_count < 10], one iteration
    per unit of [fuel]; [socket.error] is [OSError], any other exception
    leaves the loop.  The pause between two attempts is not modelled. *)
Fixpoint connect_loop (S : Socket) (fuel : nat) (connected : bool)
    (retry_count : nat) : option (res bool * list log_event) :=
  match fuel with
  | O => None
  | Datatypes.S fuel' =>
      if negb connected && (retry_count <? 10)%nat then
        match connect S retry_count with
        | Val _ =>
            prepend (Connect retry_count)
              (connect_loop S fuel' true (retry_count + 1))
        | Exn e =>
            if isinstance e "OSError" then
              prepend (Connect retry_count)
                (connect_loop S fuel' connected (retry_count + 1))
            else Some (Exn e, [Connect retry_count])
        end
      else Some (Val connected, [])
  end.

(** Lines 98-101: the record is sent, the socket shut down and closed. *)
Definition ship (S : Socket) (message : dict) : res unit * list log_event :=
  match send S message with
  | Exn e => (Exn e, [Send message])
  | Val _ =>
      match shutdown S with
      | Exn e => (Exn e, [Send message; Shutdown])
      | Val _ => (close S, [Send message; Shutdown; Close])
      end
  end.

(** Lines 85-101: the connection is tried, and the record is sent when
    the connection was made. *)
Definition deliver (S : Socket) (fuel : nat) (message : dict)
  : option (res unit * list log_event) :=
  match connect_loop S fuel false 0 with
  | None => None
  | Some (Exn e, evs) => Some (Exn e, evs)
  | Some (Val connected, evs) =>
      if connected then
        Some (fst (ship S message), (evs ++ snd (ship S message))%list)
      else Some (Val tt, evs)
  end.

(** [send_log_message] for a header that is a JSON object: the record is
    built, then delivered. *)
Definition send_log_message (S : Socket) (fuel : nat)
    (tx_metadata request_data : dict) (uri req_type level : string)
    (response_code : pyval) : option (res unit * list log_event) :=
  match log_message tx_metadata request_data uri req_type level response_code with
  | Exn e => Some (Exn e, [])
  | Val message => deliver S fuel message
  end.

(** *** A header that is a list

    The validation lets a JSON list through when it holds the three key
    names.  The loop of lines 79-80 then reads [tx_metadata[item]] for each
    item of the list, and only an integer indexes a list. *)

(** [l[i]] *)
Definition list_index (l : list pyval) (i : Z) : res pyval :=
  let n := Z.of_nat (List.length l) in
  let j := if i <? 0 then i + n else i in
  if (0 <=? j) && (j <? n) then
    match nth_error l (Z.to_nat j) with
    | Some v => Val v
    | None => Exn (builtin "IndexError" ["LookupError"] "list index out of range")
    end
  else Exn (builtin "IndexError" ["LookupError"] "list index out of range").

(** [l[item]] *)
Definition list_item (l : list pyval) (item : pyval) : res pyval :=
  match item with
  | PInt i => list_index l i
  | PBool b => list_index l (if b then 1 else 0)
  | _ => Exn (TypeError ("list indices must be integers or slices, not "
                         ++ type_name item))
  end.

(** The key of the record under which an integer item is written, as
    [json.dumps] spells it: [1] and [True] are one key for a [dict], that
    of the item written first. *)
Definition key_text (message : dict) (item : pyval) : string :=
  let decimal (i : Z) := NilZero.string_of_int (Z.to_int i) in
  let word (b : bool) := if b then "true" else "false" in
  match item with
  | PInt i =>
      if (i =? 1) && has_key (word true) message then word true
      else if (i =? 0) && has_key (word false) message then word false
      else decimal i
  | PBool b =>
      if has_key (decimal (if b then 1 else 0)) message
      then decimal (if b then 1 else 0) else word b
  | _ => ""
  end.

(** [for item in tx_metadata: message[item] = tx_metadata[item]] *)
Fixpoint copy_list (items l : list pyval) (message : dict) : res dict :=
  match items with
  | [] => Val message
  | item :: items' =>
      match list_item l item with
      | Exn e => Exn e
      | Val v => copy_list items' l (dict_set (key_text message item) v message)
      end
  end.

(** Lines 77-83 for a header that is a list. *)
Definition log_message_of_list (l : list pyval) (request_data : dict)
    (uri req_type level : string) (response_code : pyval) : res dict :=
  let message :=
    [ ("service", PStr "payment_gateway"); ("level", PStr level);
      ("data", PDict [ ("requestUri", PStr uri);
                       ("requestType", PStr req_type) ]) ] in
  match copy_list l l message with
  | Exn e => Exn e
  | Val message =>
      match copy_request_data request_data request_data message with
      | Exn e => Exn e
      | Val message => set_data message "http_response_code" response_code
      end
  end.

(** The eleven rounds the loop of lines 91-97 needs at most. *)
Definition rounds : nat := 11.

(** What an [option] of the loop holds; with [rounds] the loop has ended
    and the default is not taken. *)
Definition ended (o : option (res unit * list log_event))
  : res unit * list log_event :=
  match o with
  | Some r => r
  | None => (Val tt, [])
  end.

(** [send_log_message(tx_metadata, ...)] as the endpoints call it, with the
    header as the validation returned it: an object (the empty one for a
    rejected header) or a list; the validation returns nothing else. *)
Definition send_log (S : Socket) (tx_metadata : pyval) (request_data : dict)
    (uri req_type level : string) (response_code : pyval)
  : res unit * list log_event :=
  match tx_metadata with
  | PDict d =>
      ended (send_log_message S rounds d request_data uri req_type level
               response_code)
  | PList l =>
      match log_message_of_list l request_data uri req_type level
              response_code with
      | Exn e => (Exn e, [])
      | Val message => ended (deliver S rounds message)
      end
  | PStr s =>
      (* the items of a string are its characters, and no string indexes
         a string *)
      match s with
      | EmptyString =>
          ended (send_log_message S rounds [] request_data uri req_type level
                   response_code)
      | _ => (Exn (TypeError "string indices must be integers"), [])
      end
  | v => (Exn (TypeError ("'" ++ type_name v ++ "' object is not iterable")), [])
  end.

(** The connection attempts number [n], [n + 1], ..., [n + k - 1]. *)
Definition attempts (n k : nat) : list log_event := map Connect (seq n k).

(** Lines 234-236 and 352-354: what an endpoint hands over for the log. *)
Definition log_data (request_body_as_json : dict)
    (result gateway_response_data : pyval) : dict :=
  [ ("requestData", PDict request_body_as_json);
    ("responseDetail", result);
    ("gatewayResponseData", gateway_response_data) ].

(** A collector that refuses every attempt before number [k]. *)
Definition refused_before (S : Socket) (k : nat) : Prop :=
  forall i, (i < k)%nat ->
    exists e, connect S i = Exn e /\ isinstance e "OSError" = true.

(** A collector that raises nothing but refusals of the connection. *)
Definition quiet (S : Socket) : Prop :=
  (forall n e, connect S n = Exn e -> isinstance e "OSError" = true) /\
  (forall message, send S message = Val tt) /\
  shutdown S = Val tt /\
  close S = Val tt.

(** A header object under which the record can be written: its [data], if
    it has one, is an object. *)
Definition loggable (tx_metadata : dict) : Prop :=
  forall v, lookup "data" tx_metadata = Some v -> exists o, v = PDict o.

(** A socket that refuses the first [k] attempts and accepts the next. *)
Definition accepting_after (k : nat) : Socket :=
  mk_socket
    (fun n => if (n <? k)%nat
              then Exn (builtin "ConnectionRefusedError"
                          ["ConnectionError"; "OSError"] "Connection refused")
              else Val tt)
    (fun _ => Val tt) (Val tt) (Val tt).

End logging.

(** ** main.py

    The two endpoints, from the validation of the [BVMeta] header to the
    reply: the copy of the request kept for the log, the choice and the call
    of the adapter, the record for the log and its shipment, the reply.
    [request.url.path] is the path of the route. *)

Module main.

Local Open Scope exec_scope.

Definition REQUIRED_BLUEVOLT_HEADER_KEYS : list string :=
  ["transactionId"; "universityId"; "userId"].

Fixpoint first_unhashable (l : list pyval) : option pyval :=
  match l with
  | [] => None
  | PList x :: _ => Some (PList x)
  | PDict x :: _ => Some (PDict x)
  | _ :: l' => first_unhashable l'
  end.

Fixpoint chars (s : string) : list pyval :=
  match s with
  | EmptyString => []
  | String c s' => PStr (String c EmptyString) :: chars s'
  end.

(** [set(v)]: the keys of a dict, the items of a list, the characters of a
    string; nothing else can be iterated. *)
Definition set_of (v : pyval) : res (list pyval) :=
  match v with
  | PDict d => Val (map (fun kv => PStr (fst kv)) d)
  | PList l =>
      match first_unhashable l with
      | Some x => Exn (TypeError ("unhashable type: '" ++ type_name x ++ "'"))
      | None => Val l
      end
  | PStr s => Val (chars s)
  | _ => Exn (TypeError ("'" ++ type_name v ++ "' object is not iterable"))
  end.

Definition superset (items : list pyval) (required : list string) : bool :=
  forallb (fun k => existsb (fun x => eq_str x k) items) required.

(** [validate_bvmeta_header]; [except ValueError or TypeError] names
    [ValueError] alone. *)
Definition validate_bvmeta_header (W : World) (header_contents : option string)
  : res pyval :=
  match header_contents with
  | None => Val (PDict [])
  | Some h =>
      let body :=
        match json_loads W h with
        | Exn e => Exn e
        | Val contents_as_json =>
            match set_of contents_as_json with
            | Exn e => Exn e
            | Val items =>
                if negb (superset items REQUIRED_BLUEVOLT_HEADER_KEYS)
                then Val (PDict [])
                else Val contents_as_json
            end
        end in
      match body with
      | Exn e => if isinstance e "ValueError" then Val (PDict []) else Exn e
      | Val v => Val v
      end
  end.

Inductive processor : Type :=
| PayloadProcessor (p : payload.PayloadProcessor)
| CardConnectProcessor (c : cardconnect.CardConnectProcessor).

(** What the endpoint answers: the HTTP status and the body.  A raised
    [HTTPException(status_code, detail)] is the reply with that status and
    the body [{'detail': detail}]. *)
Record Reply : Type := mk_reply {
  reply_status : pyval;
  reply_body : pyval
}.

(** The local variables of [submit_sale] and of [submit_credit];
    [the_result] is [payment_result] or [refund_result], [the_processor] is
    [payment_processor] or [refund_processor]. *)
Record locals : Type := mk_locals {
  the_result : pyval;
  response_detail : pyval;
  response_status : pyval;
  log_level : string;
  required_credentials_present_in_request : bool;
  the_processor : option processor;
  gateway_response_data : pyval;
  request_body_as_json : dict
}.

Definition set_the_result (v : pyval) (l : locals) : locals :=
  mk_locals v (response_detail l) (response_status l) (log_level l)
    (required_credentials_present_in_request l) (the_processor l)
    (gateway_response_data l) (request_body_as_json l).
Definition set_response_detail (v : pyval) (l : locals) : locals :=
  mk_locals (the_result l) v (response_status l) (log_level l)
    (required_credentials_present_in_request l) (the_processor l)
    (gateway_response_data l) (request_body_as_json l).
Definition set_response_status (v : pyval) (l : locals) : locals :=
  mk_locals (the_result l) (response_detail l) v (log_level l)
    (required_credentials_present_in_request l) (the_processor l)
    (gateway_response_data l) (request_body_as_json l).
Definition set_log_level (s : string) (l : locals) : locals :=
  mk_locals (the_result l) (response_detail l) (response_status l) s
    (required_credentials_present_in_request l) (the_processor l)
    (gateway_response_data l) (request_body_as_json l).
Definition set_required (b : bool) (l : locals) : locals :=
  mk_locals (the_result l) (response_detail l) (response_status l)
    (log_level l) b (the_processor l) (gateway_response_data l)
    (request_body_as_json l).
Definition set_the_processor (p : option processor) (l : locals) : locals :=
  mk_locals (the_result l) (response_detail l) (response_status l)
    (log_level l) (required_credentials_present_in_request l) p
    (gateway_response_data l) (request_body_as_json l).
Definition set_gateway_response_data (v : pyval) (l : locals) : locals :=
  mk_locals (the_result l) (response_detail l) (response_status l)
    (log_level l) (required_credentials_present_in_request l)
    (the_processor l) v (request_body_as_json l).
Definition set_request_body_as_json (d : dict) (l : locals) : locals :=
  mk_locals (the_result l) (response_detail l) (response_status l)
    (log_level l) (required_credentials_present_in_request l)
    (the_processor l) (gateway_response_data l) d.

Definition Body := M event locals.

(** [v.get(k, default)] *)
Definition get_default (v : pyval) (k : string) (default : pyval) : res pyval :=
  match v with
  | PDict d =>
      match lookup k d with
      | Some x => Val x
      | None => Val default
      end
  | _ => get v k
  end.

(** [v >= n] for an integer literal [n]. *)
Definition ge_int (v : pyval) (n : Z) : res bool :=
  match v with
  | PInt z => Val (n <=? z)
  | PBool b => Val (n <=? (if b then 1 else 0))
  | PFloat q => Val (Qle_bool (inject_Z n) q)
  | _ => Exn (TypeError ("'>=' not supported between instances of '"
                         ++ type_name v ++ "' and 'int'"))
  end.

(** [del v[k]] *)
Definition delitem (v : pyval) (k : string) : res pyval :=
  match v with
  | PDict d => if has_key k d then Val (PDict (dict_del k d)) else Exn (KeyError k)
  | _ => Exn (TypeError ("'" ++ type_name v ++ "' object does not support item deletion"))
  end.

(** [v[k] = x] *)
Definition setitem (v : pyval) (k : string) (x : pyval) : res pyval :=
  match v with
  | PDict d => Val (PDict (dict_set k x d))
  | _ => Exn (TypeError ("'" ++ type_name v ++ "' object does not support item assignment"))
  end.

(** A call of an adapter method: the call is written to the trace, followed
    by the calls the adapter makes. *)
Definition invoke (gateway method : string) (r : res pyval * list event)
  : Body pyval :=
  fun s => (fst r, (fst s, (snd s ++ Adapter gateway method :: snd r)%list)).

Definition gateway_of (p : processor) : string :=
  match p with
  | PayloadProcessor _ => "Payload"
  | CardConnectProcessor _ => "CardConnect"
  end.

Definition call_process_payment (W : World) (payment : Payment) : Body pyval :=
  l <- read ;;
  match the_processor l with
  | Some (PayloadProcessor p) =>
      invoke "Payload" "process_payment" (payload.process_payment W p payment)
  | Some (CardConnectProcessor c) =>
      invoke "CardConnect" "process_payment"
        (cardconnect.process_payment W c payment)
  | None =>
      raise (builtin "UnboundLocalError" ["NameError"]
               "local variable 'payment_processor' referenced before assignment")
  end.

Definition call_process_refund (W : World) (refund : Refund) : Body pyval :=
  l <- read ;;
  match the_processor l with
  | Some (PayloadProcessor p) =>
      invoke "Payload" "process_refund" (payload.process_refund W p refund)
  | Some (CardConnectProcessor c) =>
      invoke "CardConnect" "process_refund"
        (cardconnect.process_refund W c refund)
  | None =>
      raise (builtin "UnboundLocalError" ["NameError"]
               "local variable 'refund_processor' referenced before assignment")
  end.

(** Lines 181-189 and 293-301: the processor is built when the credentials
    hold every key the gateway requires. *)
Definition select_processor (W : World) (gateway_type : string)
    (credentials : dict) : Body unit :=
  if (gateway_type =? "Payload")%string then
    if keys_superset credentials (GatewayCredentials Payload) then
      modify (set_required true) ;;
      p <- lift (payload.init credentials) ;;
      modify (set_the_processor (Some (PayloadProcessor p)))
    else ret tt
  else if (gateway_type =? "CardConnect")%string then
    if keys_superset credentials (GatewayCredentials CardConnect) then
      modify (set_required true) ;;
      c <- lift (cardconnect.init credentials (CARDCONNECT_HOSTNAME W)) ;;
      modify (set_the_processor (Some (CardConnectProcessor c)))
    else ret tt
  else ret tt.

(** [request_body_as_json['status'] = response_detail] *)
Definition set_status (l : locals) : locals :=
  set_request_body_as_json
    (dict_set "status" (response_detail l) (request_body_as_json l)) l.

(** The four assignments of a failure before any adapter is called. *)
Definition fail (status : Z) (detail : string) : Body unit :=
  modify (set_response_status (PInt status)) ;;
  modify (set_response_detail (PStr detail)) ;;
  modify set_status ;;
  modify (set_log_level "ERROR").

(** Lines 228-233 and 346-351. *)
Definition settle : Body unit :=
  modify (set_gateway_response_data PNone) ;;
  l <- read ;;
  present <- lift (contains "gatewayResponseData" (the_result l)) ;;
  (if present then
     d <- lift (getitem (the_result l) "gatewayResponseData") ;;
     modify (set_gateway_response_data d) ;;
     r <- lift (delitem (the_result l) "gatewayResponseData") ;;
     modify (set_the_result r)
   else ret tt) ;;
  l <- read ;;
  m <- lift (getitem (the_result l) "responseMessage") ;;
  r <- lift (setitem (the_result l) "responseDetail"
               (match m with PStr _ => m | _ => response_detail l end)) ;;
  modify (set_the_result r).

(** What [send_log_message] did is written to the trace; its exception, if
    any, is in flight. *)
Definition logged (r : res unit * list log_event) : Body unit :=
  fun s => (fst r, (fst s, (snd s ++ map Log (snd r))%list)).

(** Lines 234-237 and 352-355. *)
Definition ship_log (W : World) (bv_header : pyval) (path : string)
  : Body unit :=
  l <- read ;;
  let log_data :=
    logging.log_data (request_body_as_json l) (the_result l)
      (gateway_response_data l) in
  logged (logging.send_log (logger W) bv_header log_data path "POST"
            (log_level l) (response_status l)).

(** Lines 238-240 and 356-358. *)
Definition reply : Body Reply :=
  l <- read ;;
  if negb (eq_int (response_status l) 200) then
    ret (mk_reply (response_status l) (PDict [("detail", the_result l)]))
  else
    ret (mk_reply (PInt 200) (PDict [("detail", the_result l)])).

Definition known_gateway_type (id : Z) : bool :=
  existsb (Z.eqb id) (map GatewayType_value GatewayType_items).

Definition sale_initial (payment : Payment) : locals :=
  mk_locals
    (PDict [ ("success", PNone); ("paymentTransactionId", PNone);
             ("statusCode", PNone); ("gatewayHttpStatusCode", PNone);
             ("responseMessage", PNone); ("responseDetail", PNone);
             ("merchantAccountId", PInt (p_merchantAccountId payment));
             ("gatewayResponseData", PNone) ])
    PNone PNone "" false None PNone [].

Definition sale_body (W : World) (payment : Payment) (bvmeta : option string)
  : Body Reply :=
  bv_header <- lift (validate_bvmeta_header W bvmeta) ;;
  copy <- lift (logging.sale_request_body payment) ;;
  modify (set_request_body_as_json copy) ;;
  (if negb (truthy bv_header) then fail 400 "Incomplete request"
   else if known_gateway_type (p_gatewayTypeId payment) then
     try_except
       (modify (set_required false) ;;
        g <- lift (GatewayType_of W (p_gatewayTypeId payment)) ;;
        select_processor W (GatewayType_name g) (p_credentials payment) ;;
        l <- read ;;
        if required_credentials_present_in_request l then
          payment_result <- call_process_payment W payment ;;
          modify (set_the_result payment_result) ;;
          status <- lift (get_default payment_result "gatewayHttpStatusCode"
                            (PInt 200)) ;;
          modify (set_response_status status) ;;
          big <- lift (ge_int status 500) ;;
          (if big then modify (set_response_status (PInt 400)) else ret tt) ;;
          l <- read ;;
          if negb (eq_int (response_status l) 200) then
            modify (set_response_detail
              (PStr ("Error encountered during payment attempt to "
                     ++ GatewayType_name g ++ " payment processing endpoint"))) ;;
            modify set_status ;;
            modify (set_log_level "ERROR")
          else
            modify (set_response_detail (PStr "Transaction approved")) ;;
            modify (set_log_level "AUDIT")
        else
          fail 400 ("Required credentials for " ++ GatewayType_name g
                    ++ " are not present"))
       (fun _ =>
          g <- lift (GatewayType_of W (p_gatewayTypeId payment)) ;;
          fail 421 ("Unexpected error encountered processing "
                    ++ GatewayType_name g ++ " payment request"))
   else fail 400 "Unknown payment gateway type") ;;
  settle ;;
  ship_log W bv_header "/paymentGateway/processPayment" ;;
  reply.

Definition submit_sale (W : World) (payment : Payment) (bvmeta : option string)
  : res Reply * list event :=
  run (sale_body W payment bvmeta) (sale_initial payment).

Definition credit_initial (refund : Refund) : locals :=
  mk_locals
    (PDict [ ("success", PNone); ("refundTransactionId", PNone);
             ("statusCode", PNone); ("gatewayHttpStatusCode", PNone);
             ("responseMessage", PNone); ("responseDetail", PNone);
             ("merchantAccountId", PInt (r_merchantAccountId refund));
             ("gatewayResponseData", PNone) ])
    PNone PNone "" false None PNone [].

Definition credit_body (W : World) (refund : Refund) (bvmeta : option string)
  : Body Reply :=
  bv_header <- lift (validate_bvmeta_header W bvmeta) ;;
  modify (set_request_body_as_json (logging.credit_request_body refund)) ;;
  (if negb (truthy bv_header) then fail 400 "Incomplete request"
   else if known_gateway_type (r_gatewayTypeId refund) then
     try_except
       (modify (set_required false) ;;
        g <- lift (GatewayType_of W (r_gatewayTypeId refund)) ;;
        let gateway_type := GatewayType_name g in
        select_processor W gateway_type (r_credentials refund) ;;
        l <- read ;;
        if required_credentials_present_in_request l then
          refund_result <- call_process_refund W refund ;;
          modify (set_the_result refund_result) ;;
          status <- lift (get_default refund_result "gatewayHttpStatusCode"
                            (PInt 200)) ;;
          modify (set_response_status status) ;;
          big <- lift (ge_int status 500) ;;
          (if big then modify (set_response_status (PInt 400)) else ret tt) ;;
          l <- read ;;
          if negb (eq_int (response_status l) 200) then
            (if (gateway_type =? "Payload")%string
                && eq_int (response_status l) 404
             then modify (set_response_detail
                    (PStr "The provided payment transaction id does not exist"))
             else modify (set_response_detail
                    (PStr ("Error encountered during refund request to "
                           ++ gateway_type ++ " refund processing endpoint")))) ;;
            modify set_status ;;
            modify (set_log_level "ERROR")
          else
            modify (set_response_detail (PStr "Refund successfully processed")) ;;
            modify (set_log_level "AUDIT")
        else
          g' <- lift (GatewayType_of W (r_gatewayTypeId refund)) ;;
          fail 400 ("Required credentials for " ++ GatewayType_name g'
                    ++ " are not present"))
       (fun _ =>
          g <- lift (GatewayType_of W (r_gatewayTypeId refund)) ;;
          fail 421 ("Unexpected error encountered processing "
                    ++ GatewayType_name g ++ " refund request"))
   else fail 400 "Unknown payment gateway type") ;;
  settle ;;
  ship_log W bv_header "/paymentGateway/processRefund" ;;
  reply.

Definition submit_credit (W : World) (refund : Refund) (bvmeta : option string)
  : res Reply * list event :=
  run (credit_body W refund bvmeta) (credit_initial refund).

End main.

(** ** Reading an outcome *)

Module observe.

Definition outcome := (res pyval * list event)%type.

(** The entry [k] of the returned record, when a record was returned. *)
Definition result_field (out : outcome) (k : string) : option pyval :=
  match fst out with
  | Val (PDict d) => lookup k d
  | _ => None
  end.

(** The calls that left the process, in order. *)
Definition calls {A} (out : res A * list event) : list event := snd out.




Definition posts_to (url : string) (ev : event) : bool :=
  match ev with
  | Http (Post u _ _) => (u =? url)%string
  | _ => false
  end.

(** Some call of the trace is a POST to [url]. *)
Definition issued (url : string) (tr : list event) : bool :=
  existsb (posts_to url) tr.

(** The void call and the refund call of the CardConnect adapter. *)
Definition void_call (self : cardconnect.CardConnectProcessor)
    (refund : Refund) : event :=
  Http (Post (cardconnect.voidEndpoint self)
          (PDict [ ("retref", PStr (paymentTransactionId refund));
                   ("merchid", cardconnect.merchantId self) ])
          (cardconnect.auth self)).

Definition refund_call (self : cardconnect.CardConnectProcessor)
    (refund : Refund) : event :=
  Http (Post (cardconnect.refundEndpoint self)
          (PDict [ ("retref", PStr (paymentTransactionId refund));
                   ("merchid", cardconnect.merchantId self);
                   ("amount", cardconnect.opt_float (r_amount refund)) ])
          (cardconnect.auth self)).

(** The creation call of the Payload adapter for a payment whose expiry
    date is [date], with the description it carries. *)
Definition create_call (self : payload.PayloadProcessor) (payment : Payment)
    (date description : string) : event :=
  Sdk (payload.api_key self)
    (Payment_create (PFloat (p_amount payment))
       (payload.Card (of_option (name payment)) (of_option (account payment))
          (PStr (take 2 date ++ "/" ++ drop 2 date))
          (of_option (cvv2 payment)))
       (payload.processing_id self) (PStr description)).

(** The description an SDK call carries upstream, if it carries one. *)
Definition description_of (ev : event) : option pyval :=
  match ev with
  | Sdk _ (Payment_create _ _ _ d) => Some d
  | Sdk _ (Transaction_update _ _ d) => Some d
  | Sdk _ (Refund_create _ _ d) => Some d
  | _ => None
  end.

(** A description of at most 128 characters. *)
Definition short (d : pyval) : Prop :=
  exists s, d = PStr s /\ (String.length s <= 128)%nat.

(** What [process_payment] of CardConnect appends for the vendor's
    [resptext]: nothing when it is missing or empty. *)
Definition vendor_text (W : World) (o : dict) : string :=
  if truthy (dict_get o "resptext")
  then " " ++ str W (dict_get o "resptext") ++ "."
  else "".

(** The reply of an endpoint that stopped before any adapter: status 400,
    the record as it was initialised, and the reason in [responseDetail]. *)
Definition precondition_failure (transaction_key : string) (merchant : Z)
    (detail : string) : main.Reply :=
  main.mk_reply (PInt 400)
    (PDict [ ("detail",
              PDict [ ("success", PNone); (transaction_key, PNone);
                      ("statusCode", PNone); ("gatewayHttpStatusCode", PNone);
                      ("responseMessage", PNone);
                      ("responseDetail", PStr detail);
                      ("merchantAccountId", PInt merchant) ]) ]).

(** A computation that writes nothing to the trace. *)
Definition silent {L A} (c : M event L A) : Prop :=
  forall s, snd (snd (c s)) = snd s.

(** A computation that writes exactly [ev] to the trace. *)
Definition emits {L A} (ev : event) (c : M event L A) : Prop :=
  forall s, snd (snd (c s)) = (snd s ++ [ev])%list.

(** A computation all of whose writes to the trace satisfy [P]. *)
Definition writes {L A} (P : event -> Prop) (c : M event L A) : Prop :=
  forall s, exists tr,
    snd (snd (c s)) = (snd s ++ tr)%list /\ Forall P tr.

(** A computation that ends without an exception, from every state. *)
Definition returns {L A} (c : M event L A) : Prop :=
  forall s, exists a s', c s = (Val a, s').

End observe.
Export observe.

(** ** Concrete inputs

    The worlds, adapters and requests at which the statements below are
    instantiated. *)

Module examples.

(** A world whose HTTP server answers a GET with [inquiry] and a POST with
    [answer]; the text of a response names the body [json.loads] gives for
    it.  The SDK of the other gateway is never reached. *)
Definition http_world (inquiry answer : Z * pyval) : World :=
  mk_world
    (fun c =>
       match c with
       | Get _ _ => Val (mk_response (fst inquiry) "inquiry")
       | Post _ _ _ => Val (mk_response (fst answer) "answer")
       end)
    (fun _ _ => Exn (builtin "NotFound" ["PayloadError"] "NotFound"))
    (fun _ _ => Val PNone)
    (fun s => if (s =? "inquiry")%string then Val (snd inquiry)
              else Val (snd answer))
    (fun _ => "<repr>")
    "fts-uat.cardconnect.com"
    (logging.accepting_after 0).

Definition cc_credentials : dict :=
  [ ("username", PStr "testing"); ("password", PStr "testing123");
    ("merchantId", PStr "496160873888") ].

Definition cc_self : cardconnect.CardConnectProcessor :=
  cardconnect.mk_processor (PStr "testing") (PStr "testing123")
    (PStr "496160873888")
    "https://fts-uat.cardconnect.com/cardconnect/rest/auth"
    "https://fts-uat.cardconnect.com/cardconnect/rest/inquire"
    "https://fts-uat.cardconnect.com/cardconnect/rest/void"
    "https://fts-uat.cardconnect.com/cardconnect/rest/refund".

Definition a_payment (gateway currency : Z) (credentials : dict)
    (holder postal comment : option string) : Payment :=
  mk_payment gateway "gateway" 17 credentials (Some "4788250000121443")
    (Some "1225") (10 # 1) 5 (Some "123") currency holder None None None
    postal None comment None.

Definition a_refund (gateway : Z) (credentials : dict)
    (comment : option string) : Refund :=
  mk_refund gateway "gateway" 17 credentials "112989260076" 5 comment
    (Some (10 # 1)) None None.

(** The answer to a declined card, as the test cards of the gateway give it. *)
Definition declined_answer : dict :=
  [ ("respstat", PStr "C"); ("resptext", PStr "Do not honor");
    ("retref", PStr "112989260099") ].

(** An inquiry answer for an authorised payment that can be voided. *)
Definition voidable_inquiry : dict :=
  [ ("respstat", PStr "A"); ("voidable", PStr "Y"); ("refundable", PStr "N");
    ("retref", PStr "112989260076") ].

(** The answer of the void endpoint to a void it declines. *)
Definition declined_void : dict :=
  [ ("respstat", PStr "C"); ("resptext", PStr "Txn not found");
    ("retref", PStr "112989260076") ].

(** A world whose Payload account answers the lookup of a payment with
    [payment_object], the lookup of a transaction with [transaction], an
    update with the object under its new status, and a creation with
    [created].  The HTTP server of the other gateway is never reached. *)
Definition sdk_world (payment_object transaction created : dict) : World :=
  mk_world
    (fun _ => Exn (builtin "ConnectionError" ["RequestException"; "OSError"]
                     "connection refused"))
    (fun _ c =>
       match c with
       | Payment_get _ => Val payment_object
       | Transaction_get _ => Val transaction
       | Transaction_update target status _ =>
           Val (dict_set "status" status target)
       | Payment_create _ _ _ _ => Val created
       | Refund_create _ _ _ => Val created
       end)
    (fun _ _ => Val PNone)
    (fun _ => Exn (builtin "JSONDecodeError" ["ValueError"]
                     "Expecting value: line 1 column 1 (char 0)"))
    (fun _ => "<repr>")
    ""
    (logging.accepting_after 0).

Definition pl_credentials : dict :=
  [ ("apiKey", PStr "test_secret_key"); ("processingId", PStr "acct_3bW9JMoN") ].

Definition pl_self : payload.PayloadProcessor :=
  payload.mk_processor (PStr "test_secret_key") (PStr "acct_3bW9JMoN").

Definition processed_transaction : dict :=
  [ ("id", PStr "txn_19"); ("status", PStr "processed");
    ("status_code", PStr "approved");
    ("status_message", PStr "Transaction approved.");
    ("funding_status", PStr "pending"); ("amount", PFloat (10 # 1)) ].

(** A payment the account reports with a funding status the adapter does
    not know. *)
Definition rejected_payment : dict :=
  [ ("id", PStr "txn_19"); ("status", PStr "processed");
    ("funding_status", PStr "rejected"); ("amount", PFloat (10 # 1)) ].

Fixpoint replicate (n : nat) (s : string) : string :=
  match n with
  | O => EmptyString
  | S n' => (s ++ replicate n' s)%string
  end.

(** A comment of 130 characters. *)
Definition long_comment : string := replicate 13 "0123456789".

(** A payment the account reports as settled. *)
Definition batched_payment : dict :=
  [ ("id", PStr "txn_19"); ("status", PStr "processed");
    ("funding_status", PStr "batched"); ("amount", PFloat (10 # 1)) ].

(** A [BVMeta] header with the three required keys, as [json.loads] reads it. *)
Definition bv_header : dict :=
  [ ("transactionId", PStr "e4b2"); ("universityId", PInt 42);
    ("userId", PInt 5) ].

(** An inquiry answer for a settled payment, and the answer of the refund
    endpoint that approves its refund. *)
Definition refundable_inquiry : dict :=
  [ ("respstat", PStr "A"); ("voidable", PStr "N"); ("refundable", PStr "Y");
    ("retref", PStr "112989260076") ].

Definition approved_refund : dict :=
  [ ("respstat", PStr "A"); ("resptext", PStr "Approval");
    ("retref", PStr "112989260101") ].

(** A world whose Payload account raises [e] at every call. *)
Definition sdk_failing (e : exn) : World :=
  mk_world
    (fun _ => Exn (builtin "ConnectionError" ["RequestException"; "OSError"]
                     "connection refused"))
    (fun _ _ => Exn e)
    (fun _ _ => Val PNone)
    (fun _ => Exn (builtin "JSONDecodeError" ["ValueError"]
                     "Expecting value: line 1 column 1 (char 0)"))
    (fun _ => "<repr>")
    ""
    (logging.accepting_after 0).

(** The SDK error for a card number the account rejects. *)
Definition invalid_card : exn :=
  mk_exn "InvalidAttributes" ["BadRequest"; "PayloadError"]
    "InvalidAttributes"
    [ ("response",
       PDict [ ("error_type", PStr "InvalidAttributes");
               ("details",
                PDict [ ("payment_method",
                         PDict [ ("card",
                                  PDict [ ("card_number",
                                           PStr "The card number is invalid, please check the number.") ]) ]) ]) ]) ]
    [ ("response", PNone) ]
    Plain.

(** The SDK error for a transaction id the account does not know. *)
Definition not_found : exn :=
  mk_exn "NotFound" ["PayloadError"] "NotFound"
    [ ("response", PDict [ ("error_type", PStr "NotFound") ]) ]
    [ ("response", PNone) ]
    Plain.

(** The same error raised without a response: the attribute is then the
    one of the class. *)
Definition bare_not_found : exn :=
  mk_exn "NotFound" ["PayloadError"] "NotFound" [] [ ("response", PNone) ]
    Plain.

(** A payment the account reports as voided. *)
Definition voided_payment : dict :=
  [ ("id", PStr "txn_19"); ("status", PStr "voided");
    ("funding_status", PStr "pending"); ("amount", PFloat (10 # 1)) ].

End examples.
(** ** Reading a method half way *)

Module midway.

(** The variables of [process_refund] as they are when the void or the
    refund branch is entered: nothing assigned but the inquiry's answer. *)
Definition untouched (s : cardconnect.locals * list event) : Prop :=
  cardconnect.message (fst s) = PNone /\
  cardconnect.http_status_code (fst s) = 200 /\
  cardconnect.success (fst s) = false /\
  cardconnect.transaction_id (fst s) = PNone /\
  cardconnect.void_resp (fst s) = None /\
  cardconnect.refund_response (fst s) = None.

(** The body sent to the void endpoint and to the refund endpoint. *)
Definition void_data (self : cardconnect.CardConnectProcessor)
    (refund : Refund) : pyval :=
  PDict [ ("retref", PStr (paymentTransactionId refund));
          ("merchid", cardconnect.merchantId self) ].

Definition refund_data (self : cardconnect.CardConnectProcessor)
    (refund : Refund) : pyval :=
  PDict [ ("retref", PStr (paymentTransactionId refund));
          ("merchid", cardconnect.merchantId self);
          ("amount", cardconnect.opt_float (r_amount refund)) ].

(** The inquiry was answered 200 by the JSON object [o]. *)
Definition inquiry_answered (W : World)
    (self : cardconnect.CardConnectProcessor) (refund : Refund) (o : dict)
  : Prop :=
  exists inquired,
    requests W (Get (cardconnect.inquire_url W self refund)
                  (cardconnect.auth self)) = Val inquired /\
    status_code inquired = 200 /\
    json_loads W (text inquired) = Val (PDict o).

(** The creation of a payment as the Payload adapter asks for it, for a
    payment whose expiry date is [date]. *)
Definition create_request (self : payload.PayloadProcessor) (payment : Payment)
    (date description : string) : sdk_call :=
  Payment_create (PFloat (p_amount payment))
    (payload.Card (of_option (name payment)) (of_option (account payment))
       (PStr (take 2 date ++ "/" ++ drop 2 date))
       (of_option (cvv2 payment)))
    (payload.processing_id self) (PStr description).

(** The SDK errors the adapters name, with the status each one is given. *)
Definition sdk_error_status : list (string * Z) :=
  [ ("InvalidAttributes", 422); ("InternalServerError", 500);
    ("Unauthorized", 401); ("NotFound", 404); ("TooManyRequests", 429);
    ("ServiceUnavailable", 503); ("BadRequest", 400); ("Forbidden", 403) ].

(** An exception the third [except] clause of the Payload adapter takes: not
    a [ValueError], not a [TransactionDeclined], an instance of one of the
    eight SDK classes. *)
Definition sdk_error (e : exn) : Prop :=
  isinstance e "ValueError" = false /\
  exn_kind_of e = Plain /\
  existsb (isinstance e) payload.sdk_errors = true.

(** An exception only the bare [except] takes. *)
Definition unforeseen (e : exn) : Prop :=
  isinstance e "ValueError" = false /\
  exn_kind_of e = Plain /\
  existsb (isinstance e) payload.sdk_errors = false.

End midway.
Export midway.

(** ** What an endpoint makes of an adapter's record *)

Module relay.

(** The adapter an endpoint builds for the gateway [g]. *)
Definition build (W : World) (g : GatewayType) (credentials : dict)
  : res main.processor :=
  match g with
  | Payload =>
      match payload.init credentials with
      | Val p => Val (main.PayloadProcessor p)
      | Exn e => Exn e
      end
  | CardConnect =>
      match cardconnect.init credentials (CARDCONNECT_HOSTNAME W) with
      | Val c => Val (main.CardConnectProcessor c)
      | Exn e => Exn e
      end
  end.

Definition payment_by (W : World) (p : main.processor) (payment : Payment)
  : outcome :=
  match p with
  | main.PayloadProcessor p => payload.process_payment W p payment
  | main.CardConnectProcessor c => cardconnect.process_payment W c payment
  end.

Definition refund_by (W : World) (p : main.processor) (refund : Refund)
  : outcome :=
  match p with
  | main.PayloadProcessor p => payload.process_refund W p refund
  | main.CardConnectProcessor c => cardconnect.process_refund W c refund
  end.

(** The status an endpoint answers for the status [z] of an adapter. *)
Definition relayed_status (z : Z) : Z := if 500 <=? z then 400 else z.

(** The record an endpoint answers with, from the record [d] of an adapter:
    [gatewayResponseData] is taken out and [responseDetail] is the adapter's
    message when that is a string, [fallback] otherwise. *)
Definition reply_record (d : dict) (fallback : string) : dict :=
  dict_set "responseDetail"
    (match dict_get d "responseMessage" with
     | PStr m => PStr m
     | _ => PStr fallback
     end)
    (dict_del "gatewayResponseData" d).

(** The texts of lines 197-203 and of lines 309-320. *)
Definition sale_detail (g : GatewayType) (status : Z) : string :=
  if status =? 200 then "Transaction approved"
  else "Error encountered during payment attempt to " ++ GatewayType_name g
       ++ " payment processing endpoint".

Definition credit_detail (g : GatewayType) (status : Z) : string :=
  if status =? 200 then "Refund successfully processed"
  else if (GatewayType_name g =? "Payload")%string && (status =? 404)
  then "The provided payment transaction id does not exist"
  else "Error encountered during refund request to " ++ GatewayType_name g
       ++ " refund processing endpoint".

(** A reply as the caller sees it: an integer status below 500 and a body
    [{'detail': d}] where [d] has no [gatewayResponseData], a string under
    [responseDetail] and the merchant account of the request. *)
Definition well_formed (merchant : Z) (r : main.Reply) : Prop :=
  exists z d,
    r = main.mk_reply (PInt z) (PDict [("detail", PDict d)]) /\
    z < 500 /\
    has_key "gatewayResponseData" d = false /\
    (exists s, lookup "responseDetail" d = Some (PStr s)) /\
    lookup "merchantAccountId" d = Some (PInt merchant).

(** A request whose record for the log is written and shipped without an
    exception: the header validated to the object [d], the [data] of [d],
    if it has one, is an object, and the collector raises nothing but
    refusals of the connection. *)
Definition logged_request (W : World) (bvmeta : option string) (d : dict)
  : Prop :=
  main.validate_bvmeta_header W bvmeta = Val (PDict d) /\
  logging.loggable d /\
  logging.quiet (logger W).

(** How an endpoint ends once its reply [r] is ready, with the trace [tr]
    so far: with the exception of [send_log_message] if it raised one, with
    the reply otherwise; what was done for the log comes last in the
    trace. *)
Definition finished (sent : res unit * list log_event) (r : main.Reply)
    (tr : list event) : res main.Reply * list event :=
  match fst sent with
  | Val _ => (Val r, (tr ++ map Log (snd sent))%list)
  | Exn e => (Exn e, (tr ++ map Log (snd sent))%list)
  end.

End relay.
Export relay.

(** * Properties *)

(** ** Values, dictionaries and strings *)

Module facts.

Lemma eq_str_true (v : pyval) (s : string) : eq_str v s = true <-> v = PStr s.
Proof.
  destruct v; simpl; split; intro H; try discriminate.
  - apply String.eqb_eq in H. now subst.
  - injection H as ->. apply String.eqb_refl.
Qed.

Lemma eq_str_false (v : pyval) (s : string) :
  eq_str v s = false <-> v <> PStr s.
Proof.
  split; intros H.
  - intros E. apply eq_str_true in E. congruence.
  - destruct (eq_str v s) eqn:E; [|reflexivity].
    apply eq_str_true in E. contradiction.
Qed.

Lemma eq_str_truthy (v : pyval) (s : string) :
  s <> ""%string -> eq_str v s = true -> truthy v = true.
Proof.
  intros Hs H. apply eq_str_true in H. subst v. unfold truthy.
  destruct (String.eqb_spec s ""); [contradiction | reflexivity].
Qed.

Lemma getitem_get (o : dict) (k : string) :
  truthy (dict_get o k) = true -> getitem (PDict o) k = Val (dict_get o k).
Proof.
  unfold getitem, dict_get. destruct (lookup k o); [reflexivity | discriminate].
Qed.



Lemma take_length (n : nat) (s : string) : (String.length (take n s) <= n)%nat.
Proof.
  revert s. induction n as [|n IH]; intros [|c s]; simpl; try lia.
  specialize (IH s). lia.
Qed.

Lemma take_drop (n : nat) (s : string) : (take n s ++ drop n s)%string = s.
Proof.
  revert s. induction n as [|n IH]; intros [|c s]; simpl; try reflexivity.
  now rewrite IH.
Qed.

Lemma take_all (n : nat) (s : string) :
  (String.length s <= n)%nat -> take n s = s.
Proof.
  revert s. induction n as [|n IH]; intros [|c s]; simpl; intros H;
    try reflexivity; try lia.
  rewrite IH by lia. reflexivity.
Qed.

Lemma append_cancel (p a b : string) : (p ++ a = p ++ b)%string -> a = b.
Proof.
  induction p as [|c p IH]; simpl; intros H; [exact H|].
  injection H as H. auto.
Qed.

Lemma CurrencyCode_lookup_None (z : Z) :
  CurrencyCode_lookup z = None <-> ~ In z [840; 124; 826; 978].
Proof.
  unfold CurrencyCode_lookup. simpl.
  destruct (Z.eqb_spec z 840); [split; [discriminate | intros H; exfalso; apply H; auto]|].
  destruct (Z.eqb_spec z 124); [split; [discriminate | intros H; exfalso; apply H; auto]|].
  destruct (Z.eqb_spec z 826); [split; [discriminate | intros H; exfalso; apply H; auto]|].
  destruct (Z.eqb_spec z 978); [split; [discriminate | intros H; exfalso; apply H; auto 6]|].
  split; [|reflexivity]. intros _ H. intuition congruence.
Qed.

(** *** The trace of a computation *)

Section Trace.
Context {L : Type}.
Implicit Types (ev : event).

Lemma silent_ret {A} (a : A) : silent (L:=L) (ret a).
Proof. intros s. reflexivity. Qed.

Lemma silent_lift {A} (r : res A) : silent (L:=L) (lift r).
Proof. intros s. reflexivity. Qed.

Lemma silent_raise {A} (e : exn) : silent (L:=L) (A:=A) (raise e).
Proof. intros s. reflexivity. Qed.

Lemma silent_read : silent (L:=L) read.
Proof. intros s. reflexivity. Qed.

Lemma silent_modify (f : L -> L) : silent (modify f).
Proof. intros s. reflexivity. Qed.

Lemma silent_bind {A B} (c : M event L A) (k : A -> M event L B) :
    silent c -> (forall a, silent (k a)) -> silent (bind c k).
Proof.
    intros Hc Hk s. unfold bind. specialize (Hc s).
    destruct (c s) as [[a|e] s']; simpl in *; [|exact Hc].
    rewrite Hk. exact Hc.
Qed.

Lemma silent_try_except {A} (c : M event L A) (h : exn -> M event L A) :
    silent c -> (forall e, silent (h e)) -> silent (try_except c h).
Proof.
    intros Hc Hh s. unfold try_except. specialize (Hc s).
    destruct (c s) as [[a|e] s']; simpl in *; [exact Hc|].
    rewrite Hh. exact Hc.
Qed.

Lemma emits_call {A B} ev (r : res A) (k : A -> M event L B) :
    (forall a, silent (k a)) -> emits ev (bind (call ev r) k).
Proof.
    intros Hk s. unfold bind, call. destruct r as [a|e]; simpl; [|reflexivity].
    rewrite Hk. reflexivity.
Qed.

Lemma emits_try_except {A} ev (c : M event L A) (h : exn -> M event L A) :
    emits ev c -> (forall e, silent (h e)) -> emits ev (try_except c h).
Proof.
    intros Hc Hh s. unfold try_except. specialize (Hc s).
    destruct (c s) as [[a|e] s']; simpl in *; [exact Hc|].
    rewrite Hh. exact Hc.
Qed.

Lemma emits_bind {A B} ev (c : M event L A) (k : A -> M event L B) :
  emits ev c -> (forall a, silent (k a)) -> emits ev (bind c k).
Proof.
  intros Hc Hk s. unfold bind. specialize (Hc s).
  destruct (c s) as [[a|e] s']; simpl in *; [|exact Hc].
  rewrite Hk. exact Hc.
Qed.

Lemma silent_try_finally {A} (c : M event L A) (fin : M event L unit) :
  silent c -> silent fin -> silent (try_finally c fin).
Proof.
  intros Hc Hf s. unfold try_finally. specialize (Hc s).
  destruct (c s) as [r s']. specialize (Hf s').
  destruct (fin s') as [[[]|e] s'']; simpl in *; congruence.
Qed.

Lemma emits_try_finally {A} ev (c : M event L A) (fin : M event L unit) :
  emits ev c -> silent fin -> emits ev (try_finally c fin).
Proof.
  intros Hc Hf s. unfold try_finally. specialize (Hc s).
  destruct (c s) as [r s']. specialize (Hf s').
  destruct (fin s') as [[[]|e] s'']; simpl in *; congruence.
Qed.

Lemma run_emits {A} ev (c : M event L A) (l0 : L) :
  emits ev c -> calls (run c l0) = [ev].
Proof.
  intros H. specialize (H (l0, [])). unfold run, calls.
  destruct (c (l0, [])) as [r [l tr]]. exact H.
Qed.

Lemma run_silent {A} (c : M event L A) (l0 : L) :
  silent c -> calls (run c l0) = [].
Proof.
  intros H. specialize (H (l0, [])). unfold run, calls.
  destruct (c (l0, [])) as [r [l tr]]. exact H.
Qed.

Lemma silent_writes {A} (P : event -> Prop) (c : M event L A) :
  silent c -> writes P c.
Proof.
  intros H s. exists []. rewrite H, app_nil_r. split; [reflexivity | constructor].
Qed.

Lemma writes_call {A} (P : event -> Prop) ev (r : res A) :
  P ev -> writes (L:=L) P (call ev r).
Proof.
  intros H s. exists [ev]. split; [reflexivity | repeat constructor; exact H].
Qed.

Lemma writes_bind {A B} (P : event -> Prop) (c : M event L A)
  (k : A -> M event L B) :
  writes P c -> (forall a, writes P (k a)) -> writes P (bind c k).
Proof.
  intros Hc Hk s. unfold bind. destruct (Hc s) as (tr & E & F).
  destruct (c s) as [[a|e] s']; simpl in *; [|eauto].
  destruct (Hk a s') as (tr' & E' & F').
  exists (tr ++ tr')%list. rewrite E', E, app_assoc.
  split; [reflexivity | apply Forall_app; auto].
Qed.

(** After [lift r] only the value [r] holds is passed on. *)
Lemma writes_bind_lift {A B} (P : event -> Prop) (r : res A)
  (k : A -> M event L B) :
  (forall a, r = Val a -> writes P (k a)) -> writes P (bind (lift r) k).
Proof.
  intros Hk s. unfold bind, lift. destruct r as [a|e]; [apply Hk; reflexivity|].
  exists []. simpl. rewrite app_nil_r. split; [reflexivity | constructor].
Qed.

Lemma writes_try_except {A} (P : event -> Prop) (c : M event L A)
  (h : exn -> M event L A) :
  writes P c -> (forall e, writes P (h e)) -> writes P (try_except c h).
Proof.
  intros Hc Hh s. unfold try_except. destruct (Hc s) as (tr & E & F).
  destruct (c s) as [[a|e] s']; simpl in *; [eauto|].
  destruct (Hh e s') as (tr' & E' & F').
  exists (tr ++ tr')%list. rewrite E', E, app_assoc.
  split; [reflexivity | apply Forall_app; auto].
Qed.

Lemma writes_try_finally {A} (P : event -> Prop) (c : M event L A)
  (fin : M event L unit) :
  writes P c -> silent fin -> writes P (try_finally c fin).
Proof.
  intros Hc Hf s. unfold try_finally. destruct (Hc s) as (tr & E & F).
  destruct (c s) as [r s']. specialize (Hf s').
  destruct (fin s') as [[[]|e] s'']; simpl in *; exists tr; split;
    congruence.
Qed.

Lemma run_writes {A} (P : event -> Prop) (c : M event L A) (l0 : L) :
  writes P c -> Forall P (calls (run c l0)).
Proof.
  intros H. destruct (H (l0, [])) as (tr & E & F). unfold run, calls.
  destruct (c (l0, [])) as [r [l tr']]. simpl in E. subst. exact F.
Qed.

Lemma returns_try_except (c : M event L unit) (h : exn -> M event L unit) :
    (forall e, returns (h e)) -> returns (try_except c h).
Proof.
    intros Hh s. unfold try_except.
    destruct (c s) as [[a|e] s']; [eauto | apply Hh].
Qed.

Lemma returns_modify (f : L -> L) : returns (modify f).
Proof. intros s. unfold modify. eauto. Qed.

Lemma returns_bind {A B} (c : M event L A) (k : A -> M event L B) :
    returns c -> (forall a, returns (k a)) -> returns (bind c k).
Proof.
    intros Hc Hk s. unfold bind. destruct (Hc s) as (a & s' & ->). apply Hk.
Qed.

Lemma returns_read : returns (L:=L) read.
Proof. intros s. unfold read. eauto. Qed.

Lemma returns_ret {A} (a : A) : returns (L:=L) (ret a).
Proof. intros s. unfold ret. eauto. Qed.
End Trace.


(** Splits a goal [silent c] along the shape of [c]. *)
Ltac quiet :=
  repeat first
    [ apply silent_ret | apply silent_lift | apply silent_raise
    | apply silent_read | apply silent_modify
    | apply silent_bind; [|intro]
    | apply silent_try_except; [|intro]
    | match goal with
      | |- silent (if ?b then _ else _) => destruct b
      | |- silent (match ?x with _ => _ end) => destruct x
      end ].

(** Splits a goal [writes P c] along the shape of [c]; what is left is [P]
    at each call, under what the reads before it returned. *)
Ltac tracing :=
  repeat first
    [ apply silent_writes; solve [quiet]
    | apply writes_call
    | apply writes_bind_lift; intros ? ?
    | apply writes_bind; [|intro]
    | apply writes_try_except; [|intro]
    | match goal with
      | |- writes _ (if ?b then _ else _) => destruct b eqn:?
      | |- writes _ (match ?x with _ => _ end) => destruct x eqn:?
      end ].

(** Splits a goal [returns c] along the shape of [c]. *)
Ltac finishes :=
  repeat first
    [ apply returns_modify | apply returns_read | apply returns_ret
    | apply returns_bind; [|intro]
    | apply returns_try_except; intro
    | match goal with
      | |- returns (if ?b then _ else _) => destruct b
      | |- returns (match ?x with _ => _ end) => destruct x
      end ].

Ltac reduce := cbv beta iota zeta.

(** Rewrites with every equation of the context that applies. *)
Ltac learn :=
  repeat match goal with
    | H : ?x = _ |- context [?x] => rewrite H
    end.

(** Runs on with what is known: reduce, rewrite, evaluate the tests. *)
Ltac advance :=
  repeat (reduce;
          progress (learn; cbn [truthy eq_str negb andb String.eqb Ascii.eqb
                                Bool.eqb])).

End facts.
Export facts.

(** ** CardConnect *)

Module cardconnect_proofs.
Import cardconnect.

(** Runs a method body: every definition of the module is unfolded, the
    calls to the outside world stay as they are. *)
Ltac exec :=
  cbv [process_payment process_refund payment_body refund_body
       payment_try payment_except inquire_try inquire_except
       log_exception append_data append_text message_add
       result_field calls
       run bind ret lift read modify call raise try_except try_finally
       set_transaction_id set_http_status_code set_success set_message
       set_gateway_response_data set_response set_void_resp
       set_refund_response set_result initial
       transaction_id http_status_code success message gateway_response_data
       response void_resp refund_response result fst snd].

Lemma field_is_dict (o : dict) (k v : string) (s : locals * list event) :
  v <> ""%string ->
  field_is (PDict o) k v s = (Val (eq_str (dict_get o k) v), s).
Proof.
  intros Hv. unfold field_is, bind, lift, ret, get.
  destruct (truthy (dict_get o k)) eqn:T.
  - rewrite (getitem_get _ _ T). reflexivity.
  - destruct (eq_str (dict_get o k) v) eqn:E; [|reflexivity].
    apply (eq_str_truthy _ _ Hv) in E. congruence.
Qed.

Lemma silent_field_is (j : pyval) (k v : string) : silent (field_is j k v).
Proof. unfold field_is. quiet. Qed.

Lemma silent_message_add (suffix : string) : silent (message_add suffix).
Proof.
  intros s. unfold message_add, bind, read, modify, raise. simpl.
  destruct (message (fst s)); reflexivity.
Qed.

Lemma silent_log_exception (W : World) (label : string)
    (resp : locals -> option Response) (e : exn) :
  silent (log_exception W label resp e).
Proof.
  intros s. unfold log_exception, append_data, append_text, bind, read, modify,
    ret. simpl.
  destruct (resp _); [|reflexivity].
  destruct (_ && _); reflexivity.
Qed.

Lemma returns_log_exception (W : World) (label : string)
    (resp : locals -> option Response) (e : exn) :
  returns (log_exception W label resp e).
Proof.
  intros s. unfold log_exception, append_data, append_text, bind, read, modify,
    ret. simpl.
  destruct (resp _); [|eauto].
  destruct (_ && _); eauto.
Qed.

(** The [except] block of [process_payment] raises nothing itself. *)
Lemma cc_returns_payment_except (W : World) (e : exn) :
  returns (payment_except W e).
Proof.
  unfold payment_except.
  apply returns_bind; [apply returns_log_exception | intro].
  finishes.
Qed.

Lemma returns_void_except (W : World) (refund : Refund) (e : exn) :
  returns (void_except W refund e).
Proof.
  unfold void_except.
  apply returns_bind; [apply returns_log_exception | intro].
  finishes.
Qed.

Lemma cc_returns_refund_except (W : World) (refund : Refund) (e : exn) :
  returns (refund_except W refund e).
Proof.
  unfold refund_except.
  apply returns_bind; [apply returns_log_exception | intro].
  finishes.
Qed.

Lemma returns_inquire_except (W : World) (refund : Refund) (e : exn) :
  returns (inquire_except W refund e).
Proof.
  unfold inquire_except.
  apply returns_bind; [apply returns_log_exception | intro].
  finishes.
Qed.



(** C10. A CardConnect payment whose [currencyType] is none of 840, 124,
    826 and 978 makes no upstream call and returns [success] false with
    status 500 and the internal-service-error message. *)
Theorem C10_currency_whitelist (W : World) (self : CardConnectProcessor)
    (payment : Payment) :
  ~ In (p_currencyType payment) [840; 124; 826; 978] ->
  let out := process_payment W self payment in
  calls out = [] /\
  result_field out "success" = Some (PBool false) /\
  result_field out "gatewayHttpStatusCode" = Some (PInt 500) /\
  result_field out "statusCode" = Some (PInt 500) /\
  result_field out "responseMessage" =
    Some (PStr "There was an internal service error with your request.").
Proof.
  intros H out. subst out. apply CurrencyCode_lookup_None in H.
  exec. unfold auth_data, CurrencyCode_of. rewrite H.
  cbn. repeat split.
Qed.

Lemma C10_currency_whitelist_witness :
  let out := process_payment (examples.http_world (200, PNone) (200, PNone))
               examples.cc_self
               (examples.a_payment 2 392 examples.cc_credentials None None None) in
  calls out = [] /\
  result_field out "success" = Some (PBool false) /\
  result_field out "gatewayHttpStatusCode" = Some (PInt 500) /\
  result_field out "statusCode" = Some (PInt 500) /\
  result_field out "responseMessage" =
    Some (PStr "There was an internal service error with your request.").
Proof.
  apply (C10_currency_whitelist
           (examples.http_world (200, PNone) (200, PNone)) examples.cc_self
           (examples.a_payment 2 392 examples.cc_credentials None None None)).
  simpl. lia.
Defined.

(** C4. With the auth call answered 200 by a JSON object: [respstat] A is a
    success with status 200 and the message "Success."; [respstat] B is a
    failure with status 400 and "Please retry the request."; any other
    [respstat] is a failure with status 400 and "Authorization failed.";
    the vendor's [resptext], when there is one, follows the message; and a
    [retref] in the answer is the transaction id in all three cases. *)
Theorem C4_payment_outcome (W : World) (self : CardConnectProcessor)
    (payment : Payment) (data : dict) (resp : Response) (o : dict) :
  auth_data W self payment = Val data ->
  requests W (Post (authEndPoint self) (PDict data) (auth self)) = Val resp ->
  status_code resp = 200 ->
  json_loads W (text resp) = Val (PDict o) ->
  let out := process_payment W self payment in
  let respstat := dict_get o "respstat" in
  (respstat = PStr "A" ->
     result_field out "success" = Some (PBool true) /\
     result_field out "gatewayHttpStatusCode" = Some (PInt 200) /\
     result_field out "responseMessage" = Some (PStr "Success.")) /\
  (respstat = PStr "B" ->
     result_field out "success" = Some (PBool false) /\
     result_field out "gatewayHttpStatusCode" = Some (PInt 400) /\
     result_field out "responseMessage" =
       Some (PStr ("Please retry the request." ++ vendor_text W o))) /\
  (respstat <> PStr "A" -> respstat <> PStr "B" ->
     result_field out "success" = Some (PBool false) /\
     result_field out "gatewayHttpStatusCode" = Some (PInt 400) /\
     result_field out "responseMessage" =
       Some (PStr ("Authorization failed." ++ vendor_text W o))) /\
  (truthy (dict_get o "retref") = true ->
     result_field out "paymentTransactionId" = Some (dict_get o "retref")).
Proof.
  intros Hd Hr Hs Hj out respstat. subst out respstat.
  exec. rewrite Hd. reduce. rewrite Hr. reduce. rewrite Hs.
  simpl (200 =? 200). reduce. rewrite Hj. reduce.
  rewrite !field_is_dict by discriminate. reduce.
  unfold vendor_text, get, CardConnectResponseStatusType.Approved,
    CardConnectResponseStatusType.Retry.
  destruct (eq_str (dict_get o "respstat") "A") eqn:EA; reduce.
  - apply eq_str_true in EA.
    destruct (truthy (dict_get o "retref")) eqn:ER; reduce;
      [rewrite (getitem_get _ _ ER); reduce|];
      (repeat split; intros; try reflexivity; try congruence).
  - apply eq_str_false in EA.
    rewrite !field_is_dict by discriminate. reduce.
    destruct (eq_str (dict_get o "respstat") "B") eqn:EB; reduce;
      [apply eq_str_true in EB | apply eq_str_false in EB];
      (destruct (truthy (dict_get o "resptext")) eqn:ET; reduce;
       [rewrite (getitem_get _ _ ET); reduce|]);
      (destruct (truthy (dict_get o "retref")) eqn:ER; reduce;
       [rewrite (getitem_get _ _ ER); reduce|]);
      (repeat split; intros; try reflexivity; try congruence).
Qed.

Lemma C4_payment_outcome_witness :
  let W := examples.http_world (200, PNone) (200, PDict examples.declined_answer) in
  let o := examples.declined_answer in
  let out := process_payment W examples.cc_self
               (examples.a_payment 2 840 examples.cc_credentials None None None) in
  let respstat := dict_get o "respstat" in
  (respstat = PStr "A" ->
     result_field out "success" = Some (PBool true) /\
     result_field out "gatewayHttpStatusCode" = Some (PInt 200) /\
     result_field out "responseMessage" = Some (PStr "Success.")) /\
  (respstat = PStr "B" ->
     result_field out "success" = Some (PBool false) /\
     result_field out "gatewayHttpStatusCode" = Some (PInt 400) /\
     result_field out "responseMessage" =
       Some (PStr ("Please retry the request." ++ vendor_text W o))) /\
  (respstat <> PStr "A" -> respstat <> PStr "B" ->
     result_field out "success" = Some (PBool false) /\
     result_field out "gatewayHttpStatusCode" = Some (PInt 400) /\
     result_field out "responseMessage" =
       Some (PStr ("Authorization failed." ++ vendor_text W o))) /\
  (truthy (dict_get o "retref") = true ->
     result_field out "paymentTransactionId" = Some (dict_get o "retref")).
Proof.
  eapply (C4_payment_outcome
            (examples.http_world (200, PNone) (200, PDict examples.declined_answer))
            examples.cc_self
            (examples.a_payment 2 840 examples.cc_credentials None None None));
    reflexivity.
Defined.

(** What the request body holds for the optional fields: [postal] exactly
    when the zip is a non-empty string, [userfields] with the comment or the
    empty string, and [name] in every case. *)
Lemma auth_data_optional_fields (W : World) (self : CardConnectProcessor)
    (payment : Payment) (data : dict) :
  auth_data W self payment = Val data ->
  (has_key "postal" data = true <->
     exists z, zip payment = Some z /\ z <> ""%string) /\
  (forall z, zip payment = Some z -> z <> ""%string ->
     lookup "postal" data = Some (PStr z)) /\
  lookup "name" data = Some (of_option (name payment)) /\
  lookup "userfields" data =
    Some (PList [PDict [("Description",
                         PStr (match p_comment payment with
                               | Some c => c
                               | None => ""
                               end))]]).
Proof.
  unfold auth_data. destruct (CurrencyCode_of W _); [|discriminate].
  intros H. injection H as <-.
  destruct (zip payment) as [[|zc z]|], (name payment) as [[|nc n]|],
    (p_comment payment) as [[|cc c]|]; cbn;
    (repeat split; try reflexivity; try discriminate;
     try (intros (z0 & E & N); congruence);
     try (intros _; eexists; split; [reflexivity | discriminate]);
     try (intros z0 E N; congruence)).
Qed.

(** C8. The request body of a payment without a cardholder name still holds
    the [name] field, with the value [None]: the dictionary is built with
    ["name": payment.name] before the guarded assignment of line 139. *)
Theorem C8_name_sent_when_absent :
  let W := examples.http_world (200, PNone) (200, PDict examples.declined_answer) in
  let payment := examples.a_payment 2 840 examples.cc_credentials None None None in
  name payment = None /\
  exists data,
    calls (process_payment W examples.cc_self payment) =
      [Http (Post (authEndPoint examples.cc_self) (PDict data)
               (auth examples.cc_self))] /\
    has_key "name" data = true /\
    lookup "name" data = Some PNone.
Proof.
  split; [reflexivity|]. eexists. split; [reflexivity|]. split; reflexivity.
Qed.

(** C6 as amended. When the inquiry answers a status other than 200 the
    refund fails with that status; at 401 the message is the authorisation
    error and the transaction id stays unset, at any other status the
    message is the support message and the transaction id is the one of
    the original payment. *)
Theorem C6_inquiry_transport_failure (W : World) (self : CardConnectProcessor)
    (refund : Refund) (resp : Response) :
  requests W (Get (inquire_url W self refund) (auth self)) = Val resp ->
  status_code resp <> 200 ->
  let out := process_refund W self refund in
  result_field out "success" = Some (PBool false) /\
  result_field out "gatewayHttpStatusCode" = Some (PInt (status_code resp)) /\
  (status_code resp = 401 ->
     result_field out "responseMessage" =
       Some (PStr "There was an authorization error while accessing your previous payment status.") /\
     result_field out "refundTransactionId" = Some PNone) /\
  (status_code resp <> 401 ->
     result_field out "responseMessage" =
       Some (PStr "Unable to complete request for payment status. Please contact BlueVolt support.") /\
     result_field out "refundTransactionId" =
       Some (PStr (paymentTransactionId refund))).
Proof.
  intros Hr Hs out. subst out.
  exec. rewrite Hr. reduce.
  destruct (Z.eqb_spec (status_code resp) 200) as [E|_]; [contradiction|].
  destruct (Z.eqb_spec (status_code resp) 401) as [E|N]; reduce;
    repeat split; intros; try reflexivity; try contradiction.
Qed.

Lemma C6_inquiry_transport_failure_witness :
  let W := examples.http_world (503, PNone) (200, PNone) in
  let refund := examples.a_refund 2 examples.cc_credentials None in
  let out := process_refund W examples.cc_self refund in
  result_field out "success" = Some (PBool false) /\
  result_field out "gatewayHttpStatusCode" = Some (PInt 503) /\
  (503 = 401 ->
     result_field out "responseMessage" =
       Some (PStr "There was an authorization error while accessing your previous payment status.") /\
     result_field out "refundTransactionId" = Some PNone) /\
  (503 <> 401 ->
     result_field out "responseMessage" =
       Some (PStr "Unable to complete request for payment status. Please contact BlueVolt support.") /\
     result_field out "refundTransactionId" =
       Some (PStr (paymentTransactionId refund))).
Proof.
  apply (C6_inquiry_transport_failure
           (examples.http_world (503, PNone) (200, PNone)) examples.cc_self
           (examples.a_refund 2 examples.cc_credentials None)
           (mk_response 503 "inquiry")).
  - reflexivity.
  - discriminate.
Defined.

(** C6 as stated fails at 401: the result carries no transaction id. *)
Lemma C6_counterexample :
  let W := examples.http_world (401, PNone) (200, PNone) in
  let refund := examples.a_refund 2 examples.cc_credentials None in
  let out := process_refund W examples.cc_self refund in
  result_field out "gatewayHttpStatusCode" = Some (PInt 401) /\
  result_field out "refundTransactionId" = Some PNone /\
  result_field out "refundTransactionId" <>
    Some (PStr (paymentTransactionId refund)).
Proof.
  repeat split; try reflexivity. discriminate.
Qed.

(** *** The refund decision *)

Ltac quiet_cc :=
  repeat first
    [ apply silent_field_is | apply silent_message_add
    | apply silent_log_exception | progress quiet ].

Lemma init_endpoints (credentials : dict) (host : string)
    (self : CardConnectProcessor) :
  init credentials host = Val self ->
  exists h,
    voidEndpoint self = ("https://" ++ h ++ "/cardconnect/rest/void")%string /\
    refundEndpoint self = ("https://" ++ h ++ "/cardconnect/rest/refund")%string.
Proof.
  unfold init.
  destruct (getitem _ "username"); [|discriminate].
  destruct (getitem _ "password"); [|discriminate].
  destruct (getitem _ "merchantId"); [|discriminate].
  intros H. injection H as <-. eexists. split; reflexivity.
Qed.

Lemma endpoints_distinct (credentials : dict) (host : string)
    (self : CardConnectProcessor) :
  init credentials host = Val self ->
  (voidEndpoint self =? refundEndpoint self)%string = false /\
  (refundEndpoint self =? voidEndpoint self)%string = false.
Proof.
  intros H. destruct (init_endpoints _ _ _ H) as (h & -> & ->).
  split; apply String.eqb_neq; intros E;
    apply (append_cancel "https://") in E; apply append_cancel in E;
    discriminate.
Qed.

(** The void branch makes the void call and no other. *)
Lemma void_branch_emits (W : World) (self : CardConnectProcessor)
    (refund : Refund) :
  emits (void_call self refund) (void_branch W self refund).
Proof.
  apply emits_try_except.
  - unfold void_try. cbv zeta. apply emits_call. intro resp.
    unfold append_data, append_text. quiet_cc.
  - intro e. unfold void_except. quiet_cc.
Qed.

(** The refund branch makes the refund call and no other. *)
Lemma refund_branch_emits (W : World) (self : CardConnectProcessor)
    (refund : Refund) :
  emits (refund_call self refund) (refund_branch W self refund).
Proof.
  apply emits_try_except.
  - unfold refund_try. cbv zeta. apply emits_call. intro resp.
    unfold append_data, append_text. quiet_cc.
  - intro e. unfold refund_except. quiet_cc.
Qed.

Lemma void_branch_returns (W : World) (self : CardConnectProcessor)
    (refund : Refund) :
  returns (void_branch W self refund).
Proof. apply returns_try_except, returns_void_except. Qed.

Lemma refund_branch_returns (W : World) (self : CardConnectProcessor)
    (refund : Refund) :
  returns (refund_branch W self refund).
Proof. apply returns_try_except, cc_returns_refund_except. Qed.

(** C2. With the inquiry answered 200 by a JSON object: when [respstat] is
    not A the result is status 409 with the original transaction id and
    neither a void nor a refund is posted; when it is A and [voidable] is Y
    the void is posted and the refund is not; when it is A, [voidable] is
    not Y and [refundable] is Y the refund is posted and the void is not;
    when neither is Y the result is status 409 with the original
    transaction id and nothing is posted.  [voidable] is looked at first. *)
Theorem C2_refund_decision (W : World) (credentials : dict) (host : string)
    (self : CardConnectProcessor) (refund : Refund) (resp : Response)
    (o : dict) :
  init credentials host = Val self ->
  requests W (Get (inquire_url W self refund) (auth self)) = Val resp ->
  status_code resp = 200 ->
  json_loads W (text resp) = Val (PDict o) ->
  let out := process_refund W self refund in
  let respstat := dict_get o "respstat" in
  let voidable := dict_get o "voidable" in
  let refundable := dict_get o "refundable" in
  (respstat <> PStr "A" ->
     result_field out "gatewayHttpStatusCode" = Some (PInt 409) /\
     result_field out "refundTransactionId" =
       Some (PStr (paymentTransactionId refund)) /\
     issued (voidEndpoint self) (calls out) = false /\
     issued (refundEndpoint self) (calls out) = false) /\
  (respstat = PStr "A" -> voidable = PStr "Y" ->
     issued (voidEndpoint self) (calls out) = true /\
     issued (refundEndpoint self) (calls out) = false) /\
  (respstat = PStr "A" -> voidable <> PStr "Y" -> refundable = PStr "Y" ->
     issued (refundEndpoint self) (calls out) = true /\
     issued (voidEndpoint self) (calls out) = false) /\
  (respstat = PStr "A" -> voidable <> PStr "Y" -> refundable <> PStr "Y" ->
     result_field out "gatewayHttpStatusCode" = Some (PInt 409) /\
     result_field out "refundTransactionId" =
       Some (PStr (paymentTransactionId refund)) /\
     issued (voidEndpoint self) (calls out) = false /\
     issued (refundEndpoint self) (calls out) = false).
Proof.
  intros Hi Hr Hs Hj out respstat voidable refundable.
  subst out respstat voidable refundable.
  destruct (endpoints_distinct _ _ _ Hi) as [Dvr Drv].
  exec. rewrite Hr. reduce. rewrite Hs. simpl (200 =? 200). reduce.
  rewrite Hj. reduce.
  rewrite !field_is_dict by discriminate. reduce.
  unfold CardConnectResponseStatusType.Approved,
    CardConnectVoidableStatusType.Voidable,
    CardConnectRefundableStatusType.Refundable.
  destruct (eq_str (dict_get o "respstat") "A") eqn:EA; reduce;
    [apply eq_str_true in EA | apply eq_str_false in EA].
  2: { repeat split; intros; try reflexivity; congruence. }
  rewrite !field_is_dict by discriminate. reduce.
  destruct (eq_str (dict_get o "voidable") "Y") eqn:EV; reduce;
    [apply eq_str_true in EV | apply eq_str_false in EV].
  { match goal with
    | |- context [void_branch W self refund ?s] =>
        pose proof (void_branch_emits W self refund s) as Em;
        destruct (void_branch_returns W self refund s) as ([] & [l tr] & E);
        rewrite E in Em |- *; simpl in Em; subst tr
    end.
    reduce. cbv [issued existsb posts_to void_call app].
    rewrite ?String.eqb_refl, ?Dvr, ?Drv.
    repeat split; intros; try reflexivity; congruence. }
  rewrite !field_is_dict by discriminate. reduce.
  destruct (eq_str (dict_get o "refundable") "Y") eqn:EF; reduce;
    [apply eq_str_true in EF | apply eq_str_false in EF].
  { match goal with
    | |- context [refund_branch W self refund ?s] =>
        pose proof (refund_branch_emits W self refund s) as Em;
        destruct (refund_branch_returns W self refund s) as ([] & [l tr] & E);
        rewrite E in Em |- *; simpl in Em; subst tr
    end.
    reduce. cbv [issued existsb posts_to refund_call app].
    rewrite ?String.eqb_refl, ?Dvr, ?Drv.
    repeat split; intros; try reflexivity; congruence. }
  repeat split; intros; try reflexivity; congruence.
Qed.

Lemma C2_refund_decision_witness :
  let W := examples.http_world (200, PDict examples.voidable_inquiry)
             (200, PDict examples.declined_void) in
  let out := process_refund W examples.cc_self
               (examples.a_refund 2 examples.cc_credentials None) in
  issued (voidEndpoint examples.cc_self) (calls out) = true /\
  issued (refundEndpoint examples.cc_self) (calls out) = false.
Proof.
  intros W out.
  destruct (C2_refund_decision W examples.cc_credentials
              "fts-uat.cardconnect.com" examples.cc_self
              (examples.a_refund 2 examples.cc_credentials None)
              (mk_response 200 "inquiry") examples.voidable_inquiry
              eq_refl eq_refl eq_refl eq_refl)
    as (_ & Hvoid & _).
  apply Hvoid; reflexivity.
Defined.

(** *** The answer of the void endpoint *)

Lemma getitem_known (d : dict) (k : string) (x : pyval) :
  dict_get d k = x -> x <> PNone -> getitem (PDict d) k = Val x.
Proof.
  unfold dict_get, getitem. destruct (lookup k d); intros <- H;
    [reflexivity | contradiction].
Qed.

(** What the context says of an answer, as equations on its reads. *)
Ltac facts :=
  repeat match goal with
    | H : dict_get ?d ?k = PStr ?s |- _ =>
        lazymatch goal with
        | _ : getitem (PDict d) k = _ |- _ => fail
        | _ => pose proof (getitem_known d k _ H ltac:(discriminate))
        end
    | H : lookup ?k ?d = Some ?x |- _ =>
        lazymatch goal with
        | _ : getitem (PDict d) k = _ |- _ => fail
        | _ => assert (getitem (PDict d) k = Val x)
                 by (unfold getitem; rewrite H; reflexivity)
        end
    | H : _ <> PStr _ |- _ => apply eq_str_false in H
    end.

(** Runs to the end, splitting on the reads the context leaves open. *)
Ltac explore :=
  advance;
  try match goal with
    | |- context [truthy (dict_get ?d ?k)] =>
        let T := fresh "T" in
        destruct (truthy (dict_get d k)) eqn:T;
        [pose proof (getitem_get d k T)|]; explore
    | |- context [getitem (PDict ?d) ?k] =>
        destruct (getitem (PDict d) k) eqn:?; explore
    end.

Ltac exec_void :=
  cbv [void_branch void_try void_except field_is get
       log_exception append_data append_text message_add
       bind ret lift read modify call raise try_except try_finally
       set_transaction_id set_http_status_code set_success set_message
       set_gateway_response_data set_response set_void_resp
       set_refund_response set_result
       transaction_id http_status_code success message gateway_response_data
       response void_resp refund_response result fst snd].

(** How the void branch reads a 200 answer that is a JSON object, from the
    state in which [process_refund] enters it (no message yet, status 200,
    no success): REVERS and a missing authcode are successes, NULL is a
    400 and Retry a 409 when the answer holds [resptext] and [retref], and
    a [respstat] that is neither A nor B ends in the [except] block with
    500, since no message was assigned before [message +=]. *)
Lemma void_answer_interpretation (W : World) (self : CardConnectProcessor)
    (refund : Refund) (resp : Response) (v : dict) (s : locals * list event) :
  requests W (Post (voidEndpoint self)
                (PDict [ ("retref", PStr (paymentTransactionId refund));
                         ("merchid", merchantId self) ])
                (auth self)) = Val resp ->
  status_code resp = 200 ->
  json_loads W (text resp) = Val (PDict v) ->
  message (fst s) = PNone ->
  http_status_code (fst s) = 200 ->
  success (fst s) = false ->
  let l := fst (snd (void_branch W self refund s)) in
  let respstat := dict_get v "respstat" in
  let authcode := dict_get v "authcode" in
  (respstat = PStr "A" -> authcode = PStr "REVERS" -> success l = true) /\
  (respstat = PStr "A" -> truthy authcode = false -> success l = true) /\
  (respstat = PStr "A" -> authcode = PStr "NULL" ->
   forall t r, lookup "resptext" v = Some t -> lookup "retref" v = Some r ->
     success l = false /\ http_status_code l = 400 /\
     message l = PStr ("Void transaction was unsuccessful." ++ " " ++ str W t)) /\
  (respstat = PStr "B" ->
   forall t r, lookup "resptext" v = Some t -> lookup "retref" v = Some r ->
     success l = false /\ http_status_code l = 409 /\
     message l = PStr ("Unable to complete void transaction." ++ " " ++ str W t)) /\
  (respstat <> PStr "A" -> respstat <> PStr "B" ->
     success l = false /\ http_status_code l = 500 /\
     message l =
       PStr "An unknown error occurred while processing void transaction.").
Proof.
  destruct s as [l0 tr0]. simpl fst.
  intros Hr Hs Hj Hm Hh Hsu l respstat authcode. subst l respstat authcode.
  destruct l0 as [t0 h0 su0 m0 g0 r0 v0 rr0 res0]. simpl in Hm, Hh, Hsu.
  subst m0 h0 su0.
  exec_void. rewrite Hr. reduce. rewrite Hs. simpl (200 =? 200). reduce.
  rewrite Hj. reduce.
  unfold CardConnectResponseStatusType.Approved,
    CardConnectResponseStatusType.Retry,
    CardConnectVoidRespAuthCodeType.Successful,
    CardConnectVoidRespAuthCodeType.Unsuccessful.
  destruct (response_ok resp && truthy (PStr (text resp))) eqn:C;
    cbn [truthy] in C.
  all: repeat split; intros; repeat split; facts; explore; reflexivity.
Qed.

(** C3. An inquiry for a voidable payment followed by a void that the
    gateway declines ([respstat] C, with [resptext] and [retref]): the
    result is status 500 with the unknown-error message, not status 409
    with the vendor text.  Line 303 holds the message of this case as a
    bare string, so [message] is still [None] at [message +=]. *)
Theorem C3_declined_void_is_internal_error :
  let W := examples.http_world (200, PDict examples.voidable_inquiry)
             (200, PDict examples.declined_void) in
  let refund := examples.a_refund 2 examples.cc_credentials None in
  let out := process_refund W examples.cc_self refund in
  dict_get examples.declined_void "respstat" = PStr "C" /\
  result_field out "success" = Some (PBool false) /\
  result_field out "gatewayHttpStatusCode" = Some (PInt 500) /\
  result_field out "responseMessage" =
    Some (PStr "An unknown error occurred while processing void transaction.") /\
  result_field out "gatewayHttpStatusCode" <> Some (PInt 409).
Proof.
  repeat split; try reflexivity. discriminate.
Qed.

End cardconnect_proofs.

(** ** Payload *)

Module payload_proofs.
Import payload.

Ltac exec :=
  cbv [process_payment process_refund payment_body refund_body
       payment_try payment_except refund_try refund_except
       card_number_message read_refund_object sdk
       result_field calls
       run bind ret lift read modify call raise try_except try_finally
       set_transaction_id set_payload_processing_status set_http_status_code
       set_success set_message set_already_voided_message set_refund_object
       set_result initial
       transaction_id payload_processing_status http_status_code success
       message already_voided_message refund_object result fst snd].

Lemma silent_card_number_message (error : exn) :
  silent (card_number_message error).
Proof. unfold card_number_message. quiet. Qed.

Lemma pl_silent_payment_except (error : exn) : silent (payment_except error).
Proof.
  unfold payment_except.
  repeat first [apply silent_card_number_message | progress quiet].
Qed.

Lemma pl_silent_refund_except (error : exn) : silent (refund_except error).
Proof. unfold refund_except. quiet. Qed.

Lemma returns_card_number_message (error : exn) :
  returns (card_number_message error).
Proof.
  unfold card_number_message. apply returns_try_except. intro. finishes.
Qed.

(** No [except] clause of [process_payment] raises itself. *)
Lemma pl_returns_payment_except (error : exn) : returns (payment_except error).
Proof.
  unfold payment_except.
  repeat first [apply returns_card_number_message | progress finishes].
Qed.

(** No [except] clause of [process_refund] raises itself. *)
Lemma pl_returns_refund_except (error : exn) : returns (refund_except error).
Proof. unfold refund_except. finishes. Qed.



(** *** The comment sent upstream *)

Ltac tests :=
  cbn [truthy eq_str negb andb orb String.eqb Ascii.eqb Bool.eqb Z.eqb Pos.eqb].

(** Runs on with the equations of the context. *)
Ltac forward := repeat (reduce; progress (learn; tests)).

(** A payment with a comment and an expiry date makes one call, the
    creation, with the first 128 characters of the comment. *)
Lemma payment_emits_create (W : World) (self : PayloadProcessor)
    (payment : Payment) (c date : string) :
  p_comment payment = Some c ->
  expDate payment = Some date ->
  emits (create_call self payment date (take 128 c))
    (payment_body W self payment).
Proof.
  intros Hc Hd. unfold payment_body.
  apply emits_bind; [|intro; quiet].
  apply emits_try_finally; [|quiet].
  apply emits_try_except; [|intro; apply pl_silent_payment_except].
  unfold payment_try. rewrite Hc, Hd. unfold slice_to, slice_from, sdk.
  intros s. unfold bind at 1, lift at 1. reduce.
  unfold bind at 1, lift at 1. reduce.
  unfold bind at 1, lift at 1. reduce.
  apply (emits_call (L:=locals)). intro. quiet.
Qed.

(** Whatever the payment, every description it sends is short. *)
Lemma payment_writes_short (W : World) (self : PayloadProcessor)
    (payment : Payment) :
  writes (fun ev => forall d, description_of ev = Some d -> short d)
    (payment_body W self payment).
Proof.
  unfold payment_body, payment_try, sdk.
  apply writes_bind; [|intro; apply silent_writes; quiet].
  apply writes_try_finally; [|quiet].
  apply writes_try_except;
    [|intro; apply silent_writes, pl_silent_payment_except].
  tracing.
  intros d Hd; simpl in Hd; injection Hd as <-.
  match goal with
  | H : slice_to 128 ?o = Val ?x |- _ =>
      destruct o as [c0|];
        [change (Val (take 128 c0) = Val x) in H; injection H as <-
        |discriminate]
  end.
  exists (take 128 c0). split; [reflexivity | apply take_length].
Qed.

(** Every call of a refund that carries a description carries the first
    128 characters of the comment. *)
Lemma refund_writes_truncated (W : World) (self : PayloadProcessor)
    (refund : Refund) (c : string) :
  r_comment refund = Some c ->
  writes (fun ev => forall d, description_of ev = Some d ->
                              d = PStr (take 128 c))
    (refund_body W self refund).
Proof.
  intros Hc. unfold refund_body, refund_try, read_refund_object, sdk.
  apply writes_bind; [|intro; apply silent_writes; quiet].
  apply writes_try_finally; [|quiet].
  apply writes_try_except; [|intro; apply silent_writes, pl_silent_refund_except].
  tracing.
  all: intros d Hd; simpl in Hd; try discriminate.
  all: injection Hd as <-.
  all: match goal with
       | H : slice_to 128 (r_comment _) = Val ?x |- _ =>
           rewrite Hc in H; change (Val (take 128 c) = Val x) in H;
           injection H as <-
       end; reflexivity.
Qed.

(** Whatever the refund, every description it sends is short. *)
Lemma refund_writes_short (W : World) (self : PayloadProcessor)
    (refund : Refund) :
  writes (fun ev => forall d, description_of ev = Some d -> short d)
    (refund_body W self refund).
Proof.
  unfold refund_body, refund_try, read_refund_object, sdk.
  apply writes_bind; [|intro; apply silent_writes; quiet].
  apply writes_try_finally; [|quiet].
  apply writes_try_except; [|intro; apply silent_writes, pl_silent_refund_except].
  tracing.
  all: intros d Hd; simpl in Hd; try discriminate.
  all: injection Hd as <-.
  all: match goal with
       | H : slice_to 128 ?o = Val ?x |- _ =>
           destruct o as [c0|];
             [change (Val (take 128 c0) = Val x) in H; injection H as <-
             |discriminate]
       end.
  all: exists (take 128 c0); split; [reflexivity | apply take_length].
Qed.

(** One more step along a refund whose lookups are known: the answer of
    the next call, or of the next read, is split into its cases. *)
Ltac refund_step :=
  match goal with
  | |- context [match ?x with _ => _ end] =>
      lazymatch x with
      | payload_sdk _ _ _ => destruct x
      | sdk_getattr _ _ _ => destruct x
      | isinstance _ _ => destruct x
      | existsb _ _ => destruct x
      | GatewayResponses_member _ _ => destruct x
      | attribute _ _ => destruct x
      end
  end;
  reduce; tests.

(** C7. For a Payload payment or refund whose comment is a string, the
    description sent upstream is the first 128 characters of the comment:
    the payment makes exactly the creation call with it, or no call at all
    when it has no expiry date; the refund of a payment that is found and
    not voided makes the update that voids with it when the funding status
    is pending and the transaction is found, and the creation of the refund
    with it when the funding status is batched; no other call of the refund
    carries a description.  And whatever the comment, no call of a payment or of a
    refund carries a description of more than 128 characters. *)
Theorem C7_comment_truncated (W : World) (self : PayloadProcessor)
    (payment : Payment) (refund : Refund) (c : string) :
  let key := api_key self in
  let id := paymentTransactionId refund in
  (p_comment payment = Some c ->
   (forall date, expDate payment = Some date ->
    calls (process_payment W self payment) =
      [create_call self payment date (take 128 c)]) /\
   (expDate payment = None ->
    calls (process_payment W self payment) = [])) /\
  (r_comment refund = Some c ->
   forall payment_object status funding_status,
   payload_sdk W key (Payment_get id) = Val payment_object ->
   sdk_getattr W payment_object "status" = Val status ->
   status <> PStr "voided" ->
   sdk_getattr W payment_object "funding_status" = Val funding_status ->
   (funding_status = PStr "pending" ->
    forall fetched,
    payload_sdk W key (Transaction_get id) = Val fetched ->
    calls (process_refund W self refund) =
      [ Sdk key (Payment_get id); Sdk key (Transaction_get id);
        Sdk key (Transaction_update fetched (PStr "voided")
                   (PStr (take 128 c))) ]) /\
   (funding_status = PStr "batched" ->
    forall amount,
    sdk_getattr W payment_object "amount" = Val amount ->
    calls (process_refund W self refund) =
      [ Sdk key (Payment_get id);
        Sdk key (Refund_create amount
                   (PList [PDict [("assoc_transaction_id", PStr id)]])
                   (PStr (take 128 c))) ])) /\
  (r_comment refund = Some c ->
   Forall (fun ev => forall d, description_of ev = Some d ->
                               d = PStr (take 128 c))
     (calls (process_refund W self refund))) /\
  Forall (fun ev => forall d, description_of ev = Some d -> short d)
    (calls (process_payment W self payment)
     ++ calls (process_refund W self refund)).
Proof.
  intros key id. subst key id. split; [|split; [|split]].
  - intros Hc. split.
    + intros date Hd. apply run_emits, payment_emits_create; assumption.
    + intros Hd. exec. rewrite Hd. reflexivity.
  - intros Hc payment_object status funding_status Hg Hs Hv Hf.
    apply eq_str_false in Hv.
    split.
    + intros -> fetched Ht. exec. rewrite Hg. reduce. rewrite Hs. reduce.
      rewrite Hv. reduce. rewrite Hf. tests. reduce. rewrite Ht. reduce.
      rewrite Hc. unfold slice_to. reduce.
      repeat refund_step. all: reflexivity.
    + intros -> amount Ha. exec. rewrite Hg. reduce. rewrite Hs. reduce.
      rewrite Hv. reduce. rewrite Hf. tests. reduce. rewrite Ha. reduce.
      rewrite Hc. unfold slice_to. reduce.
      repeat refund_step. all: reflexivity.
  - intros Hc. apply run_writes, refund_writes_truncated, Hc.
  - apply Forall_app. split; apply run_writes.
    + apply payment_writes_short.
    + apply refund_writes_short.
Qed.

Lemma C7_comment_truncated_witness :
  let W := examples.sdk_world examples.batched_payment
             examples.processed_transaction examples.processed_transaction in
  let refund := examples.a_refund 1 examples.pl_credentials
                  (Some examples.long_comment) in
  calls (process_refund W examples.pl_self refund) =
    [ Sdk (api_key examples.pl_self) (Payment_get "112989260076");
      Sdk (api_key examples.pl_self)
        (Refund_create (PFloat (10 # 1))
           (PList [PDict [("assoc_transaction_id", PStr "112989260076")]])
           (PStr (take 128 examples.long_comment))) ] /\
  String.length examples.long_comment = 130%nat /\
  String.length (take 128 examples.long_comment) = 128%nat.
Proof.
  intros W refund.
  destruct (C7_comment_truncated W examples.pl_self
              (examples.a_payment 1 840 examples.pl_credentials None None
                 (Some examples.long_comment))
              refund examples.long_comment)
    as (_ & Hrefund & _).
  assert (N : PStr "processed" <> PStr "voided") by discriminate.
  destruct (Hrefund eq_refl examples.batched_payment (PStr "processed")
              (PStr "batched") eq_refl eq_refl N eq_refl)
    as (_ & Hbatched).
  split; [|split; reflexivity].
  apply (Hbatched eq_refl (PFloat (10 # 1))). reflexivity.
Defined.

(** *** A request without a comment *)

(** C9 as amended. A Payload payment without a comment makes no call and
    fails with status 422 and "Unknown Payload response type".  A Payload
    refund without a comment, for a payment that is found and whose status
    and funding status are read and not voided, fails the same way before
    the write when the funding status is batched and the amount is read, or
    pending with the transaction found; with any other funding status it
    fails with status 400 and the unknown-funding-status message. *)
Theorem C9_absent_comment (W : World) (self : PayloadProcessor)
    (payment : Payment) (refund : Refund) :
  let paid := process_payment W self payment in
  let refunded := process_refund W self refund in
  let lookup_call := Sdk (api_key self) (Payment_get (paymentTransactionId refund)) in
  let fetch_call := Sdk (api_key self) (Transaction_get (paymentTransactionId refund)) in
  (p_comment payment = None ->
   calls paid = [] /\
   result_field paid "success" = Some (PBool false) /\
   result_field paid "gatewayHttpStatusCode" = Some (PInt 422) /\
   result_field paid "responseMessage" =
     Some (PStr "Unknown Payload response type")) /\
  (r_comment refund = None ->
   forall payment_object status funding_status,
   payload_sdk W (api_key self) (Payment_get (paymentTransactionId refund)) =
     Val payment_object ->
   sdk_getattr W payment_object "status" = Val status ->
   status <> PStr "voided" ->
   sdk_getattr W payment_object "funding_status" = Val funding_status ->
   (funding_status = PStr "batched" ->
    forall amount,
    sdk_getattr W payment_object "amount" = Val amount ->
    calls refunded = [lookup_call] /\
    result_field refunded "success" = Some (PBool false) /\
    result_field refunded "gatewayHttpStatusCode" = Some (PInt 422) /\
    result_field refunded "responseMessage" =
      Some (PStr "Unknown Payload response type")) /\
   (funding_status = PStr "pending" ->
    forall o,
    payload_sdk W (api_key self) (Transaction_get (paymentTransactionId refund)) =
      Val o ->
    calls refunded = [lookup_call; fetch_call] /\
    result_field refunded "success" = Some (PBool false) /\
    result_field refunded "gatewayHttpStatusCode" = Some (PInt 422) /\
    result_field refunded "responseMessage" =
      Some (PStr "Unknown Payload response type")) /\
   (funding_status <> PStr "pending" -> funding_status <> PStr "batched" ->
    calls refunded = [lookup_call] /\
    result_field refunded "success" = Some (PBool false) /\
    result_field refunded "gatewayHttpStatusCode" = Some (PInt 400) /\
    result_field refunded "responseMessage" =
      Some (PStr ("Unknown funding status '" ++ str W funding_status
                  ++ "' encountered during refund process.  Payment was not refunded.")))).
Proof.
  intros paid refunded lookup_call fetch_call.
  subst paid refunded lookup_call fetch_call. split.
  - intros Hp. exec. rewrite Hp.
    destruct (expDate payment); cbn; repeat split.
  - intros Hr payment_object status funding_status Hg Hs Hv Hf.
    apply eq_str_false in Hv.
    repeat split; intros; exec;
      repeat match goal with
        | H : _ <> PStr _ |- _ => apply eq_str_false in H
        | H : ?x = PStr _ |- _ => is_var x; subst x
        end;
      advance; cbn; reflexivity.
Qed.

Lemma C9_absent_comment_witness :
  let W := examples.sdk_world examples.batched_payment
             examples.processed_transaction examples.processed_transaction in
  let refund := examples.a_refund 1 examples.pl_credentials None in
  let refunded := process_refund W examples.pl_self refund in
  calls refunded =
    [Sdk (api_key examples.pl_self) (Payment_get (paymentTransactionId refund))] /\
  result_field refunded "success" = Some (PBool false) /\
  result_field refunded "gatewayHttpStatusCode" = Some (PInt 422) /\
  result_field refunded "responseMessage" =
    Some (PStr "Unknown Payload response type").
Proof.
  intros W refund refunded.
  assert (Hstatus : PStr "processed" <> PStr "voided") by discriminate.
  destruct (C9_absent_comment W examples.pl_self
              (examples.a_payment 1 840 examples.pl_credentials None None None)
              refund)
    as (_ & Hrefund).
  destruct (Hrefund eq_refl examples.batched_payment (PStr "processed")
              (PStr "batched") eq_refl eq_refl Hstatus eq_refl)
    as (Hbatched & _).
  apply (Hbatched eq_refl (PFloat (10 # 1))). reflexivity.
Defined.

(** C9 as stated fails for a payment that is not voided and whose funding
    status is neither pending nor batched: the refund without a comment
    ends with status 400, not 422. *)
Lemma C9_counterexample :
  let W := examples.sdk_world examples.rejected_payment
             examples.processed_transaction examples.processed_transaction in
  let refund := examples.a_refund 1 examples.pl_credentials None in
  let refunded := process_refund W examples.pl_self refund in
  r_comment refund = None /\
  sdk_getattr W examples.rejected_payment "status" = Val (PStr "processed") /\
  result_field refunded "gatewayHttpStatusCode" = Some (PInt 400) /\
  result_field refunded "gatewayHttpStatusCode" <> Some (PInt 422) /\
  result_field refunded "responseMessage" =
    Some (PStr "Unknown funding status 'rejected' encountered during refund process.  Payment was not refunded.").
Proof.
  repeat split; try reflexivity. discriminate.
Qed.

End payload_proofs.

(** ** CardConnect: the rest of the adapter *)

Module cardconnect_extra.
Import cardconnect cardconnect_proofs.

(** [__init__] succeeds exactly on credentials that hold the three keys the
    dispatcher asks for; the adapter it builds reads them, and its four
    endpoints are on the given host, or on the production host when the
    given one is empty. *)
Lemma init_needs_three_keys (credentials : dict) (host : string) :
  (keys_superset credentials (GatewayCredentials CardConnect) = true <->
   exists self, init credentials host = Val self) /\
  (forall self, init credentials host = Val self ->
     let h := if (host =? "")%string then CARDCONNECT_PROD_HOSTNAME else host in
     usr self = dict_get credentials "username" /\
     pwd self = dict_get credentials "password" /\
     merchantId self = dict_get credentials "merchantId" /\
     authEndPoint self = ("https://" ++ h ++ "/cardconnect/rest/auth")%string /\
     inquireEndpointBaseUrl self =
       ("https://" ++ h ++ "/cardconnect/rest/inquire")%string /\
     voidEndpoint self = ("https://" ++ h ++ "/cardconnect/rest/void")%string /\
     refundEndpoint self =
       ("https://" ++ h ++ "/cardconnect/rest/refund")%string).
Proof.
  unfold init, keys_superset, GatewayCredentials, getitem, has_key, dict_get.
  simpl forallb.
  destruct (lookup "username" credentials) as [u|],
           (lookup "password" credentials) as [p|],
           (lookup "merchantId" credentials) as [m|]; simpl.
  all: split;
    [ split; [intros H; try discriminate; eauto
             | intros (self & H); try discriminate; reflexivity]
    | intros self H; try discriminate ].
  injection H as <-. unfold truthy.
  destruct (host =? "")%string; simpl; repeat split.
Qed.

(** X1. A payment whose request body can be built makes exactly one call, the
    POST of that body to the auth endpoint, whatever the gateway answers or
    raises: nothing is tried twice. *)
Theorem payment_posts_once (W : World) (self : CardConnectProcessor)
    (payment : Payment) (data : dict) :
  auth_data W self payment = Val data ->
  calls (process_payment W self payment) =
    [Http (Post (authEndPoint self) (PDict data) (auth self))].
Proof.
  intros Hd. apply run_emits. unfold payment_body.
  apply emits_bind; [|intro; quiet].
  apply emits_try_finally; [|quiet].
  apply emits_try_except.
  - unfold payment_try. cbv zeta. rewrite Hd.
    intros s. unfold bind at 1, lift.
    apply (emits_call (L:=locals)). intro resp.
    unfold append_data, append_text. quiet_cc.
  - intro e. unfold payment_except. quiet_cc.
Qed.

Lemma payment_posts_once_witness :
  let payment := examples.a_payment 2 840 examples.cc_credentials None None None in
  exists data,
    calls (process_payment
             (examples.http_world (200, PNone) (503, PNone))
             examples.cc_self payment) =
      [Http (Post (authEndPoint examples.cc_self) (PDict data)
               (auth examples.cc_self))].
Proof.
  intros payment. eexists.
  apply (payment_posts_once
           (examples.http_world (200, PNone) (503, PNone))
           examples.cc_self payment).
  reflexivity.
Defined.

(** X2. When the auth endpoint answers a status other than 200 the payment
    fails with that status and no transaction id: at 401 with the
    authorisation message, otherwise with the network message. *)
Theorem payment_transport_failure (W : World) (self : CardConnectProcessor)
    (payment : Payment) (data : dict) (resp : Response) :
  auth_data W self payment = Val data ->
  requests W (Post (authEndPoint self) (PDict data) (auth self)) = Val resp ->
  status_code resp <> 200 ->
  let out := process_payment W self payment in
  result_field out "success" = Some (PBool false) /\
  result_field out "paymentTransactionId" = Some PNone /\
  result_field out "gatewayHttpStatusCode" = Some (PInt (status_code resp)) /\
  result_field out "statusCode" = Some (PInt (status_code resp)) /\
  result_field out "responseMessage" =
    Some (PStr (if status_code resp =? 401
                then "There was an authorization error with your request."
                else "There was a network error with your request.")) /\
  result_field out "gatewayResponseData" =
    Some (PList (append_json_or_string_to_array W (text resp) [])).
Proof.
  intros Hd Hr Hs out. subst out.
  exec. rewrite Hd. reduce. rewrite Hr. reduce.
  destruct (Z.eqb_spec (status_code resp) 200) as [E|_]; [contradiction|].
  destruct (status_code resp =? 401); reduce; repeat split.
Qed.

Lemma payment_transport_failure_witness :
  let W := examples.http_world (200, PNone) (503, PNone) in
  let out := process_payment W examples.cc_self
               (examples.a_payment 2 840 examples.cc_credentials None None None) in
  result_field out "success" = Some (PBool false) /\
  result_field out "gatewayHttpStatusCode" = Some (PInt 503) /\
  result_field out "responseMessage" =
    Some (PStr "There was a network error with your request.").
Proof.
  intros W out.
  assert (N : status_code (mk_response 503 "answer") <> 200) by discriminate.
  destruct (payment_transport_failure W examples.cc_self
              (examples.a_payment 2 840 examples.cc_credentials None None None)
              _ (mk_response 503 "answer") eq_refl eq_refl N)
    as (H1 & _ & H3 & _ & H5 & _).
  repeat split; assumption.
Defined.

(** X3. When the POST itself raises, or a 200 answer is not JSON, the payment
    ends with status 500, the internal-service-error message and no
    success; the text of the exception is the first entry kept for the
    log after what was kept before. *)
Theorem payment_internal_error (W : World) (self : CardConnectProcessor)
    (payment : Payment) (data : dict) (e : exn) :
  auth_data W self payment = Val data ->
  (requests W (Post (authEndPoint self) (PDict data) (auth self)) = Exn e \/
   exists resp,
     requests W (Post (authEndPoint self) (PDict data) (auth self)) = Val resp /\
     status_code resp = 200 /\ json_loads W (text resp) = Exn e) ->
  let out := process_payment W self payment in
  result_field out "success" = Some (PBool false) /\
  result_field out "paymentTransactionId" = Some PNone /\
  result_field out "gatewayHttpStatusCode" = Some (PInt 500) /\
  result_field out "responseMessage" =
    Some (PStr "There was an internal service error with your request.") /\
  exists rest,
    result_field out "gatewayResponseData" =
      Some (PList (PStr ("process_payment exception: " ++ exn_str e) :: rest)).
Proof.
  intros Hd [Hr | (resp & Hr & Hs & Hj)] out; subst out.
  - exec. rewrite Hd. reduce. rewrite Hr. reduce.
    repeat split. eexists. reflexivity.
  - exec. rewrite Hd. reduce. rewrite Hr. reduce. rewrite Hs.
    simpl (200 =? 200). reduce. rewrite Hj. reduce.
    unfold append_json_or_string_to_array. rewrite Hj.
    destruct (response_ok resp && truthy (PStr (text resp))); reduce;
      destruct (isinstance e "JSONDecodeError");
      repeat split; eexists; reflexivity.
Qed.

Lemma payment_internal_error_witness :
  let W := examples.sdk_world [] [] [] in
  let out := process_payment W examples.cc_self
               (examples.a_payment 2 840 examples.cc_credentials None None None) in
  result_field out "gatewayHttpStatusCode" = Some (PInt 500) /\
  result_field out "gatewayResponseData" =
    Some (PList [PStr "process_payment exception: connection refused"]).
Proof.
  intros W out.
  destruct (payment_internal_error W examples.cc_self
              (examples.a_payment 2 840 examples.cc_credentials None None None)
              _ (builtin "ConnectionError" ["RequestException"; "OSError"]
                   "connection refused")
              eq_refl (or_introl eq_refl))
    as (_ & _ & H3 & _ & _).
  split; [exact H3 | reflexivity].
Defined.

(** One more step along every path of a method: the next answer of the
    outside world, or the next test on it, is split into its cases. *)
Ltac path_step :=
  match goal with
  | |- context [auth_data ?W ?s ?p] => destruct (auth_data W s p) eqn:?
  | |- context [requests ?W ?c] => destruct (requests W c) eqn:?
  | |- context [(?z =? 200)] => destruct (Z.eqb_spec z 200)
  | |- context [(?z =? 401)] => destruct (Z.eqb_spec z 401)
  | |- context [json_loads ?W ?t] => destruct (json_loads W t) eqn:?
  | |- context [get ?a _] => is_var a; destruct a; cbn [get]
  | H : truthy (dict_get ?d ?k) = true |- context [getitem (PDict ?d) ?k] =>
      rewrite (getitem_get d k H)
  | |- context [if truthy (dict_get ?d ?k) then _ else _] =>
      destruct (truthy (dict_get d k)) eqn:?
  | |- context [if eq_str ?a ?c then _ else _] => destruct (eq_str a c) eqn:?
  | |- context [if response_ok ?r && ?t then _ else _] =>
      destruct (response_ok r && t)
  end;
  reduce.

(** X4. A CardConnect payment reports success exactly when its status is 200,
    and then with the message "Success.": no answer and no fault gives a
    success with another status, or a status 200 without success. *)
Theorem payment_success_iff_200 (W : World) (self : CardConnectProcessor)
    (payment : Payment) :
  let out := process_payment W self payment in
  (result_field out "success" = Some (PBool true) <->
   result_field out "gatewayHttpStatusCode" = Some (PInt 200)) /\
  (result_field out "success" = Some (PBool true) ->
   result_field out "responseMessage" = Some (PStr "Success.")).
Proof.
  intros out. subst out. exec. cbv [field_is bind lift ret].
  repeat path_step.
  all: split; [split|]; intros H; try reflexivity; try discriminate;
    cbn in H; congruence.
Qed.

(** *** The calls of a refund *)

Ltac enter_branch :=
  match goal with
  | |- context [void_branch ?W ?self ?refund ?s] =>
      let Em := fresh "Em" in
      let E := fresh "E" in
      let l := fresh "l" in
      let tr := fresh "tr" in
      pose proof (void_branch_emits W self refund s) as Em;
      destruct (void_branch_returns W self refund s) as ([] & [l tr] & E);
      rewrite E in Em |- *; simpl in Em; subst tr
  | |- context [refund_branch ?W ?self ?refund ?s] =>
      let Em := fresh "Em" in
      let E := fresh "E" in
      let l := fresh "l" in
      let tr := fresh "tr" in
      pose proof (refund_branch_emits W self refund s) as Em;
      destruct (refund_branch_returns W self refund s) as ([] & [l tr] & E);
      rewrite E in Em |- *; simpl in Em; subst tr
  end;
  reduce.

(** X5. A refund makes the inquiry first and then at most one more call, the
    void or the refund, never both: nothing is tried twice and no reversal
    is posted without an inquiry. *)
Theorem cardconnect_refund_calls_shape (W : World) (self : CardConnectProcessor)
    (refund : Refund) :
  let inquiry := Http (Get (inquire_url W self refund) (auth self)) in
  let made := calls (process_refund W self refund) in
  made = [inquiry] \/
  made = [inquiry; void_call self refund] \/
  made = [inquiry; refund_call self refund].
Proof.
  intros inquiry made. subst inquiry made. exec. cbv [field_is bind lift ret].
  repeat first [enter_branch | path_step].
  all: cbn [app];
    first [ left; reflexivity | right; left; reflexivity
          | right; right; reflexivity ].
Qed.

End cardconnect_extra.

(** ** CardConnect: the void and the refund branch *)

Module cardconnect_branches.
Import cardconnect cardconnect_proofs.

Ltac exec_refund :=
  cbv [refund_branch refund_try refund_except field_is get
       log_exception append_data append_text message_add
       bind ret lift read modify call raise try_except try_finally
       set_transaction_id set_http_status_code set_success set_message
       set_gateway_response_data set_response set_void_resp
       set_refund_response set_result
       transaction_id http_status_code success message gateway_response_data
       response void_resp refund_response result fst snd].

(** Evaluates the tests on known values. *)
Ltac tests :=
  cbn [truthy eq_str negb andb String.eqb Ascii.eqb Bool.eqb Z.eqb Pos.eqb].

Ltac open_state s :=
  let H := fresh "U" in
  intros (H & ? & ? & ? & ? & ?);
  destruct s as [[t0 h0 su0 m0 g0 r0 v0 rr0 res0] tr0];
  simpl in *; subst.

(** With the inquiry answered 200 by an object whose [respstat] is A and
    [voidable] is Y, the result of [process_refund] is the record built from
    the variables the void branch leaves, entered untouched. *)
Lemma refund_enters_void (W : World) (self : CardConnectProcessor)
    (refund : Refund) (o : dict) :
  inquiry_answered W self refund o ->
  dict_get o "respstat" = PStr "A" ->
  dict_get o "voidable" = PStr "Y" ->
  exists s, untouched s /\
    fst (process_refund W self refund) =
      Val (refund_result refund (fst (snd (void_branch W self refund s)))).
Proof.
  intros (inquired & Hr & Hs & Hj) HA HV.
  exists (mk_locals PNone 200 false PNone [PDict o] (Some inquired) None None
            PNone,
          [Http (Get (inquire_url W self refund) (auth self))]).
  split; [|].
  2: { exec. rewrite Hr. reduce. rewrite Hs. simpl (200 =? 200). reduce.
       rewrite Hj. reduce.
       unfold CardConnectResponseStatusType.Approved,
         CardConnectVoidableStatusType.Voidable,
         CardConnectRefundableStatusType.Refundable.
       rewrite !field_is_dict by discriminate. reduce. rewrite HA.
       tests. reduce.
       rewrite !field_is_dict by discriminate. reduce. rewrite HV.
       tests. reduce.
       cbn [app].
       match goal with
       | |- context [void_branch W self refund ?s] =>
           destruct (void_branch_returns W self refund s) as ([] & [l tr] & E);
           rewrite E
       end.
       reduce. destruct l. reflexivity. }
  repeat split.
Qed.

(** The same for the refund branch: [respstat] A, [voidable] not Y,
    [refundable] Y. *)
Lemma refund_enters_refund (W : World) (self : CardConnectProcessor)
    (refund : Refund) (o : dict) :
  inquiry_answered W self refund o ->
  dict_get o "respstat" = PStr "A" ->
  dict_get o "voidable" <> PStr "Y" ->
  dict_get o "refundable" = PStr "Y" ->
  exists s, untouched s /\
    fst (process_refund W self refund) =
      Val (refund_result refund (fst (snd (refund_branch W self refund s)))).
Proof.
  intros (inquired & Hr & Hs & Hj) HA HV HF. apply eq_str_false in HV.
  exists (mk_locals PNone 200 false PNone [PDict o] (Some inquired) None None
            PNone,
          [Http (Get (inquire_url W self refund) (auth self))]).
  split; [|].
  2: { exec. rewrite Hr. reduce. rewrite Hs. simpl (200 =? 200). reduce.
       rewrite Hj. reduce.
       unfold CardConnectResponseStatusType.Approved,
         CardConnectVoidableStatusType.Voidable,
         CardConnectRefundableStatusType.Refundable.
       rewrite !field_is_dict by discriminate. reduce. rewrite HA.
       tests. reduce.
       rewrite !field_is_dict by discriminate. reduce.
       rewrite HV. reduce.
       rewrite !field_is_dict by discriminate. reduce. rewrite HF.
       tests. reduce.
       cbn [app].
       match goal with
       | |- context [refund_branch W self refund ?s] =>
           destruct (refund_branch_returns W self refund s) as ([] & [l tr] & E);
           rewrite E
       end.
       reduce. destruct l. reflexivity. }
  repeat split.
Qed.

(** Reads an entry of the record built from the variables [l]. *)
Ltac read_result E :=
  unfold result_field; rewrite E; cbn [refund_result lookup String.eqb
    Ascii.eqb Bool.eqb].

(** How a refund reads the 200 answer of the void endpoint, when the
    inquiry said approved and voidable: [authcode] REVERS is a success, and
    so is an answer without [authcode]; [authcode] NULL is a failure with
    status 400 and [respstat] B a failure with status 409, both with the
    vendor's [resptext] after the message, when the answer holds [resptext]
    and [retref]; any other [respstat] ends with status 500. *)
Lemma void_answer_read (W : World) (self : CardConnectProcessor)
    (refund : Refund) (o : dict) (answered : Response) (v : dict) :
  inquiry_answered W self refund o ->
  dict_get o "respstat" = PStr "A" ->
  dict_get o "voidable" = PStr "Y" ->
  requests W (Post (voidEndpoint self) (void_data self refund) (auth self)) =
    Val answered ->
  status_code answered = 200 ->
  json_loads W (text answered) = Val (PDict v) ->
  let out := process_refund W self refund in
  let respstat := dict_get v "respstat" in
  let authcode := dict_get v "authcode" in
  (respstat = PStr "A" -> authcode = PStr "REVERS" ->
     result_field out "success" = Some (PBool true)) /\
  (respstat = PStr "A" -> truthy authcode = false ->
     result_field out "success" = Some (PBool true)) /\
  (respstat = PStr "A" -> authcode = PStr "NULL" ->
   forall t r, lookup "resptext" v = Some t -> lookup "retref" v = Some r ->
     result_field out "success" = Some (PBool false) /\
     result_field out "gatewayHttpStatusCode" = Some (PInt 400) /\
     result_field out "responseMessage" =
       Some (PStr ("Void transaction was unsuccessful." ++ " " ++ str W t))) /\
  (respstat = PStr "B" ->
   forall t r, lookup "resptext" v = Some t -> lookup "retref" v = Some r ->
     result_field out "success" = Some (PBool false) /\
     result_field out "gatewayHttpStatusCode" = Some (PInt 409) /\
     result_field out "responseMessage" =
       Some (PStr ("Unable to complete void transaction." ++ " " ++ str W t))) /\
  (respstat <> PStr "A" -> respstat <> PStr "B" ->
     result_field out "success" = Some (PBool false) /\
     result_field out "gatewayHttpStatusCode" = Some (PInt 500) /\
     result_field out "responseMessage" =
       Some (PStr "An unknown error occurred while processing void transaction.")).
Proof.
  intros Hi HA HV Hr Hs Hj out respstat authcode. subst out respstat authcode.
  destruct (refund_enters_void W self refund o Hi HA HV)
    as (s & (Um & Uh & Us & Ut & Uv & Ur) & E).
  pose proof (void_answer_interpretation W self refund answered v s
                Hr Hs Hj Um Uh Us) as V.
  cbv zeta in V. destruct V as (V1 & V2 & V3 & V4 & V5).
  repeat split; intros.
  - read_result E. rewrite V1 by assumption. reflexivity.
  - read_result E. rewrite V2 by assumption. reflexivity.
  - read_result E. destruct (V3 H H0 t r H1 H2) as (-> & _). reflexivity.
  - read_result E. destruct (V3 H H0 t r H1 H2) as (_ & -> & _). reflexivity.
  - read_result E. destruct (V3 H H0 t r H1 H2) as (_ & _ & ->). reflexivity.
  - read_result E. destruct (V4 H t r H0 H1) as (-> & _). reflexivity.
  - read_result E. destruct (V4 H t r H0 H1) as (_ & -> & _). reflexivity.
  - read_result E. destruct (V4 H t r H0 H1) as (_ & _ & ->). reflexivity.
  - read_result E. destruct (V5 H H0) as (-> & _). reflexivity.
  - read_result E. destruct (V5 H H0) as (_ & -> & _). reflexivity.
  - read_result E. destruct (V5 H H0) as (_ & _ & ->). reflexivity.
Qed.

Ltac named_constants :=
  unfold CardConnectResponseStatusType.Approved,
    CardConnectResponseStatusType.Retry,
    CardConnectVoidRespAuthCodeType.Successful,
    CardConnectVoidRespAuthCodeType.Unsuccessful.

(** The refund branch on a 200 answer that is a JSON object, entered
    untouched. *)
Lemma refund_branch_answer (W : World) (self : CardConnectProcessor)
    (refund : Refund) (resp : Response) (v : dict)
    (s : locals * list event) :
  requests W (Post (refundEndpoint self) (refund_data self refund) (auth self)) =
    Val resp ->
  status_code resp = 200 ->
  json_loads W (text resp) = Val (PDict v) ->
  untouched s ->
  let l := fst (snd (refund_branch W self refund s)) in
  let respstat := dict_get v "respstat" in
  let new_id := if truthy (dict_get v "retref") then dict_get v "retref"
                else PNone in
  (respstat = PStr "A" ->
     success l = true /\ http_status_code l = 200 /\
     message l = PStr "Successful refund transaction." /\
     transaction_id l = new_id) /\
  (respstat = PStr "B" -> forall t, lookup "resptext" v = Some t ->
     success l = false /\ http_status_code l = 400 /\
     message l = PStr ("Please retry the request." ++ " " ++ str W t) /\
     transaction_id l = new_id) /\
  (respstat <> PStr "A" -> respstat <> PStr "B" ->
   forall t, lookup "resptext" v = Some t ->
     success l = false /\ http_status_code l = 400 /\
     message l = PStr ("Refund failed." ++ " " ++ str W t) /\
     transaction_id l = new_id) /\
  (respstat <> PStr "A" -> lookup "resptext" v = None ->
     success l = false /\ http_status_code l = 500 /\
     message l =
       PStr "An unknown error occurred while processing refund transaction." /\
     transaction_id l = PStr (paymentTransactionId refund)).
Proof.
  intros Hr Hs Hj. open_state s. cbv zeta. unfold refund_data in Hr.
  exec_refund. rewrite Hr. reduce. rewrite Hs. simpl (200 =? 200). reduce.
  rewrite Hj. reduce. named_constants.
  destruct (response_ok resp && truthy (PStr (text resp))) eqn:C;
    cbn [truthy] in C.
  all: repeat split; intros; repeat split; facts;
    try match goal with
      | H : lookup ?k ?d = None |- _ =>
          assert (getitem (PDict d) k = Exn (KeyError k))
            by (unfold getitem; rewrite H; reflexivity)
      end;
    explore;
    repeat match goal with
      | |- context [if eq_str ?a ?c then _ else _] =>
          destruct (eq_str a c) eqn:?; explore
      end;
    reflexivity.
Qed.

(** The void branch when the void endpoint does not answer 200, or the POST
    raises. *)
Lemma void_branch_failure (W : World) (self : CardConnectProcessor)
    (refund : Refund) (s : locals * list event) :
  untouched s ->
  let l := fst (snd (void_branch W self refund s)) in
  let posted := requests W (Post (voidEndpoint self) (void_data self refund)
                              (auth self)) in
  (forall resp, posted = Val resp -> status_code resp <> 200 ->
     success l = false /\ http_status_code l = status_code resp /\
     (status_code resp = 401 ->
        message l =
          PStr "There was an authorization error while processing a void request." /\
        transaction_id l = PNone) /\
     (status_code resp <> 401 ->
        message l = PStr "Unable to complete void transaction." /\
        transaction_id l = PStr (paymentTransactionId refund))) /\
  (forall e, posted = Exn e ->
     success l = false /\ http_status_code l = 500 /\
     message l =
       PStr "An unknown error occurred while processing void transaction." /\
     transaction_id l = PStr (paymentTransactionId refund)).
Proof.
  open_state s. cbv zeta. unfold void_data.
  split.
  - intros resp Hr Hs. exec_void. rewrite Hr. reduce.
    destruct (Z.eqb_spec (status_code resp) 200) as [E|_]; [contradiction|].
    destruct (Z.eqb_spec (status_code resp) 401) as [E|N]; reduce;
      repeat split; intros; try reflexivity; contradiction.
  - intros e Hr. exec_void. rewrite Hr. reduce. repeat split.
Qed.

(** The refund branch when the refund endpoint does not answer 200, or the
    POST raises. *)
Lemma refund_branch_failure (W : World) (self : CardConnectProcessor)
    (refund : Refund) (s : locals * list event) :
  untouched s ->
  let l := fst (snd (refund_branch W self refund s)) in
  let posted := requests W (Post (refundEndpoint self)
                              (refund_data self refund) (auth self)) in
  (forall resp, posted = Val resp -> status_code resp <> 200 ->
     success l = false /\ http_status_code l = status_code resp /\
     (status_code resp = 401 ->
        message l =
          PStr "There was an authorization error while processing the refund request." /\
        transaction_id l = PNone) /\
     (status_code resp <> 401 ->
        message l = PStr "Unable to complete refund transaction" /\
        transaction_id l = PStr (paymentTransactionId refund))) /\
  (forall e, posted = Exn e ->
     success l = false /\ http_status_code l = 500 /\
     message l =
       PStr "An unknown error occurred while processing refund transaction." /\
     transaction_id l = PStr (paymentTransactionId refund)).
Proof.
  open_state s. cbv zeta. unfold refund_data.
  split.
  - intros resp Hr Hs. exec_refund. rewrite Hr. reduce.
    destruct (Z.eqb_spec (status_code resp) 200) as [E|_]; [contradiction|].
    destruct (Z.eqb_spec (status_code resp) 401) as [E|N]; reduce;
      repeat split; intros; try reflexivity; contradiction.
  - intros e Hr. exec_refund. rewrite Hr. reduce. repeat split.
Qed.

(** X6. How a refund reads the 200 answer of the refund endpoint, when the
    inquiry said approved, not voidable, refundable: [respstat] A is a
    success with "Successful refund transaction."; B and any other
    [respstat] are failures with status 400 and "Please retry the request."
    or "Refund failed." followed by the vendor's [resptext]; in these cases
    the transaction id is the [retref] of the answer when it has one.  A
    failure without [resptext] ends with status 500 and the original
    transaction id. *)
Theorem refund_answer_read (W : World) (self : CardConnectProcessor)
    (refund : Refund) (o : dict) (answered : Response) (v : dict) :
  inquiry_answered W self refund o ->
  dict_get o "respstat" = PStr "A" ->
  dict_get o "voidable" <> PStr "Y" ->
  dict_get o "refundable" = PStr "Y" ->
  requests W (Post (refundEndpoint self) (refund_data self refund) (auth self)) =
    Val answered ->
  status_code answered = 200 ->
  json_loads W (text answered) = Val (PDict v) ->
  let out := process_refund W self refund in
  let respstat := dict_get v "respstat" in
  let new_id := if truthy (dict_get v "retref") then dict_get v "retref"
                else PNone in
  (respstat = PStr "A" ->
     result_field out "success" = Some (PBool true) /\
     result_field out "gatewayHttpStatusCode" = Some (PInt 200) /\
     result_field out "responseMessage" =
       Some (PStr "Successful refund transaction.") /\
     result_field out "refundTransactionId" = Some new_id) /\
  (respstat = PStr "B" -> forall t, lookup "resptext" v = Some t ->
     result_field out "success" = Some (PBool false) /\
     result_field out "gatewayHttpStatusCode" = Some (PInt 400) /\
     result_field out "responseMessage" =
       Some (PStr ("Please retry the request." ++ " " ++ str W t)) /\
     result_field out "refundTransactionId" = Some new_id) /\
  (respstat <> PStr "A" -> respstat <> PStr "B" ->
   forall t, lookup "resptext" v = Some t ->
     result_field out "success" = Some (PBool false) /\
     result_field out "gatewayHttpStatusCode" = Some (PInt 400) /\
     result_field out "responseMessage" =
       Some (PStr ("Refund failed." ++ " " ++ str W t)) /\
     result_field out "refundTransactionId" = Some new_id) /\
  (respstat <> PStr "A" -> lookup "resptext" v = None ->
     result_field out "success" = Some (PBool false) /\
     result_field out "gatewayHttpStatusCode" = Some (PInt 500) /\
     result_field out "responseMessage" =
       Some (PStr "An unknown error occurred while processing refund transaction.") /\
     result_field out "refundTransactionId" =
       Some (PStr (paymentTransactionId refund))).
Proof.
  intros Hi HA HV HF Hr Hs Hj out respstat new_id.
  subst out respstat new_id.
  destruct (refund_enters_refund W self refund o Hi HA HV HF) as (s & U & E).
  pose proof (refund_branch_answer W self refund answered v s Hr Hs Hj U) as V.
  cbv zeta in V. destruct V as (V1 & V2 & V3 & V4).
  repeat split; intros.
  1-4: destruct (V1 H) as (E1 & E2 & E3 & E4); read_result E;
    rewrite ?E1, ?E2, ?E3, ?E4; reflexivity.
  1-4: destruct (V2 H t H0) as (E1 & E2 & E3 & E4); read_result E;
    rewrite ?E1, ?E2, ?E3, ?E4; reflexivity.
  1-4: destruct (V3 H H0 t H1) as (E1 & E2 & E3 & E4); read_result E;
    rewrite ?E1, ?E2, ?E3, ?E4; reflexivity.
  1-4: destruct (V4 H H0) as (E1 & E2 & E3 & E4); read_result E;
    rewrite ?E1, ?E2, ?E3, ?E4; reflexivity.
Qed.

(** X7. When the inquiry said approved and voidable and the void endpoint does
    not answer 200, the refund fails with the status of that answer: at 401
    with the authorisation message and no transaction id, otherwise with
    "Unable to complete void transaction." and the original transaction id.
    When the POST raises, the refund fails with status 500 and the original
    transaction id. *)
Theorem void_transport_failure (W : World) (self : CardConnectProcessor)
    (refund : Refund) (o : dict) :
  inquiry_answered W self refund o ->
  dict_get o "respstat" = PStr "A" ->
  dict_get o "voidable" = PStr "Y" ->
  let out := process_refund W self refund in
  let posted := requests W (Post (voidEndpoint self) (void_data self refund)
                              (auth self)) in
  (forall resp, posted = Val resp -> status_code resp <> 200 ->
     result_field out "success" = Some (PBool false) /\
     result_field out "gatewayHttpStatusCode" = Some (PInt (status_code resp)) /\
     (status_code resp = 401 ->
        result_field out "responseMessage" =
          Some (PStr "There was an authorization error while processing a void request.") /\
        result_field out "refundTransactionId" = Some PNone) /\
     (status_code resp <> 401 ->
        result_field out "responseMessage" =
          Some (PStr "Unable to complete void transaction.") /\
        result_field out "refundTransactionId" =
          Some (PStr (paymentTransactionId refund)))) /\
  (forall e, posted = Exn e ->
     result_field out "success" = Some (PBool false) /\
     result_field out "gatewayHttpStatusCode" = Some (PInt 500) /\
     result_field out "responseMessage" =
       Some (PStr "An unknown error occurred while processing void transaction.") /\
     result_field out "refundTransactionId" =
       Some (PStr (paymentTransactionId refund))).
Proof.
  intros Hi HA HV out posted. subst out posted.
  destruct (refund_enters_void W self refund o Hi HA HV) as (s & U & E).
  pose proof (void_branch_failure W self refund s U) as V.
  cbv zeta in V. destruct V as (V1 & V2).
  split.
  - intros resp Hr Hs. destruct (V1 resp Hr Hs) as (E1 & E2 & E3 & E4).
    repeat split; intros.
    + read_result E. rewrite E1. reflexivity.
    + read_result E. rewrite E2. reflexivity.
    + read_result E. destruct (E3 H) as (-> & _). reflexivity.
    + read_result E. destruct (E3 H) as (_ & ->). reflexivity.
    + read_result E. destruct (E4 H) as (-> & _). reflexivity.
    + read_result E. destruct (E4 H) as (_ & ->). reflexivity.
  - intros e Hr. destruct (V2 e Hr) as (E1 & E2 & E3 & E4).
    repeat split; read_result E; rewrite ?E1, ?E2, ?E3, ?E4; reflexivity.
Qed.

(** X8. The same on the refund side: when the inquiry said approved, not
    voidable, refundable and the refund endpoint does not answer 200, or the
    POST raises. *)
Theorem refund_transport_failure (W : World) (self : CardConnectProcessor)
    (refund : Refund) (o : dict) :
  inquiry_answered W self refund o ->
  dict_get o "respstat" = PStr "A" ->
  dict_get o "voidable" <> PStr "Y" ->
  dict_get o "refundable" = PStr "Y" ->
  let out := process_refund W self refund in
  let posted := requests W (Post (refundEndpoint self)
                              (refund_data self refund) (auth self)) in
  (forall resp, posted = Val resp -> status_code resp <> 200 ->
     result_field out "success" = Some (PBool false) /\
     result_field out "gatewayHttpStatusCode" = Some (PInt (status_code resp)) /\
     (status_code resp = 401 ->
        result_field out "responseMessage" =
          Some (PStr "There was an authorization error while processing the refund request.") /\
        result_field out "refundTransactionId" = Some PNone) /\
     (status_code resp <> 401 ->
        result_field out "responseMessage" =
          Some (PStr "Unable to complete refund transaction") /\
        result_field out "refundTransactionId" =
          Some (PStr (paymentTransactionId refund)))) /\
  (forall e, posted = Exn e ->
     result_field out "success" = Some (PBool false) /\
     result_field out "gatewayHttpStatusCode" = Some (PInt 500) /\
     result_field out "responseMessage" =
       Some (PStr "An unknown error occurred while processing refund transaction.") /\
     result_field out "refundTransactionId" =
       Some (PStr (paymentTransactionId refund))).
Proof.
  intros Hi HA HV HF out posted. subst out posted.
  destruct (refund_enters_refund W self refund o Hi HA HV HF) as (s & U & E).
  pose proof (refund_branch_failure W self refund s U) as V.
  cbv zeta in V. destruct V as (V1 & V2).
  split.
  - intros resp Hr Hs. destruct (V1 resp Hr Hs) as (E1 & E2 & E3 & E4).
    repeat split; intros.
    + read_result E. rewrite E1. reflexivity.
    + read_result E. rewrite E2. reflexivity.
    + read_result E. destruct (E3 H) as (-> & _). reflexivity.
    + read_result E. destruct (E3 H) as (_ & ->). reflexivity.
    + read_result E. destruct (E4 H) as (-> & _). reflexivity.
    + read_result E. destruct (E4 H) as (_ & ->). reflexivity.
  - intros e Hr. destruct (V2 e Hr) as (E1 & E2 & E3 & E4).
    repeat split; read_result E; rewrite ?E1, ?E2, ?E3, ?E4; reflexivity.
Qed.

(** X9. When the inquiry itself raises, or its 200 answer is not JSON, or is
    JSON but not an object, the refund ends with status 500, no success,
    the message of the inquiry's [except] block and the original
    transaction id, and nothing is posted. *)
Theorem inquiry_internal_error (W : World) (self : CardConnectProcessor)
    (refund : Refund) :
  let got := requests W (Get (inquire_url W self refund) (auth self)) in
  ((exists e, got = Exn e) \/
   (exists resp, got = Val resp /\ status_code resp = 200 /\
      ((exists e, json_loads W (text resp) = Exn e) \/
       (exists j, json_loads W (text resp) = Val j /\
                  forall d, j <> PDict d)))) ->
  let out := process_refund W self refund in
  calls out = [Http (Get (inquire_url W self refund) (auth self))] /\
  result_field out "success" = Some (PBool false) /\
  result_field out "gatewayHttpStatusCode" = Some (PInt 500) /\
  result_field out "responseMessage" =
    Some (PStr "An unknown error occurred while retrieving your payment status. The refund was unsuccessful.") /\
  result_field out "refundTransactionId" =
    Some (PStr (paymentTransactionId refund)).
Proof.
  intros got H out. subst got out.
  destruct H as [(e & Hr) | (resp & Hr & Hs & [(e & Hj) | (j & Hj & Hd)])].
  - exec. rewrite Hr. reduce. repeat split.
  - exec. rewrite Hr. reduce. rewrite Hs. simpl (200 =? 200). reduce.
    rewrite Hj. reduce.
    destruct (response_ok resp && truthy (PStr (text resp))); reduce;
      repeat split.
  - exec. rewrite Hr. reduce. rewrite Hs. simpl (200 =? 200). reduce.
    rewrite Hj. reduce. cbv [field_is bind lift].
    destruct j; try (exfalso; eapply Hd; reflexivity); cbn [get]; reduce;
      (destruct (response_ok resp && truthy (PStr (text resp))); reduce;
       repeat split).
Qed.

Lemma inquiry_answered_example (inquiry : dict) (answer : Z * pyval) :
  inquiry_answered (examples.http_world (200, PDict inquiry) answer)
    examples.cc_self (examples.a_refund 2 examples.cc_credentials None) inquiry.
Proof. exists (mk_response 200 "inquiry"). repeat split. Qed.

Lemma refund_answer_read_witness :
  let W := examples.http_world (200, PDict examples.refundable_inquiry)
             (200, PDict examples.approved_refund) in
  let out := process_refund W examples.cc_self
               (examples.a_refund 2 examples.cc_credentials None) in
  result_field out "success" = Some (PBool true) /\
  result_field out "gatewayHttpStatusCode" = Some (PInt 200) /\
  result_field out "responseMessage" =
    Some (PStr "Successful refund transaction.") /\
  result_field out "refundTransactionId" = Some (PStr "112989260101").
Proof.
  intros W out.
  assert (N : dict_get examples.refundable_inquiry "voidable" <> PStr "Y")
    by discriminate.
  destruct (refund_answer_read W examples.cc_self
              (examples.a_refund 2 examples.cc_credentials None)
              examples.refundable_inquiry (mk_response 200 "answer")
              examples.approved_refund
              (inquiry_answered_example _ _) eq_refl N eq_refl eq_refl eq_refl
              eq_refl)
    as (Happroved & _).
  apply Happroved. reflexivity.
Defined.

Lemma void_transport_failure_witness :
  let W := examples.http_world (200, PDict examples.voidable_inquiry)
             (503, PNone) in
  let refund := examples.a_refund 2 examples.cc_credentials None in
  let out := process_refund W examples.cc_self refund in
  result_field out "success" = Some (PBool false) /\
  result_field out "gatewayHttpStatusCode" = Some (PInt 503) /\
  result_field out "refundTransactionId" =
    Some (PStr (paymentTransactionId refund)).
Proof.
  intros W refund out.
  destruct (void_transport_failure W examples.cc_self refund
              examples.voidable_inquiry
              (inquiry_answered_example _ _) eq_refl eq_refl)
    as (Hanswered & _).
  assert (N : status_code (mk_response 503 "answer") <> 200) by discriminate.
  destruct (Hanswered (mk_response 503 "answer") eq_refl N)
    as (H1 & H2 & _ & H4).
  assert (N' : status_code (mk_response 503 "answer") <> 401) by discriminate.
  destruct (H4 N') as (_ & H5).
  repeat split; assumption.
Defined.

Lemma refund_transport_failure_witness :
  let W := examples.http_world (200, PDict examples.refundable_inquiry)
             (401, PNone) in
  let refund := examples.a_refund 2 examples.cc_credentials None in
  let out := process_refund W examples.cc_self refund in
  result_field out "success" = Some (PBool false) /\
  result_field out "gatewayHttpStatusCode" = Some (PInt 401) /\
  result_field out "refundTransactionId" = Some PNone.
Proof.
  intros W refund out.
  assert (V : dict_get examples.refundable_inquiry "voidable" <> PStr "Y")
    by discriminate.
  destruct (refund_transport_failure W examples.cc_self refund
              examples.refundable_inquiry
              (inquiry_answered_example _ _) eq_refl V eq_refl)
    as (Hanswered & _).
  assert (N : status_code (mk_response 401 "answer") <> 200) by discriminate.
  destruct (Hanswered (mk_response 401 "answer") eq_refl N)
    as (H1 & H2 & H3 & _).
  destruct (H3 eq_refl) as (_ & H5).
  repeat split; assumption.
Defined.

Lemma inquiry_internal_error_witness :
  let refund := examples.a_refund 2 examples.cc_credentials None in
  let out := process_refund (examples.sdk_world [] [] []) examples.cc_self
               refund in
  calls out =
    [Http (Get (inquire_url (examples.sdk_world [] [] []) examples.cc_self
                  refund) (auth examples.cc_self))] /\
  result_field out "gatewayHttpStatusCode" = Some (PInt 500) /\
  result_field out "refundTransactionId" =
    Some (PStr (paymentTransactionId refund)).
Proof.
  intros refund out.
  destruct (inquiry_internal_error (examples.sdk_world [] [] [])
              examples.cc_self refund)
    as (H1 & _ & H3 & _ & H5).
  - left. eexists. reflexivity.
  - repeat split; assumption.
Defined.

End cardconnect_branches.

(** ** Payload: the rest of the adapter *)

Module payload_extra.
Import payload payload_proofs.

Ltac tests :=
  cbn [truthy eq_str negb andb orb String.eqb Ascii.eqb Bool.eqb Z.eqb Pos.eqb].

(** Runs on with the equations of the context. *)
Ltac forward := repeat (reduce; progress (learn; tests)).

(** Splits on each test an [except] clause makes on the exception. *)
Ltac walk :=
  repeat match goal with
    | |- context [match ?x with _ => _ end] =>
        lazymatch x with
        | isinstance _ _ => destruct x
        | existsb _ _ => destruct x
        | exn_kind_of _ => destruct x
        | GatewayResponses_member _ _ => destruct x
        | sdk_getattr _ _ _ => destruct x
        | attribute _ _ => destruct x
        | contains _ _ => destruct x as [[]|]
        | getitem _ _ => destruct x
        end; reduce
    end.

(** One more step along every path of a Payload method. *)
Ltac path_step :=
  match goal with
  | |- context [match ?x with _ => _ end] =>
      lazymatch x with
      | payload_sdk _ _ _ => destruct x
      | sdk_getattr _ _ _ => destruct x
      | attribute _ _ => destruct x
      | slice_to _ ?o => destruct o; cbn [slice_to]
      | slice_from _ ?o => destruct o; cbn [slice_from]
      | eq_str _ _ => destruct x
      | truthy _ => destruct x
      | isinstance _ _ => destruct x
      | existsb _ _ => destruct x
      | exn_kind_of _ => destruct x
      | GatewayResponses_member _ _ => destruct x
      | contains _ _ => destruct x as [[]|]
      | getitem _ _ => destruct x
      end
  end;
  reduce; cbn [truthy negb String.eqb].

(** [__init__] succeeds exactly on credentials that hold the two keys the
    dispatcher asks for, and the adapter it builds reads them. *)
Lemma init_needs_two_keys (credentials : dict) :
  (keys_superset credentials (GatewayCredentials Payload) = true <->
   exists self, init credentials = Val self) /\
  (forall self, init credentials = Val self ->
     api_key self = dict_get credentials "apiKey" /\
     processing_id self = dict_get credentials "processingId").
Proof.
  unfold init, keys_superset, GatewayCredentials, getitem, has_key, dict_get.
  simpl forallb.
  destruct (lookup "apiKey" credentials) as [k|],
           (lookup "processingId" credentials) as [p|]; simpl.
  all: split;
    [ split; [intros H; try discriminate; eauto
             | intros (self & H); try discriminate; reflexivity]
    | intros self H; try discriminate ].
  injection H as <-. split; reflexivity.
Qed.

(** X10. A payment with a comment and an expiry date reports success as
    soon as the creation call returns, whatever follows; and when the status
    code, the status message and the id of the created payment are read, it
    reports them with status 200. *)
Theorem payment_created (W : World) (self : PayloadProcessor)
    (payment : Payment) (c date : string) (created : dict) :
  p_comment payment = Some c ->
  expDate payment = Some date ->
  payload_sdk W (api_key self) (create_request self payment date (take 128 c)) =
    Val created ->
  let out := process_payment W self payment in
  result_field out "success" = Some (PBool true) /\
  (forall status message id,
     sdk_getattr W created "status_code" = Val status ->
     sdk_getattr W created "status_message" = Val message ->
     sdk_getattr W created "id" = Val id ->
     result_field out "statusCode" = Some status /\
     result_field out "gatewayHttpStatusCode" = Some (PInt 200) /\
     result_field out "responseMessage" = Some message /\
     result_field out "paymentTransactionId" = Some id).
Proof.
  intros Hc Hd Hr out. subst out. unfold create_request in Hr.
  split.
  - exec. rewrite Hc, Hd. unfold slice_to, slice_from. reduce.
    rewrite Hr. reduce.
    repeat (path_step; try reflexivity).
  - intros status message id H1 H2 H3.
    repeat split; exec; rewrite Hc, Hd; unfold slice_to, slice_from; reduce;
      rewrite Hr; reduce; rewrite H1; reduce; rewrite H2; reduce;
      rewrite H3; reflexivity.
Qed.

(** Each of the eight SDK error classes has its status in
    [GatewayResponses], and an exception of that very class is one the third
    [except] clause takes, unless it is also a [ValueError] or a declined
    transaction. *)
Lemma sdk_error_status_found (n : string) (z : Z) :
  In (n, z) sdk_error_status ->
  GatewayResponses_member n GatewayResponses = Some z /\
  forall e, exn_class e = n -> existsb (isinstance e) sdk_errors = true.
Proof.
  intros H. simpl in H.
  repeat (destruct H as [H|H];
          [injection H as <- <-; split;
           [reflexivity
           | intros e E; unfold isinstance; rewrite E; cbn;
             rewrite ?orb_true_r; reflexivity]|]).
  contradiction.
Qed.

(** X11. How a payment with a comment ends when the creation call raises: a
    [ValueError] gives status 400 with its text; a declined transaction
    gives the [http_code] of the exception with the status code and message
    of the transaction; one of the eight SDK errors gives the status
    [GatewayResponses] has under its class name (422, 500, 401, 404, 429,
    503, 400, 403), and 400 with "Unrecognized Payload error response" when
    its class name is not there; anything else gives 422.  In every case
    there is no success and no transaction id, and the creation was called
    once. *)
Theorem payment_fault_status (W : World) (self : PayloadProcessor)
    (payment : Payment) (c date : string) (e : exn) :
  p_comment payment = Some c ->
  expDate payment = Some date ->
  payload_sdk W (api_key self) (create_request self payment date (take 128 c)) =
    Exn e ->
  let out := process_payment W self payment in
  calls out = [create_call self payment date (take 128 c)] /\
  result_field out "success" = Some (PBool false) /\
  result_field out "paymentTransactionId" = Some PNone /\
  (isinstance e "ValueError" = true ->
     result_field out "gatewayHttpStatusCode" = Some (PInt 400) /\
     result_field out "responseMessage" = Some (PStr (exn_str e))) /\
  (isinstance e "ValueError" = false ->
   forall status message http_code,
   exn_kind_of e = Declined status message http_code ->
     result_field out "statusCode" = Some status /\
     result_field out "gatewayHttpStatusCode" = Some (PInt http_code) /\
     result_field out "responseMessage" = Some message) /\
  (sdk_error e ->
   (forall z, In (exn_class e, z) sdk_error_status ->
      result_field out "gatewayHttpStatusCode" = Some (PInt z)) /\
   (GatewayResponses_member (exn_class e) GatewayResponses = None ->
      result_field out "gatewayHttpStatusCode" = Some (PInt 400) /\
      result_field out "responseMessage" =
        Some (PStr "Unrecognized Payload error response"))) /\
  (unforeseen e ->
     result_field out "gatewayHttpStatusCode" = Some (PInt 422) /\
     result_field out "responseMessage" =
       Some (PStr "Unknown Payload response type")).
Proof.
  intros Hc Hd Hr out. subst out. split.
  { apply run_emits, payment_emits_create; assumption. }
  unfold create_request in Hr.
  repeat split; intros;
    try match goal with H : sdk_error _ |- _ => destruct H as (HV & HK & HS) end;
    try match goal with H : unforeseen _ |- _ => destruct H as (HV & HK & HS) end;
    try match goal with
      | H : In _ sdk_error_status |- _ =>
          destruct (sdk_error_status_found _ _ H) as (M & _)
      end;
    exec; rewrite Hc, Hd; unfold slice_to, slice_from; reduce; rewrite Hr;
    reduce; learn; reduce; try reflexivity.
  all: walk; reflexivity.
Qed.

(** X12. The message of a payment that failed with one of the eight SDK errors
    whose class name is in [GatewayResponses]: the card-number text of the
    error's response when the response holds one under details,
    payment_method, card; the response itself when it has no details; and
    the attributes of the exception when it has no response at all, or
    [None] for a response. *)
Theorem payment_error_message (W : World) (self : PayloadProcessor)
    (payment : Payment) (c date : string) (e : exn) (z : Z) :
  p_comment payment = Some c ->
  expDate payment = Some date ->
  payload_sdk W (api_key self) (create_request self payment date (take 128 c)) =
    Exn e ->
  sdk_error e ->
  GatewayResponses_member (exn_class e) GatewayResponses = Some z ->
  let out := process_payment W self payment in
  (forall x, attribute e "response" = Exn x ->
     result_field out "responseMessage" = Some (PDict (exn_dict e))) /\
  (attribute e "response" = Val PNone ->
     result_field out "responseMessage" = Some (PDict (exn_dict e))) /\
  (forall r, attribute e "response" = Val (PDict r) ->
     (has_key "details" r = false ->
        result_field out "responseMessage" = Some (PDict r)) /\
     (forall d pm cd n,
        lookup "details" r = Some (PDict d) ->
        lookup "payment_method" d = Some (PDict pm) ->
        lookup "card" pm = Some (PDict cd) ->
        lookup "card_number" cd = Some n ->
        result_field out "responseMessage" = Some n)).
Proof.
  intros Hc Hd Hr (HV & HK & HS) M out. subst out. unfold create_request in Hr.
  repeat split; intros;
    exec; rewrite Hc, Hd; unfold slice_to, slice_from; reduce; rewrite Hr;
    reduce; learn; reduce.
  - reflexivity.
  - reflexivity.
  - cbn [contains]. rewrite H0. reflexivity.
  - cbn [contains getitem]. unfold has_key. repeat (learn; reduce).
    cbn [contains getitem]. unfold has_key. repeat (learn; reduce).
    cbn [contains getitem]. unfold has_key. repeat (learn; reduce).
    cbn [contains getitem]. unfold has_key. repeat (learn; reduce).
    reflexivity.
Qed.

(** X13. A refund of a payment that is already voided changes nothing upstream:
    the lookup is its only call, and it reports success with the status of
    the payment, the already-voided message and no transaction id. *)
Theorem refund_already_voided (W : World) (self : PayloadProcessor)
    (refund : Refund) (payment_object : dict) :
  payload_sdk W (api_key self) (Payment_get (paymentTransactionId refund)) =
    Val payment_object ->
  lookup "status" payment_object = Some (PStr "voided") ->
  let out := process_refund W self refund in
  calls out = [Sdk (api_key self) (Payment_get (paymentTransactionId refund))] /\
  result_field out "success" = Some (PBool true) /\
  result_field out "gatewayHttpStatusCode" = Some (PInt 200) /\
  result_field out "statusCode" = Some (PStr "voided") /\
  result_field out "responseMessage" =
    Some (PStr "Payment transaction has already been voided.  No further action has been taken.") /\
  result_field out "refundTransactionId" = Some PNone.
Proof.
  intros Hr Hs out. subst out.
  repeat split; exec; unfold sdk_getattr; forward; reflexivity.
Qed.

(** X14. A refund with a comment, for a payment that is found and not voided:
    when the funding status is pending the transaction is fetched and
    updated to voided, when it is batched a refund is created for the whole
    amount of the payment and tied to its transaction id; either way the
    description is the first 128 characters of the comment, and the result
    reports success with the status, message and id of the object the
    write returns. *)
Theorem refund_written (W : World) (self : PayloadProcessor) (refund : Refund)
    (c : string) (payment_object written : dict)
    (status funding_status new_status new_message new_id : pyval) :
  r_comment refund = Some c ->
  payload_sdk W (api_key self) (Payment_get (paymentTransactionId refund)) =
    Val payment_object ->
  lookup "status" payment_object = Some status ->
  status <> PStr "voided" ->
  lookup "funding_status" payment_object = Some funding_status ->
  lookup "status" written = Some new_status ->
  lookup "status_message" written = Some new_message ->
  lookup "id" written = Some new_id ->
  let out := process_refund W self refund in
  let key := api_key self in
  let id := paymentTransactionId refund in
  let reported :=
    result_field out "success" = Some (PBool true) /\
    result_field out "gatewayHttpStatusCode" = Some (PInt 200) /\
    result_field out "statusCode" = Some new_status /\
    result_field out "responseMessage" = Some new_message /\
    result_field out "refundTransactionId" = Some new_id in
  (funding_status = PStr "pending" ->
   forall fetched,
   payload_sdk W key (Transaction_get id) = Val fetched ->
   payload_sdk W key
     (Transaction_update fetched (PStr "voided") (PStr (take 128 c))) =
     Val written ->
   calls out =
     [ Sdk key (Payment_get id); Sdk key (Transaction_get id);
       Sdk key (Transaction_update fetched (PStr "voided")
                  (PStr (take 128 c))) ] /\
   reported) /\
  (funding_status = PStr "batched" ->
   forall amount,
   lookup "amount" payment_object = Some amount ->
   payload_sdk W key
     (Refund_create amount
        (PList [PDict [("assoc_transaction_id", PStr id)]])
        (PStr (take 128 c))) = Val written ->
   calls out =
     [ Sdk key (Payment_get id);
       Sdk key (Refund_create amount
                  (PList [PDict [("assoc_transaction_id", PStr id)]])
                  (PStr (take 128 c))) ] /\
   reported).
Proof.
  intros Hc Hg Hs Hv Hf L1 L2 L3 out key id reported.
  subst out key id reported. apply eq_str_false in Hv.
  repeat split; intros; subst funding_status;
    exec; unfold sdk_getattr, slice_to; forward; reflexivity.
Qed.

(** X15. A Payload refund looks the payment up first and then writes at most
    once: its calls are the lookup alone, the lookup and the fetch of the
    transaction, these two and the update to voided, or the lookup and the
    creation of a refund.  It never both voids and refunds, and never
    writes without the lookup. *)
Theorem payload_refund_calls_shape (W : World) (self : PayloadProcessor)
    (refund : Refund) :
  let key := api_key self in
  let id := paymentTransactionId refund in
  let made := calls (process_refund W self refund) in
  made = [Sdk key (Payment_get id)] \/
  made = [Sdk key (Payment_get id); Sdk key (Transaction_get id)] \/
  (exists fetched d,
     made = [ Sdk key (Payment_get id); Sdk key (Transaction_get id);
              Sdk key (Transaction_update fetched (PStr "voided") (PStr d)) ]) \/
  (exists amount d,
     made = [ Sdk key (Payment_get id);
              Sdk key (Refund_create amount
                         (PList [PDict [("assoc_transaction_id", PStr id)]])
                         (PStr d)) ]).
Proof.
  intros key id made. subst key id made. exec.
  repeat path_step.
  all: cbn [app];
    first [ left; reflexivity
          | right; left; reflexivity
          | right; right; left; eexists _, _; reflexivity
          | right; right; right; eexists _, _; reflexivity ].
Qed.

(** X16. How a refund ends when the lookup of the payment raises: a [ValueError]
    gives status 400 with its text; an instance of one of the eight SDK
    classes gives the status [GatewayResponses] has under its class name,
    with what [error.response] reads as the message ([None] when the
    response is the [None] of the class), or the attributes of the instance
    when there is no such attribute at all, and 400 with "Unrecognized
    Payload error response" when the class name is not there; anything else
    gives 422.  Nothing is written and there is no success. *)
Theorem refund_fault_status (W : World) (self : PayloadProcessor)
    (refund : Refund) (e : exn) :
  payload_sdk W (api_key self) (Payment_get (paymentTransactionId refund)) =
    Exn e ->
  let out := process_refund W self refund in
  calls out = [Sdk (api_key self) (Payment_get (paymentTransactionId refund))] /\
  result_field out "success" = Some (PBool false) /\
  result_field out "refundTransactionId" = Some PNone /\
  (isinstance e "ValueError" = true ->
     result_field out "gatewayHttpStatusCode" = Some (PInt 400) /\
     result_field out "responseMessage" = Some (PStr (exn_str e))) /\
  (isinstance e "ValueError" = false ->
   existsb (isinstance e) sdk_errors = true ->
   (forall z, In (exn_class e, z) sdk_error_status ->
      result_field out "gatewayHttpStatusCode" = Some (PInt z) /\
      result_field out "responseMessage" =
        Some (match attribute e "response" with
              | Val response => response
              | Exn _ => PDict (exn_dict e)
              end)) /\
   (GatewayResponses_member (exn_class e) GatewayResponses = None ->
      result_field out "gatewayHttpStatusCode" = Some (PInt 400) /\
      result_field out "responseMessage" =
        Some (PStr "Unrecognized Payload error response"))) /\
  (isinstance e "ValueError" = false ->
   existsb (isinstance e) sdk_errors = false ->
     result_field out "gatewayHttpStatusCode" = Some (PInt 422) /\
     result_field out "responseMessage" =
       Some (PStr "Unknown Payload response type")).
Proof.
  intros Hr out. subst out.
  repeat split; intros;
    try match goal with
      | H : In _ sdk_error_status |- _ =>
          destruct (sdk_error_status_found _ _ H) as (M & _)
      end;
    exec; rewrite Hr; reduce; learn; reduce;
    walk; try reflexivity.
Qed.

Lemma payment_created_witness :
  let W := examples.sdk_world [] [] examples.processed_transaction in
  let out := process_payment W examples.pl_self
               (examples.a_payment 1 840 examples.pl_credentials None None
                  (Some "order 17")) in
  result_field out "success" = Some (PBool true) /\
  result_field out "statusCode" = Some (PStr "approved") /\
  result_field out "gatewayHttpStatusCode" = Some (PInt 200) /\
  result_field out "responseMessage" = Some (PStr "Transaction approved.") /\
  result_field out "paymentTransactionId" = Some (PStr "txn_19").
Proof.
  intros W out.
  destruct (payment_created W examples.pl_self
              (examples.a_payment 1 840 examples.pl_credentials None None
                 (Some "order 17"))
              "order 17" "1225" examples.processed_transaction
              eq_refl eq_refl eq_refl)
    as (H1 & H2).
  split; [exact H1|].
  apply (H2 (PStr "approved") (PStr "Transaction approved.") (PStr "txn_19"));
    reflexivity.
Defined.

Lemma invalid_card_is_sdk_error : sdk_error examples.invalid_card.
Proof. repeat split. Qed.

Lemma payment_fault_status_witness :
  let W := examples.sdk_failing examples.invalid_card in
  let out := process_payment W examples.pl_self
               (examples.a_payment 1 840 examples.pl_credentials None None
                  (Some "order 17")) in
  result_field out "success" = Some (PBool false) /\
  result_field out "gatewayHttpStatusCode" = Some (PInt 422).
Proof.
  intros W out.
  destruct (payment_fault_status W examples.pl_self
              (examples.a_payment 1 840 examples.pl_credentials None None
                 (Some "order 17"))
              "order 17" "1225" examples.invalid_card
              eq_refl eq_refl eq_refl)
    as (_ & H2 & _ & _ & _ & H6 & _).
  split; [exact H2|].
  destruct (H6 invalid_card_is_sdk_error) as (H7 & _).
  apply H7. simpl. auto.
Defined.

Lemma payment_error_message_witness :
  let W := examples.sdk_failing examples.invalid_card in
  let out := process_payment W examples.pl_self
               (examples.a_payment 1 840 examples.pl_credentials None None
                  (Some "order 17")) in
  result_field out "responseMessage" =
    Some (PStr "The card number is invalid, please check the number.").
Proof.
  intros W out.
  destruct (payment_error_message W examples.pl_self
              (examples.a_payment 1 840 examples.pl_credentials None None
                 (Some "order 17"))
              "order 17" "1225" examples.invalid_card 422
              eq_refl eq_refl eq_refl invalid_card_is_sdk_error eq_refl)
    as (_ & _ & H2).
  destruct (H2 _ eq_refl) as (_ & H3).
  eapply H3; reflexivity.
Defined.

Lemma refund_already_voided_witness :
  let W := examples.sdk_world examples.voided_payment [] [] in
  let refund := examples.a_refund 1 examples.pl_credentials None in
  let out := process_refund W examples.pl_self refund in
  calls out =
    [Sdk (api_key examples.pl_self) (Payment_get (paymentTransactionId refund))] /\
  result_field out "success" = Some (PBool true) /\
  result_field out "refundTransactionId" = Some PNone.
Proof.
  intros W refund out.
  destruct (refund_already_voided W examples.pl_self refund
              examples.voided_payment eq_refl eq_refl)
    as (H1 & H2 & _ & _ & _ & H6).
  repeat split; assumption.
Defined.

Lemma refund_written_witness :
  let W := examples.sdk_world examples.batched_payment [] 
             examples.processed_transaction in
  let refund := examples.a_refund 1 examples.pl_credentials
                  (Some examples.long_comment) in
  let out := process_refund W examples.pl_self refund in
  calls out =
    [ Sdk (api_key examples.pl_self) (Payment_get "112989260076");
      Sdk (api_key examples.pl_self)
        (Refund_create (PFloat (10 # 1))
           (PList [PDict [("assoc_transaction_id", PStr "112989260076")]])
           (PStr (take 128 examples.long_comment))) ] /\
  result_field out "success" = Some (PBool true) /\
  result_field out "refundTransactionId" = Some (PStr "txn_19").
Proof.
  intros W refund out.
  assert (N : PStr "processed" <> PStr "voided") by discriminate.
  destruct (refund_written W examples.pl_self refund examples.long_comment
              examples.batched_payment examples.processed_transaction
              (PStr "processed") (PStr "batched") (PStr "processed")
              (PStr "Transaction approved.") (PStr "txn_19")
              eq_refl eq_refl eq_refl N eq_refl eq_refl eq_refl eq_refl)
    as (_ & Hbatched).
  destruct (Hbatched eq_refl (PFloat (10 # 1)) eq_refl eq_refl)
    as (H1 & H2 & _ & _ & _ & H6).
  repeat split; assumption.
Defined.

Lemma refund_fault_status_witness :
  let W := examples.sdk_failing examples.bare_not_found in
  let refund := examples.a_refund 1 examples.pl_credentials None in
  let out := process_refund W examples.pl_self refund in
  result_field out "success" = Some (PBool false) /\
  result_field out "gatewayHttpStatusCode" = Some (PInt 404) /\
  result_field out "responseMessage" = Some PNone.
Proof.
  intros W refund out.
  destruct (refund_fault_status W examples.pl_self refund
              examples.bare_not_found eq_refl)
    as (_ & H2 & _ & _ & H5 & _).
  destruct (H5 eq_refl eq_refl) as (H6 & _).
  destruct (H6 404) as (H7 & H8); [simpl; auto|].
  repeat split; assumption.
Defined.

End payload_extra.
(** ** The log record and its shipment *)

Module logging_proofs.
Import logging.

Local Open Scope nat_scope.

Lemma length_crosses (s : string) :
  String.length (crosses s) = String.length s.
Proof. induction s as [|c s IH]; simpl; congruence. Qed.

Lemma length_append (a b : string) :
  String.length (a ++ b) = String.length a + String.length b.
Proof. induction a as [|c a IH]; simpl; congruence. Qed.

Lemma length_take (n : nat) (s : string) :
  n <= String.length s -> String.length (take n s) = n.
Proof.
  revert s. induction n as [|n IH]; intros [|c s]; simpl; intros H;
    try reflexivity; try lia.
  rewrite IH by lia. reflexivity.
Qed.

Lemma take_append (a b : string) : take (String.length a) (a ++ b) = a.
Proof. induction a as [|c a IH]; simpl; [destruct b|]; congruence. Qed.

Lemma drop_append (a b : string) : drop (String.length a) (a ++ b) = b.
Proof. induction a as [|c a IH]; simpl; [reflexivity | exact IH]. Qed.

(** X24. The masked card number is as long as the card number, ends with its
    last four characters and has a cross in every place before them; a card
    number of four characters or fewer is kept as it is. *)
Theorem masked_card_number_shape (account : string) :
  let masked := masked_card_number account in
  String.length masked = String.length account /\
  last_chars 4 masked = last_chars 4 account /\
  until_last 4 masked = crosses (until_last 4 account) /\
  (String.length account <= 4 -> masked = account).
Proof.
  intros masked. subst masked.
  unfold masked_card_number, last_chars, until_last.
  set (n := String.length account - 4).
  assert (Hn : n <= String.length account) by (unfold n; lia).
  assert (Lc : String.length (crosses (take n account)) = n)
    by (rewrite length_crosses; apply length_take, Hn).
  assert (Ld : String.length (drop n account) = String.length account - n).
  { rewrite <- (take_drop n account) at 2. rewrite length_append, length_take
      by exact Hn. lia. }
  assert (L : String.length (crosses (take n account) ++ drop n account)
              = String.length account)
    by (rewrite length_append, Lc, Ld; lia).
  split; [exact L|]. rewrite L. fold n.
  split; [|split].
  - rewrite <- Lc at 1. apply drop_append.
  - rewrite <- Lc at 1. apply take_append.
  - intros H. replace n with 0 by (unfold n; lia). reflexivity.
Qed.

(** Looks a key up in a dict written out in full, one entry at a time. *)
Ltac scan k :=
  repeat match goal with
         | |- context [String.eqb ?a k] =>
             destruct (String.eqb_spec a k);
             [subst k; try tauto; try reflexivity|]
         end.

(** X25. The copy of a payment kept for the log is made exactly when the
    payment has a card number, and then it has no credentials, no card code
    and no card number: it holds the masked number, and every other field
    of the request as it came.  The copy of a refund has no credentials. *)
Theorem log_copy_hides_secrets (payment : Payment) (refund : Refund) :
  match sale_request_body payment with
  | Val body =>
      has_key "credentials" body = false /\
      has_key "cvv2" body = false /\
      has_key "account" body = false /\
      (exists number, account payment = Some number /\
         lookup "maskedCardNumber" body =
           Some (PStr (masked_card_number number))) /\
      (forall k, ~ In k ["credentials"; "cvv2"; "account";
                         "maskedCardNumber"]%string ->
         lookup k body = lookup k (payment_dict payment))
  | Exn e =>
      account payment = None /\
      e = TypeError "'NoneType' object is not subscriptable"
  end /\
  has_key "credentials" (credit_request_body refund) = false /\
  (forall k, k <> "credentials"%string ->
     lookup k (credit_request_body refund) = lookup k (refund_dict refund)).
Proof.
  split; [|split].
  - unfold sale_request_body. destruct (account payment) as [number|] eqn:A;
      [|split; reflexivity].
    repeat split; try reflexivity.
    + exists number. split; reflexivity.
    + intros k Hk. simpl in Hk.
      cbv [payment_dict dict_del dict_set String.eqb Ascii.eqb Bool.eqb].
      cbn [lookup]. scan k. reflexivity.
  - reflexivity.
  - intros k Hk.
    cbv [credit_request_body refund_dict dict_del String.eqb Ascii.eqb
         Bool.eqb].
    cbn [lookup]. scan k. reflexivity.
Qed.

Lemma log_copy_hides_secrets_witness :
  exists body,
    sale_request_body
      (examples.a_payment 1 840 examples.pl_credentials None None None) =
      Val body /\
    has_key "credentials" body = false /\
    has_key "cvv2" body = false /\
    has_key "account" body = false /\
    lookup "maskedCardNumber" body = Some (PStr "xxxxxxxxxxxx1443").
Proof.
  eexists. split; [reflexivity|].
  destruct (log_copy_hides_secrets
              (examples.a_payment 1 840 examples.pl_credentials None None None)
              (examples.a_refund 1 examples.pl_credentials None))
    as ((H1 & H2 & H3 & (number & Hn & H4) & _) & _).
  injection Hn as <-.
  repeat split; assumption.
Defined.

(** *** The connection loop *)

Lemma connect_loop_connected (S : Socket) (fuel n : nat) :
  connect_loop S (Datatypes.S fuel) true n = Some (Val true, []).
Proof. reflexivity. Qed.

Lemma connect_loop_ends (S : Socket) (fuel : nat) (connected : bool) (n : nat) :
  10 - n < fuel ->
  exists r k, connect_loop S fuel connected n = Some (r, attempts n k) /\
              n + k <= Nat.max n 10.
Proof.
  revert connected n. induction fuel as [|fuel IH]; intros connected n H;
    [lia|].
  simpl. destruct connected; simpl.
  { exists (Val true), 0. split; [reflexivity | lia]. }
  destruct (Nat.ltb_spec n 10) as [Hn|Hn].
  2:{ exists (Val false), 0. split; [reflexivity | lia]. }
  destruct (connect S n) as [[]|e].
  - destruct (IH true (n + 1)) as (r & k & E & Hk); [lia|].
    rewrite E. exists r, (Datatypes.S k). split; [|lia].
    unfold attempts. simpl. rewrite Nat.add_1_r. reflexivity.
  - destruct (isinstance e "OSError").
    + destruct (IH false (n + 1)) as (r & k & E & Hk); [lia|].
      rewrite E. exists r, (Datatypes.S k). split; [|lia].
      unfold attempts. simpl. rewrite Nat.add_1_r. reflexivity.
    + exists (Exn e), 1. split; [reflexivity | lia].
Qed.

(** X26. Eleven rounds are enough for the loop whatever the collector does, and
    it makes at most ten attempts, numbered from 0 on, each at most once. *)
Theorem connect_loop_terminates (S : Socket) :
  exists r k, connect_loop S 11 false 0 = Some (r, attempts 0 k) /\ k <= 10.
Proof.
  destruct (connect_loop_ends S 11 false 0) as (r & k & E & Hk); [lia|].
  exists r, k. split; [exact E | lia].
Qed.

Lemma connect_loop_refused (S : Socket) (k fuel n j : nat) :
  refused_before S k -> n + j = k -> k <= 10 ->
  connect_loop S (j + fuel) false n =
    match connect_loop S fuel false k with
    | Some (r, evs) => Some (r, (attempts n j ++ evs)%list)
    | None => None
    end.
Proof.
  intros R. revert n. induction j as [|j IH]; intros n E Hk.
  - replace n with k by lia. simpl.
    destruct (connect_loop S fuel false k) as [[r evs]|]; reflexivity.
  - simpl. destruct (Nat.ltb_spec n 10) as [_|Hn]; [|lia].
    destruct (R n) as (e & -> & ->); [lia|].
    rewrite (IH (n + 1)) by lia.
    destruct (connect_loop S fuel false k) as [[r evs]|]; [|reflexivity].
    unfold attempts. simpl. rewrite Nat.add_1_r. reflexivity.
Qed.

Lemma connect_loop_accepted (S : Socket) (k : nat) :
  refused_before S k -> k < 10 -> connect S k = Val tt ->
  connect_loop S 11 false 0 = Some (Val true, attempts 0 (k + 1)).
Proof.
  intros R Hk Hc.
  replace 11 with (k + (11 - k)) by lia.
  rewrite (connect_loop_refused S k (11 - k) 0 k R) by lia.
  destruct (11 - k) as [|[|fuel]] eqn:F; try lia.
  simpl. destruct (Nat.ltb_spec k 10) as [_|]; [|lia].
  rewrite Hc. simpl. unfold attempts.
  rewrite Nat.add_1_r, seq_S, map_app. reflexivity.
Qed.

Lemma connect_loop_given_up (S : Socket) :
  refused_before S 10 ->
  connect_loop S 11 false 0 = Some (Val false, attempts 0 10).
Proof.
  intros R. change 11 with (10 + 1).
  rewrite (connect_loop_refused S 10 1 0 10 R) by lia.
  reflexivity.
Qed.

(** X27. The loop stops at the first attempt that is not refused: with success
    when it is accepted, with the exception when it raises anything but an
    [OSError]; and it gives up, without an exception, when all ten attempts
    are refused. *)
Theorem connect_loop_first_answer (S : Socket) (k : nat) :
  refused_before S k ->
  (k < 10 -> connect S k = Val tt ->
   connect_loop S 11 false 0 = Some (Val true, attempts 0 (k + 1))) /\
  (k < 10 -> forall e, connect S k = Exn e -> isinstance e "OSError" = false ->
   connect_loop S 11 false 0 = Some (Exn e, attempts 0 (k + 1))) /\
  (k = 10 -> connect_loop S 11 false 0 = Some (Val false, attempts 0 10)).
Proof.
  intros R. repeat split.
  - intros Hk Hc. apply connect_loop_accepted; assumption.
  - intros Hk e Hc He.
    replace 11 with (k + (11 - k)) by lia.
    rewrite (connect_loop_refused S k (11 - k) 0 k R) by lia.
    destruct (11 - k) as [|fuel] eqn:F; try lia.
    simpl. destruct (Nat.ltb_spec k 10) as [_|]; [|lia].
    rewrite Hc, He. unfold attempts.
    rewrite Nat.add_1_r, seq_S, map_app. reflexivity.
  - intros E. subst k. apply connect_loop_given_up, R.
Qed.

Lemma refused_before_accepting (k : nat) : refused_before (accepting_after k) k.
Proof.
  intros i Hi. simpl. destruct (Nat.ltb_spec i k); [|lia].
  eexists. split; reflexivity.
Qed.

Lemma connect_loop_first_answer_witness :
  connect_loop (accepting_after 3) 11 false 0 =
    Some (Val true, [Connect 0; Connect 1; Connect 2; Connect 3]).
Proof.
  destruct (connect_loop_first_answer (accepting_after 3) 3
              (refused_before_accepting 3)) as (H & _).
  apply H; [lia | reflexivity].
Defined.

(** *** The record *)

Lemma lookup_set_same (k : string) (v : pyval) (d : dict) :
  lookup k (dict_set k v d) = Some v.
Proof.
  induction d as [|[k' v'] d IH]; simpl.
  - rewrite String.eqb_refl. reflexivity.
  - destruct (String.eqb_spec k' k); simpl.
    + rewrite String.eqb_refl. reflexivity.
    + destruct (String.eqb_spec k' k); [contradiction | exact IH].
Qed.

Lemma lookup_set_other (k k' : string) (v : pyval) (d : dict) :
  k <> k' -> lookup k (dict_set k' v d) = lookup k d.
Proof.
  intros N. induction d as [|[k0 v0] d IH]; simpl.
  - destruct (String.eqb_spec k' k); [congruence | reflexivity].
  - destruct (String.eqb_spec k0 k'); simpl.
    + subst k0. destruct (String.eqb_spec k' k); [congruence | reflexivity].
    + destruct (String.eqb_spec k0 k); [reflexivity | exact IH].
Qed.

Lemma has_key_lookup (k : string) (d : dict) :
  has_key k d = true -> Some (dict_get d k) = lookup k d.
Proof.
  unfold has_key, dict_get. destruct (lookup k d); [reflexivity | discriminate].
Qed.

Lemma lookup_copy_metadata (items tx_metadata message : dict) (k : string) :
  lookup k (copy_metadata items tx_metadata message) =
    if has_key k items then Some (dict_get tx_metadata k)
    else lookup k message.
Proof.
  revert message. induction items as [|[i v] items IH]; intros message;
    [reflexivity|].
  simpl. rewrite IH. unfold has_key. simpl.
  destruct (String.eqb_spec i k) as [->|N].
  - destruct (lookup k items); [reflexivity | apply lookup_set_same].
  - destruct (lookup k items); [reflexivity|].
    apply lookup_set_other. congruence.
Qed.

Lemma copy_request_data_kept (items request_data message data : dict) :
  lookup "data" message = Some (PDict data) ->
  exists message' data',
    copy_request_data items request_data message = Val message' /\
    lookup "data" message' = Some (PDict data') /\
    (forall k, k <> "data"%string -> lookup k message' = lookup k message) /\
    (forall k, lookup k data' =
               if has_key k items then Some (dict_get request_data k)
               else lookup k data).
Proof.
  revert message data. induction items as [|[i v] items IH];
    intros message data Hd.
  - exists message, data. repeat split; auto.
  - simpl. unfold set_data, getitem. rewrite Hd. simpl.
    destruct (IH (dict_set "data"
                    (PDict (dict_set i (dict_get request_data i) data)) message)
                 (dict_set i (dict_get request_data i) data))
      as (m' & d' & E & Hm & Ho & Hk); [apply lookup_set_same|].
    exists m', d'. split; [exact E|]. split; [exact Hm|]. split.
    + intros k N. rewrite Ho by exact N. apply lookup_set_other, N.
    + intros k. rewrite Hk. unfold has_key. simpl.
      destruct (String.eqb_spec i k) as [->|N].
      * destruct (lookup k items); [reflexivity | apply lookup_set_same].
      * destruct (lookup k items); [reflexivity|].
        apply lookup_set_other. congruence.
Qed.

(** X28. The record sent for a header without a [data] key: the keys of the
    header are at the top of the record with their values, next to
    [service] and [level] unless the header has these keys itself; under
    [data] are the data handed over, the response code, and the URI and the
    type of the request unless the data have these keys. *)
Theorem log_record_content (tx_metadata request_data : dict)
    (uri req_type level : string) (response_code : pyval) :
  has_key "data" tx_metadata = false ->
  exists message data,
    log_message tx_metadata request_data uri req_type level response_code =
      Val message /\
    lookup "data" message = Some (PDict data) /\
    (forall k, has_key k tx_metadata = true ->
       lookup k message = lookup k tx_metadata) /\
    (has_key "service" tx_metadata = false ->
       lookup "service" message = Some (PStr "payment_gateway")) /\
    (has_key "level" tx_metadata = false ->
       lookup "level" message = Some (PStr level)) /\
    lookup "http_response_code" data = Some response_code /\
    (forall k, k <> "http_response_code"%string ->
       has_key k request_data = true ->
       lookup k data = lookup k request_data) /\
    (has_key "requestUri" request_data = false ->
       lookup "requestUri" data = Some (PStr uri)) /\
    (has_key "requestType" request_data = false ->
       lookup "requestType" data = Some (PStr req_type)).
Proof.
  intros Hd. unfold log_message.
  set (m0 := [ ("service", PStr "payment_gateway"); ("level", PStr level);
               ("data", PDict [ ("requestUri", PStr uri);
                                ("requestType", PStr req_type) ]) ]).
  set (m1 := copy_metadata tx_metadata tx_metadata m0).
  assert (L1 : forall k, lookup k m1 =
                         if has_key k tx_metadata
                         then Some (dict_get tx_metadata k) else lookup k m0)
    by (intro; apply lookup_copy_metadata).
  assert (D1 : lookup "data" m1 =
               Some (PDict [ ("requestUri", PStr uri);
                             ("requestType", PStr req_type) ]))
    by (rewrite L1, Hd; reflexivity).
  destruct (copy_request_data_kept request_data request_data m1 _ D1)
    as (m2 & d2 & E & Hm & Ho & Hk).
  rewrite E. unfold set_data, getitem. rewrite Hm. simpl.
  do 2 eexists. split; [reflexivity|].
  split; [apply lookup_set_same|].
  assert (Top : forall k, k <> "data"%string ->
                  lookup k (dict_set "data"
                              (PDict (dict_set "http_response_code"
                                        response_code d2)) m2) = lookup k m1).
  { intros k N. rewrite lookup_set_other by exact N. apply Ho, N. }
  repeat split.
  - intros k Hk'. assert (N : k <> "data"%string) by congruence.
    rewrite Top, L1, Hk' by exact N. apply has_key_lookup, Hk'.
  - intros H. rewrite Top, L1, H by discriminate. reflexivity.
  - intros H. rewrite Top, L1, H by discriminate. reflexivity.
  - apply lookup_set_same.
  - intros k N H. rewrite lookup_set_other, Hk, H by exact N.
    apply has_key_lookup, H.
  - intros H. rewrite lookup_set_other, Hk, H by discriminate. reflexivity.
  - intros H. rewrite lookup_set_other, Hk, H by discriminate. reflexivity.
Qed.

Lemma copy_request_data_clash (items request_data message : dict) (v : pyval) :
  lookup "data" message = Some v -> (forall d, v <> PDict d) ->
  items <> [] ->
  exists e, copy_request_data items request_data message = Exn e /\
            exn_class e = "TypeError"%string.
Proof.
  intros Hv Hd Hi. destruct items as [|[i x] items]; [contradiction|].
  simpl. unfold set_data, getitem. rewrite Hv.
  destruct v; simpl; try (eexists; split; reflexivity).
  exfalso. eapply Hd. reflexivity.
Qed.

(** X29. A header with a [data] key whose value is not an object takes the
    place of the record's own [data]: the first write under [data] raises a
    [TypeError], and nothing is sent. *)
Theorem log_record_data_clash (S : Socket) (fuel : nat)
    (tx_metadata request_data : dict) (uri req_type level : string)
    (response_code v : pyval) :
  lookup "data" tx_metadata = Some v ->
  (forall d, v <> PDict d) ->
  exists e, exn_class e = "TypeError"%string /\
    log_message tx_metadata request_data uri req_type level response_code =
      Exn e /\
    send_log_message S fuel tx_metadata request_data uri req_type level
      response_code = Some (Exn e, []).
Proof.
  intros Hv Hd.
  assert (E : exists e, exn_class e = "TypeError"%string /\
                log_message tx_metadata request_data uri req_type level
                  response_code = Exn e).
  { unfold log_message.
    set (m1 := copy_metadata tx_metadata tx_metadata _).
    assert (D1 : lookup "data" m1 = Some v).
    { unfold m1. rewrite lookup_copy_metadata. unfold has_key, dict_get.
      rewrite Hv. reflexivity. }
    destruct request_data as [|kv request_data].
    - simpl. unfold set_data, getitem. rewrite D1.
      destruct v; simpl; try (eexists; split; [|reflexivity]; reflexivity).
      exfalso. eapply Hd. reflexivity.
    - destruct (copy_request_data_clash (kv :: request_data)
                  (kv :: request_data) m1 v D1 Hd) as (e & -> & He);
        [discriminate|].
      exists e. split; [exact He | reflexivity]. }
  destruct E as (e & He & E). exists e.
  split; [exact He|]. split; [exact E|].
  unfold send_log_message. rewrite E. reflexivity.
Qed.

(** *** The shipment *)

(** X30. With the record built: when all ten attempts are refused the record is
    dropped and the endpoint goes on; when attempt [k] is the first to be
    accepted the record is sent once, after the attempts 0 to [k], then the
    socket is shut down and closed, and a fault of any of the three
    calls leaves the function. *)
Theorem log_shipment (S : Socket) (tx_metadata request_data : dict)
    (uri req_type level : string) (response_code : pyval) (message : dict)
    (k : nat) :
  log_message tx_metadata request_data uri req_type level response_code =
    Val message ->
  refused_before S k ->
  let shipped := send_log_message S 11 tx_metadata request_data uri req_type
                   level response_code in
  (k = 10 -> shipped = Some (Val tt, attempts 0 10)) /\
  (k < 10 -> connect S k = Val tt ->
   (forall e, send S message = Exn e ->
      shipped = Some (Exn e, (attempts 0 (k + 1) ++ [Send message])%list)) /\
   (send S message = Val tt -> forall e, shutdown S = Exn e ->
      shipped = Some (Exn e, (attempts 0 (k + 1)
                                ++ [Send message; Shutdown])%list)) /\
   (send S message = Val tt -> shutdown S = Val tt ->
      shipped = Some (close S, (attempts 0 (k + 1)
                                  ++ [Send message; Shutdown; Close])%list))).
Proof.
  intros Hm R shipped. subst shipped. unfold send_log_message, deliver.
  rewrite Hm.
  split.
  - intros E. subst k. rewrite (connect_loop_given_up S R). reflexivity.
  - intros Hk Hc. rewrite (connect_loop_accepted S k R Hk Hc).
    unfold ship. repeat split.
    + intros e ->. reflexivity.
    + intros -> e ->. reflexivity.
    + intros -> ->. reflexivity.
Qed.

Lemma log_shipment_witness :
  send_log_message (accepting_after 2) 11 [] []
    "/paymentGateway/processPayment" "POST" "AUDIT" (PInt 200) =
    Some (Val tt,
          [ Connect 0; Connect 1; Connect 2;
            Send [ ("service", PStr "payment_gateway");
                   ("level", PStr "AUDIT");
                   ("data",
                    PDict [ ("requestUri",
                             PStr "/paymentGateway/processPayment");
                            ("requestType", PStr "POST");
                            ("http_response_code", PInt 200) ]) ];
            Shutdown; Close ]).
Proof.
  destruct (log_shipment (accepting_after 2) [] []
              "/paymentGateway/processPayment" "POST" "AUDIT" (PInt 200)
              _ 2 eq_refl (refused_before_accepting 2)) as (_ & H).
  destruct H as (_ & _ & H); [lia | reflexivity |].
  apply H; reflexivity.
Defined.

Lemma log_record_content_witness :
  exists message data,
    log_message examples.bv_header
      (log_data
         (credit_request_body
            (examples.a_refund 1 examples.pl_credentials None))
         PNone PNone)
      "/paymentGateway/processRefund" "POST" "ERROR" (PInt 400) =
      Val message /\
    lookup "data" message = Some (PDict data) /\
    lookup "transactionId" message = Some (PStr "e4b2") /\
    lookup "http_response_code" data = Some (PInt 400).
Proof.
  destruct (log_record_content examples.bv_header
              (log_data
                 (credit_request_body
                    (examples.a_refund 1 examples.pl_credentials None))
                 PNone PNone)
              "/paymentGateway/processRefund" "POST" "ERROR" (PInt 400)
              eq_refl)
    as (message & data & E & Hd & Hk & _ & _ & Hc & _).
  exists message, data. split; [exact E|]. split; [exact Hd|].
  split; [|exact Hc].
  rewrite (Hk "transactionId"%string eq_refl). reflexivity.
Defined.

Lemma log_record_data_clash_witness :
  exists e,
    exn_class e = "TypeError"%string /\
    send_log_message (accepting_after 0) 11
      (("data", PStr "x") :: examples.bv_header) []
      "/paymentGateway/processPayment" "POST" "AUDIT" (PInt 200) =
      Some (Exn e, []).
Proof.
  assert (N : forall d, PStr "x" <> PDict d) by discriminate.
  destruct (log_record_data_clash (accepting_after 0) 11
              (("data", PStr "x") :: examples.bv_header) []
              "/paymentGateway/processPayment" "POST" "AUDIT" (PInt 200)
              (PStr "x") eq_refl N)
    as (e & He & _ & Hs).
  exists e. split; assumption.
Defined.

(** *** A collector that raises nothing *)

Lemma connect_loop_quiet (S : Socket) (fuel : nat) (connected : bool)
    (n : nat) :
  quiet S -> 10 - n < fuel ->
  exists b evs, connect_loop S fuel connected n = Some (Val b, evs).
Proof.
  intros (Q & _). revert connected n.
  induction fuel as [|fuel IH]; intros connected n H; [lia|].
  simpl. destruct connected; simpl; [eauto|].
  destruct (Nat.ltb_spec n 10) as [Hn|Hn]; [|eauto].
  destruct (connect S n) as [[]|e] eqn:C.
  - destruct (IH true (n + 1)) as (b & evs & ->); [lia|]. simpl. eauto.
  - rewrite (Q n e C).
    destruct (IH false (n + 1)) as (b & evs & ->); [lia|]. simpl. eauto.
Qed.

Lemma deliver_quiet (S : Socket) (message : dict) :
  quiet S -> exists evs, deliver S rounds message = Some (Val tt, evs).
Proof.
  intros Q. unfold deliver, rounds.
  destruct (connect_loop_quiet S 11 false 0 Q) as (b & evs & ->); [lia|].
  destruct Q as (_ & Qs & Qd & Qc).
  destruct b; [|eauto].
  unfold ship. rewrite Qs, Qd, Qc. simpl. eauto.
Qed.

Lemma log_message_builds (tx_metadata request_data : dict)
    (uri req_type level : string) (response_code : pyval) :
  loggable tx_metadata ->
  exists message,
    log_message tx_metadata request_data uri req_type level response_code =
      Val message.
Proof.
  intros Hl. unfold log_message.
  set (m1 := copy_metadata tx_metadata tx_metadata _).
  assert (D1 : exists data, lookup "data" m1 = Some (PDict data)).
  { unfold m1. rewrite lookup_copy_metadata. unfold has_key, dict_get.
    destruct (lookup "data" tx_metadata) as [v|] eqn:L.
    - destruct (Hl v L) as (o & ->). eauto.
    - simpl. eauto. }
  destruct D1 as (data & D1).
  destruct (copy_request_data_kept request_data request_data m1 data D1)
    as (m2 & d2 & E & Hm & _).
  rewrite E. unfold set_data, getitem. rewrite Hm. simpl. eauto.
Qed.

(** With a collector that raises nothing and a header object under which
    the record can be written, the call of [send_log_message] returns. *)
Lemma send_log_quiet (S : Socket) (tx_metadata request_data : dict)
    (uri req_type level : string) (response_code : pyval) :
  quiet S -> loggable tx_metadata ->
  exists evs,
    send_log S (PDict tx_metadata) request_data uri req_type level
      response_code = (Val tt, evs).
Proof.
  intros Q Hl. unfold send_log, send_log_message.
  destruct (log_message_builds tx_metadata request_data uri req_type level
              response_code Hl) as (message & ->).
  destruct (deliver_quiet S message Q) as (evs & ->).
  simpl. eauto.
Qed.

Lemma loggable_empty : loggable [].
Proof. intros v H. discriminate. Qed.

Lemma copy_list_raises (items l : list pyval) (message : dict) (k : string) :
  In (PStr k) items -> exists e, copy_list items l message = Exn e.
Proof.
  revert message. induction items as [|item items IH]; intros message H;
    [contradiction|].
  simpl. destruct (list_item l item) as [v|e] eqn:E; [|eauto].
  destruct H as [->|H]; [discriminate|].
  apply IH, H.
Qed.

(** A header that is a list holding a string ends [send_log_message] with
    an exception before anything is connected or sent. *)
Lemma send_log_list_raises (S : Socket) (l : list pyval) (k : string)
    (request_data : dict) (uri req_type level : string)
    (response_code : pyval) :
  In (PStr k) l ->
  exists e,
    send_log S (PList l) request_data uri req_type level response_code =
      (Exn e, []).
Proof.
  intros H. unfold send_log, log_message_of_list.
  destruct (copy_list_raises l l
              [ ("service", PStr "payment_gateway"); ("level", PStr level);
                ("data", PDict [ ("requestUri", PStr uri);
                                 ("requestType", PStr req_type) ]) ] k H)
    as (e & ->).
  eauto.
Qed.

Lemma quiet_accepting (k : nat) : quiet (accepting_after k).
Proof.
  repeat split. intros n e. simpl.
  destruct (n <? k)%nat; [intros [= <-]; reflexivity | discriminate].
Qed.

End logging_proofs.

(** ** The endpoints *)

Module main_proofs.
Import main.

Ltac exec :=
  cbv [submit_sale submit_credit sale_body credit_body settle ship_log reply
       logged fail sale_initial credit_initial select_processor
       call_process_payment call_process_refund
       run bind ret lift read modify call raise try_except try_finally
       set_the_result set_response_detail set_response_status set_log_level
       set_required set_the_processor set_gateway_response_data
       set_request_body_as_json set_status
       the_result response_detail response_status log_level
       required_credentials_present_in_request the_processor
       gateway_response_data request_body_as_json fst snd].

Lemma known_gateway_type_spec (id : Z) :
  known_gateway_type id = true <-> id = 1 \/ id = 2.
Proof.
  unfold known_gateway_type. simpl.
  destruct (Z.eqb_spec id 1), (Z.eqb_spec id 2); simpl; intuition congruence.
Qed.


Lemma GatewayType_of_value (W : World) (g : GatewayType) :
  GatewayType_of W (GatewayType_value g) = Val g /\
  known_gateway_type (GatewayType_value g) = true.
Proof. destruct g; split; reflexivity. Qed.


(** The copy of a payment with a card number is made. *)
Lemma sale_copy (payment : Payment) :
  account payment <> None ->
  exists copy, logging.sale_request_body payment = Val copy.
Proof.
  intros H. unfold logging.sale_request_body.
  destruct (account payment); [eauto | contradiction].
Qed.

(** The shipment of the log record with a collector that raises nothing,
    for a header object under which the record can be written; what was
    done for the log is the witness of the goal. *)
Ltac ship HQ HL :=
  match goal with
  | |- context [logging.send_log ?S (PDict ?d) ?rd ?u ?t ?lv ?c] =>
      let evs := fresh "logs" in
      let E := fresh "E" in
      destruct (logging_proofs.send_log_quiet S d rd u t lv c HQ HL)
        as (evs & E);
      exists evs; rewrite E; cbn [fst snd app]; reduce
  end.

Lemma truthy_dict (d : dict) : d <> [] -> truthy (PDict d) = true.
Proof. destruct d; [contradiction | reflexivity]. Qed.


Lemma bv_header_logged :
  logged_request
    (examples.http_world (200, PNone) (200, PDict examples.bv_header))
    (Some "header") examples.bv_header.
Proof.
  split; [reflexivity|]. split.
  - intros v H. discriminate.
  - apply logging_proofs.quiet_accepting.
Qed.



End main_proofs.

(** ** The adapters always answer *)

(** ** The endpoints: what is answered *)

Module main_extra.
Import main main_proofs.

(** The record an adapter returns is the one its [finally] clause builds. *)
Lemma cc_payment_record (W : World) (self : cardconnect.CardConnectProcessor)
    (payment : Payment) :
  exists l, fst (cardconnect.process_payment W self payment) =
            Val (cardconnect.processing_result payment l).
Proof.
  unfold cardconnect.process_payment, cardconnect.payment_body, run.
  destruct (returns_try_except (cardconnect.payment_try W self payment)
              (cardconnect.payment_except W)
              (cardconnect_proofs.cc_returns_payment_except W)
              (cardconnect.initial, [])) as ([] & [l tr] & E).
  unfold bind at 1, try_finally. rewrite E.
  cbv [bind read modify ret fst snd cardconnect.set_result cardconnect.result].
  eexists. reflexivity.
Qed.

Lemma cc_refund_record (W : World) (self : cardconnect.CardConnectProcessor)
    (refund : Refund) :
  exists l, fst (cardconnect.process_refund W self refund) =
            Val (cardconnect.refund_result refund l).
Proof.
  unfold cardconnect.process_refund, cardconnect.refund_body, run.
  destruct (returns_try_except (cardconnect.inquire_try W self refund)
              (cardconnect.inquire_except W refund)
              (cardconnect_proofs.returns_inquire_except W refund)
              (cardconnect.initial, [])) as ([] & [l tr] & E).
  unfold bind at 1, try_finally. rewrite E.
  cbv [bind read modify ret fst snd cardconnect.set_result cardconnect.result].
  eexists. reflexivity.
Qed.

Lemma pl_payment_record (W : World) (self : payload.PayloadProcessor)
    (payment : Payment) :
  exists l, fst (payload.process_payment W self payment) =
            Val (payload.processing_result payment l).
Proof.
  unfold payload.process_payment, payload.payment_body, run.
  destruct (returns_try_except (payload.payment_try W self payment)
              payload.payment_except
              payload_proofs.pl_returns_payment_except
              (payload.initial, [])) as ([] & [l tr] & E).
  unfold bind at 1, try_finally. rewrite E.
  cbv [bind read modify ret fst snd payload.set_result payload.result].
  eexists. reflexivity.
Qed.

Lemma pl_refund_record (W : World) (self : payload.PayloadProcessor)
    (refund : Refund) :
  exists l, fst (payload.process_refund W self refund) =
            Val (payload.refund_result refund l).
Proof.
  unfold payload.process_refund, payload.refund_body, run.
  destruct (returns_try_except (payload.refund_try W self refund)
              payload.refund_except
              payload_proofs.pl_returns_refund_except
              (payload.initial, [])) as ([] & [l tr] & E).
  unfold bind at 1, try_finally. rewrite E.
  cbv [bind read modify ret fst snd payload.set_result payload.result].
  eexists. reflexivity.
Qed.

(** With every required key in the credentials the adapter is built. *)
Lemma build_succeeds (W : World) (g : GatewayType) (credentials : dict) :
  keys_superset credentials (GatewayCredentials g) = true ->
  exists p, build W g credentials = Val p /\
    match g, p with
    | Payload, PayloadProcessor a => payload.init credentials = Val a
    | CardConnect, CardConnectProcessor c =>
        cardconnect.init credentials (CARDCONNECT_HOSTNAME W) = Val c
    | _, _ => False
    end.
Proof.
  destruct g;
    unfold build, keys_superset, GatewayCredentials, payload.init,
      cardconnect.init, getitem, has_key; simpl forallb.
  - destruct (lookup "apiKey" credentials),
             (lookup "processingId" credentials);
      simpl; try discriminate.
    intros _. eexists. split; reflexivity.
  - destruct (lookup "username" credentials),
             (lookup "password" credentials),
             (lookup "merchantId" credentials);
      simpl; try discriminate.
    intros _. eexists. split; reflexivity.
Qed.

(** The tests already decided along the way. *)
Ltac known_tests :=
  repeat match goal with
         | H : (_ =? _) = _ |- _ => rewrite H
         end.

Ltac compute_on :=
  cbn -[Z.leb Z.eqb logging.send_log logging.log_data].

(** The tests of a status that is known. *)
Ltac literal_tests :=
  change (400 =? 200) with false; change (200 =? 200) with true;
  change (400 =? 404) with false; change (200 =? 404) with false.

(** The same, with the trace left as the endpoint wrote it. *)
Ltac compute_on_left :=
  cbn -[Z.leb Z.eqb logging.send_log logging.log_data app finished
        well_formed].

(** Runs an endpoint on from the record of the adapter, whose status is
    [z] and whose message is [m], along the three cases of [z], through the
    shipment of the log record. *)
Ltac relay z m HQ HL :=
  unfold invoke, relayed_status, sale_detail, credit_detail, reply_record,
    cardconnect.processing_result, cardconnect.refund_result,
    payload.processing_result, payload.refund_result;
  compute_on;
  let B := fresh "B" in
  destruct (500 <=? z) eqn:B; compute_on;
  [| let B2 := fresh "B" in
     destruct (z =? 200) eqn:B2;
     [ apply Z.eqb_eq in B2; rewrite ?B2
     | let B4 := fresh "B" in destruct (z =? 404) eqn:B4 ] ];
  repeat (compute_on; known_tests; literal_tests);
  ship HQ HL;
  destruct m; reflexivity.

(** From the validation of the header to the call of the adapter. *)
Ltac enter Hh Ht Hg K G Hc Hi :=
  rewrite Ht, Hg, K, G; cbn [negb]; reduce;
  cbn [GatewayType_name String.eqb Ascii.eqb Bool.eqb];
  rewrite Hc; reduce; rewrite Hi; reduce.

(** X17. A payment with a card number that passes the checks of the endpoint,
    under a header that validates to a non-empty object under which the log
    record can be written and with a log collector that raises nothing but
    refusals, is answered from the record of the adapter built for its
    gateway: the status is the adapter's, with 500 and above turned into
    400; the body is the record without [gatewayResponseData];
    [responseDetail] is the adapter's message when that is a string, and the
    endpoint's own text otherwise.  The adapter is called once; after its
    calls comes what is done for the log, and nothing else. *)
Theorem sale_relays_adapter (W : World) (bvmeta : option string)
    (header : dict) (payment : Payment) (g : GatewayType) :
  logged_request W bvmeta header ->
  header <> [] ->
  account payment <> None ->
  p_gatewayTypeId payment = GatewayType_value g ->
  keys_superset (p_credentials payment) (GatewayCredentials g) = true ->
  exists p d z,
    build W g (p_credentials payment) = Val p /\
    fst (payment_by W p payment) = Val (PDict d) /\
    lookup "gatewayHttpStatusCode" d = Some (PInt z) /\
    exists logs,
      submit_sale W payment bvmeta =
        (Val (mk_reply (PInt (relayed_status z))
                (PDict [("detail",
                         PDict (reply_record d
                                  (sale_detail g (relayed_status z))))])),
         Adapter (GatewayType_name g) "process_payment"
           :: calls (payment_by W p payment) ++ map Log logs).
Proof.
  intros (Hh & HL & HQ) Hd Ha Hg Hc.
  pose proof (truthy_dict header Hd) as Ht.
  destruct (sale_copy payment Ha) as (copy & Hcopy).
  destruct (build_succeeds W g _ Hc) as (p & Hb & Hi).
  destruct (GatewayType_of_value W g) as [G K].
  exists p.
  destruct g, p; try contradiction.
  - destruct (pl_payment_record W p payment) as (l & E).
    do 2 eexists. split; [exact Hb|]. split; [exact E|].
    split; [reflexivity|].
    unfold payment_by, calls.
    destruct (payload.process_payment W p payment) as [r tr] eqn:Eo.
    simpl in E. subst r.
    exec. rewrite Hh. reduce. rewrite Hcopy. reduce.
    enter Hh Ht Hg K G Hc Hi. rewrite Eo.
    relay (payload.http_status_code l) (payload.message l) HQ HL.
  - destruct (cc_payment_record W c payment) as (l & E).
    do 2 eexists. split; [exact Hb|]. split; [exact E|].
    split; [reflexivity|].
    unfold payment_by, calls.
    destruct (cardconnect.process_payment W c payment) as [r tr] eqn:Eo.
    simpl in E. subst r.
    exec. rewrite Hh. reduce. rewrite Hcopy. reduce.
    enter Hh Ht Hg K G Hc Hi. rewrite Eo.
    relay (cardconnect.http_status_code l) (cardconnect.message l) HQ HL.
Qed.

(** X18. The same for a refund; a Payload refund answered 404 is told that the
    payment transaction id does not exist. *)
Theorem credit_relays_adapter (W : World) (bvmeta : option string)
    (header : dict) (refund : Refund) (g : GatewayType) :
  logged_request W bvmeta header ->
  header <> [] ->
  r_gatewayTypeId refund = GatewayType_value g ->
  keys_superset (r_credentials refund) (GatewayCredentials g) = true ->
  exists p d z,
    build W g (r_credentials refund) = Val p /\
    fst (refund_by W p refund) = Val (PDict d) /\
    lookup "gatewayHttpStatusCode" d = Some (PInt z) /\
    exists logs,
      submit_credit W refund bvmeta =
        (Val (mk_reply (PInt (relayed_status z))
                (PDict [("detail",
                         PDict (reply_record d
                                  (credit_detail g (relayed_status z))))])),
         Adapter (GatewayType_name g) "process_refund"
           :: calls (refund_by W p refund) ++ map Log logs).
Proof.
  intros (Hh & HL & HQ) Hd Hg Hc.
  pose proof (truthy_dict header Hd) as Ht.
  destruct (build_succeeds W g _ Hc) as (p & Hb & Hi).
  destruct (GatewayType_of_value W g) as [G K].
  exists p.
  destruct g, p; try contradiction.
  - destruct (pl_refund_record W p refund) as (l & E).
    do 2 eexists. split; [exact Hb|]. split; [exact E|].
    split; [reflexivity|].
    unfold refund_by, calls.
    destruct (payload.process_refund W p refund) as [r tr] eqn:Eo.
    simpl in E. subst r.
    exec. rewrite Hh. reduce.
    enter Hh Ht Hg K G Hc Hi. rewrite Eo.
    relay (payload.http_status_code l) (payload.message l) HQ HL.
  - destruct (cc_refund_record W c refund) as (l & E).
    do 2 eexists. split; [exact Hb|]. split; [exact E|].
    split; [reflexivity|].
    unfold refund_by, calls.
    destruct (cardconnect.process_refund W c refund) as [r tr] eqn:Eo.
    simpl in E. subst r.
    exec. rewrite Hh. reduce.
    enter Hh Ht Hg K G Hc Hi. rewrite Eo.
    relay (cardconnect.http_status_code l) (cardconnect.message l) HQ HL.
Qed.

(** The reply is read off once the endpoint has run to the shipment of the
    log record, whose outcome decides between the reply and an exception. *)
Ltac answered :=
  repeat (compute_on_left; known_tests; literal_tests);
  lazymatch goal with
  | |- context [logging.send_log ?S ?h ?rd ?u ?t ?lv ?c] =>
      exists rd, lv, c; do 2 eexists; split;
      [ unfold finished;
        destruct (logging.send_log S h rd u t lv c) as [[[]|?] ?];
        cbn [fst snd]; reflexivity
      | unfold well_formed; do 2 eexists;
        split; [reflexivity|];
        split; [first [reflexivity | lia]|];
        split; [reflexivity|];
        split; [|reflexivity];
        first [ eexists; reflexivity
              | match goal with
                | |- context [match ?m with PNone => _ | _ => _ end] =>
                    destruct m; eexists; reflexivity
                end ] ]
  end.

(** The three cases of the status [z] of an adapter, then the reply. *)
Ltac status_cases z m :=
  unfold invoke, cardconnect.processing_result, cardconnect.refund_result,
    payload.processing_result, payload.refund_result;
  compute_on_left;
  let B := fresh "B" in
  destruct (500 <=? z) eqn:B; compute_on_left;
  [| apply Z.leb_gt in B;
     let B2 := fresh "B" in
     destruct (z =? 200) eqn:B2;
     [| let B4 := fresh "B" in destruct (z =? 404) eqn:B4 ] ];
  answered.

(** An endpoint that got past the header, and past the copy of the request,
    runs to the shipment of the log record with a reply in hand. *)
Lemma sale_cases (W : World) (payment : Payment) (bvmeta : option string) :
  match validate_bvmeta_header W bvmeta with
  | Exn e => submit_sale W payment bvmeta = (Exn e, [])
  | Val header =>
      match logging.sale_request_body payment with
      | Exn e => submit_sale W payment bvmeta = (Exn e, [])
      | Val _ =>
          exists request_data level code r tr,
            submit_sale W payment bvmeta =
              finished (logging.send_log (logger W) header request_data
                          "/paymentGateway/processPayment" "POST" level code)
                r tr /\
            well_formed (p_merchantAccountId payment) r
      end
  end.
Proof.
  exec. destruct (validate_bvmeta_header W bvmeta) as [header|e]; reduce;
    [|reflexivity].
  destruct (logging.sale_request_body payment) as [copy|e]; reduce;
    [|reflexivity].
  (destruct (truthy header); cbn [negb]; reduce; [|answered]).
  (destruct (known_gateway_type (p_gatewayTypeId payment)) eqn:K; [|answered]).
  apply known_gateway_type_spec in K. destruct K as [K|K]; rewrite K;
    cbn [GatewayType_of GatewayType_name Z.eqb Pos.eqb String.eqb Ascii.eqb
         Bool.eqb]; reduce.
  - (destruct (keys_superset (p_credentials payment) (GatewayCredentials Payload));
      reduce; [|answered]).
    (destruct (payload.init (p_credentials payment)) as [p|e]; reduce;
      [|answered]).
    destruct (pl_payment_record W p payment) as (l & E).
    destruct (payload.process_payment W p payment) as [r tr] eqn:Eo.
    simpl in E. subst r.
    status_cases (payload.http_status_code l) (payload.message l).
  - destruct (keys_superset (p_credentials payment)
                (GatewayCredentials CardConnect));
      reduce; [|answered].
    destruct (cardconnect.init (p_credentials payment) (CARDCONNECT_HOSTNAME W))
      as [c|e]; reduce; [|answered].
    destruct (cc_payment_record W c payment) as (l & E).
    destruct (cardconnect.process_payment W c payment) as [r tr] eqn:Eo.
    simpl in E. subst r.
    status_cases (cardconnect.http_status_code l) (cardconnect.message l).
Qed.

Lemma credit_cases (W : World) (refund : Refund) (bvmeta : option string) :
  match validate_bvmeta_header W bvmeta with
  | Exn e => submit_credit W refund bvmeta = (Exn e, [])
  | Val header =>
      exists request_data level code r tr,
        submit_credit W refund bvmeta =
          finished (logging.send_log (logger W) header request_data
                      "/paymentGateway/processRefund" "POST" level code)
            r tr /\
        well_formed (r_merchantAccountId refund) r
  end.
Proof.
  exec. destruct (validate_bvmeta_header W bvmeta) as [header|e]; reduce;
    [|reflexivity].
  destruct (truthy header); cbn [negb]; reduce; [|answered].
  destruct (known_gateway_type (r_gatewayTypeId refund)) eqn:K; [|answered].
  apply known_gateway_type_spec in K. destruct K as [K|K]; rewrite K;
    cbn [GatewayType_of GatewayType_name Z.eqb Pos.eqb String.eqb Ascii.eqb
         Bool.eqb]; reduce.
  - destruct (keys_superset (r_credentials refund) (GatewayCredentials Payload));
      reduce; [|answered].
    destruct (payload.init (r_credentials refund)) as [p|e]; reduce;
      [|answered].
    destruct (pl_refund_record W p refund) as (l & E).
    destruct (payload.process_refund W p refund) as [r tr] eqn:Eo.
    simpl in E. subst r.
    status_cases (payload.http_status_code l) (payload.message l).
  - destruct (keys_superset (r_credentials refund)
                (GatewayCredentials CardConnect));
      reduce; [|answered].
    destruct (cardconnect.init (r_credentials refund) (CARDCONNECT_HOSTNAME W))
      as [c|e]; reduce; [|answered].
    destruct (cc_refund_record W c refund) as (l & E).
    destruct (cardconnect.process_refund W c refund) as [r tr] eqn:Eo.
    simpl in E. subst r.
    status_cases (cardconnect.http_status_code l) (cardconnect.message l).
Qed.

(** X19. Where an endpoint raises.  An exception leaves an endpoint from three
    places only: the validation of the header, the copy of a payment that
    has no card number, and the shipment of the log record; every fault of
    an adapter, and every fault between the checks and the log, is turned
    into a reply.  So, under a header that validates to an object under
    which the log record can be written and with a log collector that raises
    nothing but refusals, every refund and every payment with a card number
    is answered. *)
Theorem endpoint_raises_three_ways (W : World) (payment : Payment)
    (refund : Refund) (bvmeta : option string) :
  (forall e, fst (submit_sale W payment bvmeta) = Exn e ->
     validate_bvmeta_header W bvmeta = Exn e \/
     logging.sale_request_body payment = Exn e \/
     exists header request_data level code,
       validate_bvmeta_header W bvmeta = Val header /\
       fst (logging.send_log (logger W) header request_data
              "/paymentGateway/processPayment" "POST" level code) = Exn e) /\
  (forall e, fst (submit_credit W refund bvmeta) = Exn e ->
     validate_bvmeta_header W bvmeta = Exn e \/
     exists header request_data level code,
       validate_bvmeta_header W bvmeta = Val header /\
       fst (logging.send_log (logger W) header request_data
              "/paymentGateway/processRefund" "POST" level code) = Exn e) /\
  (forall d, logged_request W bvmeta d ->
     (account payment <> None ->
      exists r tr, submit_sale W payment bvmeta = (Val r, tr)) /\
     (exists r tr, submit_credit W refund bvmeta = (Val r, tr))).
Proof.
  pose proof (sale_cases W payment bvmeta) as S.
  pose proof (credit_cases W refund bvmeta) as C.
  split; [|split].
  - intros e H.
    destruct (validate_bvmeta_header W bvmeta) as [header|e'].
    + right.
      destruct (logging.sale_request_body payment) as [copy|e''].
      * right. destruct S as (rd & lv & c & r & tr & S & _).
        exists header, rd, lv, c. split; [reflexivity|].
        rewrite S in H. unfold finished in H.
        destruct (fst (logging.send_log _ _ _ _ _ _ _)); [discriminate|].
        injection H as <-. reflexivity.
      * left. rewrite S in H. simpl in H. injection H as <-. reflexivity.
    + left. rewrite S in H. simpl in H. injection H as <-. reflexivity.
  - intros e H.
    destruct (validate_bvmeta_header W bvmeta) as [header|e'].
    + right. destruct C as (rd & lv & c & r & tr & C & _).
      exists header, rd, lv, c. split; [reflexivity|].
      rewrite C in H. unfold finished in H.
      destruct (fst (logging.send_log _ _ _ _ _ _ _)); [discriminate|].
      injection H as <-. reflexivity.
    + left. rewrite C in H. simpl in H. injection H as <-. reflexivity.
  - intros d (Hh & HL & HQ). rewrite Hh in S, C. split.
    + intros Ha. destruct (sale_copy payment Ha) as (copy & Hcopy).
      rewrite Hcopy in S. destruct S as (rd & lv & c & r & tr & S & _).
      destruct (logging_proofs.send_log_quiet (logger W) d rd
                  "/paymentGateway/processPayment" "POST" lv c HQ HL)
        as (evs & E).
      rewrite S, E. unfold finished. simpl fst. eauto.
    + destruct C as (rd & lv & c & r & tr & C & _).
      destruct (logging_proofs.send_log_quiet (logger W) d rd
                  "/paymentGateway/processRefund" "POST" lv c HQ HL)
        as (evs & E).
      rewrite C, E. unfold finished. simpl fst. eauto.
Qed.

Lemma endpoint_raises_three_ways_witness :
  let W := examples.http_world (200, PNone) (200, PDict examples.bv_header) in
  let payment := examples.a_payment 2 840 examples.cc_credentials None None None in
  exists r tr, submit_sale W payment (Some "header") = (Val r, tr).
Proof.
  intros W payment.
  assert (Ha : account payment <> None) by discriminate.
  destruct (endpoint_raises_three_ways W payment
              (examples.a_refund 3 examples.pl_credentials None)
              (Some "header"))
    as (_ & _ & H).
  destruct (H examples.bv_header bv_header_logged) as [Hs _].
  exact (Hs Ha).
Defined.

(** X20. Whatever the request, the header and the gateway, a reply has an
    integer status below 500 and a body [{'detail': d}] in which [d] has no
    [gatewayResponseData], holds a string under [responseDetail], and
    echoes the merchant account of the request. *)
Theorem replies_well_formed (W : World) (payment : Payment) (refund : Refund)
    (bvmeta : option string) (r : Reply) :
  (fst (submit_sale W payment bvmeta) = Val r ->
   well_formed (p_merchantAccountId payment) r) /\
  (fst (submit_credit W refund bvmeta) = Val r ->
   well_formed (r_merchantAccountId refund) r).
Proof.
  pose proof (sale_cases W payment bvmeta) as S.
  pose proof (credit_cases W refund bvmeta) as C.
  destruct (validate_bvmeta_header W bvmeta) as [header|e'].
  - split.
    + destruct (logging.sale_request_body payment) as [copy|e].
      * destruct S as (rd & lv & c & r1 & tr & -> & S).
        unfold finished.
        destruct (fst (logging.send_log _ _ _ _ _ _ _)); [|discriminate].
        intros H. injection H as <-. exact S.
      * rewrite S. discriminate.
    + destruct C as (rd & lv & c & r2 & tr & -> & C).
      unfold finished.
      destruct (fst (logging.send_log _ _ _ _ _ _ _)); [|discriminate].
      intros H. injection H as <-. exact C.
  - rewrite S, C. simpl. split; discriminate.
Qed.

Lemma replies_well_formed_witness :
  well_formed 17
    (precondition_failure "paymentTransactionId" 17 "Incomplete request").
Proof.
  destruct (replies_well_formed
              (examples.http_world (200, PNone) (200, PDict examples.bv_header))
              (examples.a_payment 3 840 examples.pl_credentials None None None)
              (examples.a_refund 3 examples.pl_credentials None)
              None
              (precondition_failure "paymentTransactionId" 17
                 "Incomplete request"))
    as [H _].
  apply H. reflexivity.
Defined.

(** *** The header *)

Lemma no_key_among_chars (s k : string) :
  (1 < String.length k)%nat ->
  existsb (fun x => eq_str x k) (chars s) = false.
Proof.
  intros Hk. induction s as [|c s IH]; [reflexivity|].
  simpl. rewrite IH, orb_false_r.
  destruct k as [|a [|b k]]; simpl in Hk; try lia.
  simpl. destruct (Ascii.eqb c a); reflexivity.
Qed.

Lemma superset_dict (d : dict) (required : list string) :
  superset (map (fun kv => PStr (fst kv)) d) required =
  keys_superset d required.
Proof.
  assert (K : forall k, existsb (fun x => eq_str x k)
                          (map (fun kv => PStr (fst kv)) d) = has_key k d).
  { intros k. unfold has_key. induction d as [|[k' v] d IH]; [reflexivity|].
    simpl. destruct (k' =? k)%string; [reflexivity|]. exact IH. }
  unfold superset, keys_superset.
  induction required as [|k required IH]; [reflexivity|].
  simpl. rewrite K, IH. reflexivity.
Qed.

Lemma superset_In (l : list pyval) (required : list string) :
  superset l required = true ->
  forall k, In k required -> In (PStr k) l.
Proof.
  unfold superset. rewrite forallb_forall. intros H k Hk.
  specialize (H k Hk). apply existsb_exists in H.
  destruct H as (x & Hx & E). destruct x; try discriminate.
  simpl in E. apply String.eqb_eq in E. subst. exact Hx.
Qed.

(** X21. What the validation lets through: the empty dict, which the endpoints
    take for a rejection, or the JSON value of the header when that is an
    object with the three required keys, or a list that holds the three
    keys as strings; never a JSON string, number, boolean or null. *)
Theorem validated_header_shape (W : World) (bvmeta : option string)
    (v : pyval) :
  validate_bvmeta_header W bvmeta = Val v ->
  v = PDict [] \/
  exists h, bvmeta = Some h /\ json_loads W h = Val v /\
    ((exists d, v = PDict d /\
                keys_superset d REQUIRED_BLUEVOLT_HEADER_KEYS = true) \/
     (exists l, v = PList l /\
                forall k, In k REQUIRED_BLUEVOLT_HEADER_KEYS -> In (PStr k) l)).
Proof.
  unfold validate_bvmeta_header.
  destruct bvmeta as [h|]; [|intros [= <-]; left; reflexivity].
  destruct (json_loads W h) as [j|e] eqn:Ej.
  2:{ destruct (isinstance e "ValueError"); [|discriminate].
      intros [= <-]. left. reflexivity. }
  destruct (set_of j) as [items|e] eqn:Es.
  2:{ destruct (isinstance e "ValueError"); [|discriminate].
      intros [= <-]. left. reflexivity. }
  destruct (superset items REQUIRED_BLUEVOLT_HEADER_KEYS) eqn:Su;
    cbn [negb]; intros [= <-]; [|left; reflexivity].
  right. exists h. split; [reflexivity|]. split; [exact Ej|].
  destruct j; simpl in Es; try discriminate.
  - injection Es as <-. unfold superset in Su. simpl in Su.
    rewrite (no_key_among_chars s "transactionId") in Su by (simpl; lia).
    discriminate.
  - right. exists l. split; [reflexivity|].
    destruct (first_unhashable l); [discriminate|].
    injection Es as <-. apply superset_In. exact Su.
  - left. exists d. split; [reflexivity|].
    injection Es as <-. rewrite superset_dict in Su. exact Su.
Qed.

Lemma validated_header_shape_witness :
  exists h, Some "header" = Some h /\
    exists d, PDict examples.bv_header = PDict d /\
              keys_superset d REQUIRED_BLUEVOLT_HEADER_KEYS = true.
Proof.
  destruct (validated_header_shape
              (examples.http_world (200, PNone) (200, PDict examples.bv_header))
              (Some "header") (PDict examples.bv_header) eq_refl)
    as [H | (h & Hh & _ & [H | (l & H & _)])].
  - discriminate H.
  - exists h. split; [exact Hh | exact H].
  - discriminate H.
Defined.

(** X22. A header that is not JSON, or that is a JSON object without one of the
    three keys, or a JSON string, or no header at all, with a log collector
    that raises nothing but refusals: a refund, and a payment with a card
    number, are answered 400 with "Incomplete request" and the record as it
    was initialised; no adapter is called and no gateway, and the trace
    holds what was done for the log and nothing else. *)
Theorem incomplete_request (W : World) (payment : Payment) (refund : Refund)
    (bvmeta : option string) :
  (bvmeta = None \/
   exists h, bvmeta = Some h /\
     ((exists e, json_loads W h = Exn e /\ isinstance e "ValueError" = true) \/
      (exists d, json_loads W h = Val (PDict d) /\
                 keys_superset d REQUIRED_BLUEVOLT_HEADER_KEYS = false) \/
      (exists s, json_loads W h = Val (PStr s)))) ->
  logging.quiet (logger W) ->
  (account payment <> None ->
   exists logs,
     submit_sale W payment bvmeta =
       (Val (precondition_failure "paymentTransactionId"
               (p_merchantAccountId payment) "Incomplete request"),
        map Log logs)) /\
  (exists logs,
     submit_credit W refund bvmeta =
       (Val (precondition_failure "refundTransactionId"
               (r_merchantAccountId refund) "Incomplete request"),
        map Log logs)).
Proof.
  intros H HQ.
  assert (V : validate_bvmeta_header W bvmeta = Val (PDict [])).
  { unfold validate_bvmeta_header.
    destruct H as [-> | (h & -> & [(e & -> & ->) | [(d & -> & Hd) | (s & ->)]])];
      try reflexivity.
    - cbv [set_of]. rewrite superset_dict, Hd. reflexivity.
    - cbv [set_of]. unfold superset. simpl forallb.
      rewrite (no_key_among_chars s "transactionId") by (simpl; lia).
      reflexivity. }
  pose proof logging_proofs.loggable_empty as HL.
  split.
  - intros Ha. destruct (sale_copy payment Ha) as (copy & Hcopy).
    exec. rewrite V. reduce. rewrite Hcopy. reduce.
    cbn [truthy negb]. reduce.
    cbn [contains has_key lookup String.eqb Ascii.eqb Bool.eqb getitem
         delitem setitem dict_del dict_set]. reduce.
    ship HQ HL. reflexivity.
  - exec. rewrite V. reduce.
    cbn [truthy negb]. reduce.
    cbn [contains has_key lookup String.eqb Ascii.eqb Bool.eqb getitem
         delitem setitem dict_del dict_set]. reduce.
    ship HQ HL. reflexivity.
Qed.

Lemma incomplete_request_witness :
  let W := examples.sdk_world [] [] [] in
  exists logs,
    submit_sale W
      (examples.a_payment 1 840 examples.pl_credentials None None None)
      (Some "{'transactionId': 7") =
      (Val (precondition_failure "paymentTransactionId" 17 "Incomplete request"),
       map Log logs).
Proof.
  intros W.
  assert (H : Some "{'transactionId': 7" = None \/
    exists h, Some "{'transactionId': 7" = Some h /\
     ((exists e, json_loads W h = Exn e /\ isinstance e "ValueError" = true) \/
      (exists d, json_loads W h = Val (PDict d) /\
                 keys_superset d REQUIRED_BLUEVOLT_HEADER_KEYS = false) \/
      (exists s, json_loads W h = Val (PStr s)))).
  { right. eexists. split; [reflexivity|]. left. eexists.
    split; reflexivity. }
  assert (Ha : account (examples.a_payment 1 840 examples.pl_credentials
                          None None None) <> None) by discriminate.
  destruct (incomplete_request W
              (examples.a_payment 1 840 examples.pl_credentials None None None)
              (examples.a_refund 1 examples.pl_credentials None)
              (Some "{'transactionId': 7") H
              (logging_proofs.quiet_accepting 0)) as [Hs _].
  exact (Hs Ha).
Defined.

(** X23. A header whose JSON is null, a boolean, a number, or a list holding a
    list or an object, is not answered "Incomplete request": the [TypeError]
    of [set(...)] is not among the exceptions the validation catches, and it
    leaves both endpoints before anything is called. *)
Theorem header_type_error_escapes (W : World) (h : string) (v : pyval)
    (payment : Payment) (refund : Refund) :
  json_loads W h = Val v ->
  (forall s, v <> PStr s) ->
  (forall d, v <> PDict d) ->
  (forall l, v = PList l -> first_unhashable l <> None) ->
  exists e, exn_class e = "TypeError" /\
    validate_bvmeta_header W (Some h) = Exn e /\
    submit_sale W payment (Some h) = (Exn e, []) /\
    submit_credit W refund (Some h) = (Exn e, []).
Proof.
  intros Hj Hs Hd Hl.
  assert (V : exists e, exn_class e = "TypeError" /\
                        validate_bvmeta_header W (Some h) = Exn e).
  { unfold validate_bvmeta_header. rewrite Hj.
    destruct v; simpl set_of;
      try (eexists; split; [|reflexivity]; reflexivity).
    - destruct (Hs s eq_refl).
    - specialize (Hl l eq_refl).
      destruct (first_unhashable l); [|contradiction].
      eexists; split; [|reflexivity]; reflexivity.
    - destruct (Hd d eq_refl). }
  destruct V as (e & He & V). exists e.
  split; [exact He|]. split; [exact V|].
  split; exec; rewrite V; reflexivity.
Qed.

Lemma header_type_error_escapes_witness :
  let W := examples.http_world (200, PNone) (200, PInt 5) in
  exists e,
    exn_class e = "TypeError" /\
    submit_sale W
      (examples.a_payment 1 840 examples.pl_credentials None None None)
      (Some "5") = (Exn e, []).
Proof.
  intros W.
  assert (S : forall s, PInt 5 <> PStr s) by discriminate.
  assert (D : forall d, PInt 5 <> PDict d) by discriminate.
  assert (L : forall l, PInt 5 = PList l -> first_unhashable l <> None)
    by discriminate.
  destruct (header_type_error_escapes W "5" (PInt 5)
              (examples.a_payment 1 840 examples.pl_credentials None None None)
              (examples.a_refund 1 examples.pl_credentials None)
              eq_refl S D L)
    as (e & He & _ & Hs & _).
  exists e. split; assumption.
Defined.

Lemma inquiry_logged (answer : Z * pyval) :
  logged_request (examples.http_world (200, PDict examples.bv_header) answer)
    (Some "inquiry") examples.bv_header.
Proof.
  split; [reflexivity|]. split.
  - intros v H. discriminate.
  - apply logging_proofs.quiet_accepting.
Qed.

Lemma sale_relays_adapter_witness :
  let W := examples.http_world (200, PDict examples.bv_header) (503, PNone) in
  let payment := examples.a_payment 2 840 examples.cc_credentials None None None in
  exists r tr,
    submit_sale W payment (Some "inquiry") =
      (Val r, Adapter "CardConnect" "process_payment" :: tr) /\
    reply_status r = PInt 400.
Proof.
  intros W payment.
  assert (Hd : examples.bv_header <> []) by discriminate.
  assert (Ha : account payment <> None) by discriminate.
  destruct (sale_relays_adapter W (Some "inquiry") examples.bv_header
              payment CardConnect (inquiry_logged (503, PNone)) Hd Ha
              eq_refl eq_refl)
    as (p & d & z & Hb & Hr & Hz & logs & Hs).
  injection Hb as <-. vm_compute in Hr. injection Hr as <-.
  vm_compute in Hz. injection Hz as <-.
  rewrite Hs. do 2 eexists. split; reflexivity.
Defined.

Lemma credit_relays_adapter_witness :
  let W := examples.http_world (200, PDict examples.bv_header) (200, PNone) in
  let refund := examples.a_refund 1 examples.pl_credentials None in
  exists d tr,
    submit_credit W refund (Some "inquiry") =
      (Val (mk_reply (PInt 404) (PDict [("detail", PDict d)])),
       Adapter "Payload" "process_refund" :: tr) /\
    lookup "responseDetail" d =
      Some (PStr "The provided payment transaction id does not exist").
Proof.
  intros W refund.
  assert (Hd : examples.bv_header <> []) by discriminate.
  destruct (credit_relays_adapter W (Some "inquiry") examples.bv_header
              refund Payload (inquiry_logged (200, PNone)) Hd eq_refl eq_refl)
    as (p & d & z & Hb & Hr & Hz & logs & Hs).
  injection Hb as <-. vm_compute in Hr. injection Hr as <-.
  vm_compute in Hz. injection Hz as <-.
  rewrite Hs. do 2 eexists. split; reflexivity.
Defined.

End main_extra.
